(** * Activity monitoring core of the desktop companion

    A shallow embedding of the two [SystemTrayService] classes of the
    repository:

    - [Tray]     : src/services/SystemTrayService.ts (focus score and
                   distraction-streak detector, one shared state);
    - [UserTray] : the class kept in src/hooks/use-toast-duration.ts
                   (per-user isolation, no streak detector).

    Conventions of the embedding.

    - A JavaScript string is the list of its UTF-16 code units ([list N]).
    - Times and counters are JavaScript numbers holding integers; they are
      modelled by [Z] (no rounding below 2^53).
    - [Date.now()] is an input: every callback takes the clock reading [now]
      of its run, and one run of a callback sees one reading.
    - [String.prototype.toLowerCase] is a host built-in; [toLowerCase] below
      maps the ASCII capitals and leaves every other code unit unchanged.
    - Calls that leave the object (listener callbacks, IPC messages to the
      Electron host) are collected in a list of [effect]s, in call order.
    - Host timers are events of the environment: an interval or timeout
      callback is a function of the state, run when the host fires it.
      [switchTimer] holds the due time of the pending timeout, if any.
    - [localStorage] is a field of the state: the page's storage as the
      service reads and writes it; the code runs in a browser window.
    - Left out: the tray icon and tooltip setters, the preferences calls
      to the HTTP API, the eye-care and test notifications, the
      development-mode window simulation.  None of them writes a field
      that a statement below reads. *)

From Stdlib Require Import ZArith NArith Lia Bool String Ascii.
From stdpp Require Import gmap list pretty.

Local Open Scope Z_scope.

(** ** JavaScript strings *)

Abbreviation jsstring := (list N).

Definition js (s : string) : jsstring :=
  List.map N_of_ascii (list_ascii_of_string s).

Definition isEmptyString (s : jsstring) : bool :=
  match s with [] => true | _ => false end.

Definition lowerUnit (c : N) : N :=
  if ((65 <=? c) && (c <=? 90))%N then (c + 32)%N else c.

Definition toLowerCase (s : jsstring) : jsstring := List.map lowerUnit s.

Fixpoint startsWith (s t : jsstring) {struct t} : bool :=
  match t with
  | [] => true
  | b :: t' =>
      match s with
      | [] => false
      | a :: s' => (a =? b)%N && startsWith s' t'
      end
  end.

(** [s.includes(t)]: [t] occurs in [s] at some position. *)
Fixpoint includes (s t : jsstring) : bool :=
  startsWith s t ||
  match s with
  | [] => false
  | _ :: s' => includes s' t
  end.

(** ECMAScript LineTerminator code points. *)
Definition isLineTerminator (c : N) : bool :=
  ((c =? 10) || (c =? 13) || (c =? 8232) || (c =? 8233))%N.

(** The class [\s], which is also what [trim] strips: WhiteSpace and
    LineTerminator. *)
Definition isSpace (c : N) : bool :=
  isLineTerminator c ||
  ((c =? 9) || (c =? 11) || (c =? 12) || (c =? 32) || (c =? 160) ||
   (c =? 5760) || ((8192 <=? c) && (c <=? 8202)) || (c =? 8239) ||
   (c =? 8287) || (c =? 12288) || (c =? 65279))%N.

(** [\d] without the unicode flag. *)
Definition isDigit (c : N) : bool := ((48 <=? c) && (c <=? 57))%N.

(** [[-–—]]: hyphen-minus, en dash, em dash. *)
Definition isDash (c : N) : bool :=
  ((c =? 45) || (c =? 8211) || (c =? 8212))%N.

Definition isPipe (c : N) : bool := (c =? 124)%N.
Definition isColon (c : N) : bool := (c =? 58)%N.

Fixpoint trimStart (s : jsstring) : jsstring :=
  match s with
  | [] => []
  | c :: s' => if isSpace c then trimStart s' else s
  end.

Definition trimEnd (s : jsstring) : jsstring := rev (trimStart (rev s)).

(** [s.trim()] *)
Definition trim (s : jsstring) : jsstring := trimEnd (trimStart s).

(** ** NameNormalizer: [extractAppName]

    The pattern is
    [/^(.*?)(?:\s[-–—]\s|\s\|\s|\s:|\s\d|$)/].
    [sepAt r] says that one of the four leading alternatives of the
    non-capturing group matches at the start of [r]. *)
Definition sepAt (r : jsstring) : bool :=
  match r with
  | w :: c :: r' =>
      isSpace w &&
      ((isDash c && match r' with x :: _ => isSpace x | [] => false end) ||
       (isPipe c && match r' with x :: _ => isSpace x | [] => false end) ||
       isColon c ||
       isDigit c)
  | _ => false
  end.

(** The lazy group [(.*?)] grows one code unit at a time; after each
    length the alternatives are tried, the last of them being [$].  [.]
    does not match a line terminator, so the match fails when one is met
    before any alternative has matched.  [acc] is the group so far, in
    reverse. *)
Fixpoint matchFrom (acc r : jsstring) : option jsstring :=
  if sepAt r then Some (rev acc)
  else
    match r with
    | [] => Some (rev acc)
    | c :: r' => if isLineTerminator c then None else matchFrom (c :: acc) r'
    end.

(** [windowTitle.match(...)?.[1]] *)
Definition matchAppName (windowTitle : jsstring) : option jsstring :=
  matchFrom [] windowTitle.

Definition extractAppName (windowTitle : jsstring) : jsstring :=
  if isEmptyString windowTitle then []
  else
    match matchAppName windowTitle with
    | Some g => if isEmptyString (trim g) then trim windowTitle else trim g
    | None => trim windowTitle
    end.

(** ** AppClassifier: [determineAppType] *)
Inductive AppType := productive | distraction | communication.

Definition productiveKeywords : list jsstring :=
  List.map js ["code"; "word"; "excel"; "powerpoint"; "outlook"; "terminal";
               "studio"; "notepad"; "editor"]%string.

Definition communicationKeywords : list jsstring :=
  List.map js ["teams"; "slack"; "zoom"; "meet"; "mail"; "outlook";
               "gmail"]%string.

Definition distractionKeywords : list jsstring :=
  List.map js ["youtube"; "netflix"; "facebook"; "instagram"; "twitter";
               "game"; "reddit"; "tiktok"]%string.

Definition determineAppType (appName : jsstring) : AppType :=
  let appNameLower := toLowerCase appName in
  if existsb (includes appNameLower) productiveKeywords then productive
  else if existsb (includes appNameLower) communicationKeywords then communication
  else if existsb (includes appNameLower) distractionKeywords then distraction
  else productive.

(** ** WhitelistMatcher *)
Definition DEFAULT_WHITELIST_APPS : list jsstring :=
  List.map js ["Electron"; "electron"; "Mindful Desktop Companion";
               "chrome-devtools"]%string.

(** The callback given to [some] in [trackAppUsage], [isAppInWhitelist]
    and [notifyFocusModeViolation]. *)
Definition fuzzyMatch (appName entry : jsstring) : bool :=
  includes (toLowerCase appName) (toLowerCase entry) ||
  includes (toLowerCase entry) (toLowerCase appName).

Definition isSystemApp (appName : jsstring) : bool :=
  existsb (fuzzyMatch appName) DEFAULT_WHITELIST_APPS.

Definition isAppInWhitelist (appName : jsstring) (whitelist : list jsstring) : bool :=
  if isEmptyString appName then false
  else if isSystemApp appName then true
  else existsb (fuzzyMatch appName) whitelist.

(** [[...new Set([...whitelist, ...DEFAULT_WHITELIST_APPS])]]: the
    concatenation with later repeats removed, first occurrences in order. *)
Fixpoint uniq (seen l : list jsstring) : list jsstring :=
  match l with
  | [] => []
  | x :: l' =>
      if existsb (fun y => bool_decide (x = y)) seen then uniq seen l'
      else x :: uniq (x :: seen) l'
  end.

Definition mergeWhitelist (whitelist : list jsstring) : list jsstring :=
  uniq [] (whitelist ++ DEFAULT_WHITELIST_APPS).

(** ** What leaves the service *)

(** One entry of the array handed to app-usage listeners; the name is the
    key under which it is kept.  The order of the entries is not modelled. *)
Record UsageItem := {
  itemTime : Z;
  itemType : AppType;
  itemLastActiveTime : Z }.

(** Payload of [window.electron.send('show-native-notification', ...)]. *)
Record NativeNotification := {
  title : jsstring;
  body : jsstring;
  notificationId : option jsstring }.

Inductive effect :=
| Listener (cb : nat) (message : jsstring) (isFocusAlert : bool)
| ScreenTimeListener (cb : nat) (screenTime : Z)
| FocusScoreListener (cb : nat) (score distractions : Z)
| AppUsageListener (cb : nat) (appUsage : gmap jsstring UsageItem)
| FocusModeListener (cb : nat) (isActive : bool)
| ShowNativeNotification (n : NativeNotification)
| SetTrayTooltip (tooltip : jsstring)
| ActiveWindowChangedEvent (detail : jsstring).

(** A method body: it updates the object and makes calls. *)
Definition Cmd (S : Type) : Type := S -> S * list effect.

Definition skip {S} : Cmd S := fun s => (s, []).

Definition modify {S} (f : S -> S) : Cmd S := fun s => (f s, []).

Definition call {S} (f : S -> list effect) : Cmd S := fun s => (s, f s).

Definition andThen {S} (c1 c2 : Cmd S) : Cmd S := fun s =>
  let (s1, o1) := c1 s in
  let (s2, o2) := c2 s1 in
  (s2, o1 ++ o2).

Notation "c1 ;- c2" := (andThen c1 c2) (at level 65, right associativity).

(** Constants shared by the two classes. *)
Definition switchThreshold : Z := 3.
Definition switchTimeframe : Z := 30000.
Definition notificationCooldown : Z := 180000.
Definition idleThreshold : Z := 60000.
Definition maxAge : Z := 24 * 60 * 60 * 1000.

Definition focusNeededMessage : jsstring :=
  js "You seem distracted. Try focusing on one task at a time.".

Definition violationMessage (appName : jsstring) : jsstring :=
  js "You're outside your focus zone. " ++ appName ++
  js " is not in your whitelist.".

(** Decimal digits of a non-negative clock reading, as template literals
    print it. *)
Definition numberToString (n : Z) : jsstring := js (pretty n).

(** [windowInfo.owner || "Unknown"] followed by
    [appOwner !== "Unknown" ? appOwner : appTitle]. *)
Definition ownerOrUnknown (owner : option jsstring) : jsstring :=
  match owner with
  | Some o => if isEmptyString o then js "Unknown" else o
  | None => js "Unknown"
  end.

(** [list.indexOf(callback)] followed by [splice(index, 1)] when it was
    found: the first occurrence goes. *)
Fixpoint removeFirst (callback : nat) (l : list nat) : list nat :=
  match l with
  | [] => []
  | x :: l' => if Nat.eqb x callback then l' else x :: removeFirst callback l'
  end.

(** [formatScreenTime], the same method in both classes.  [Math.floor] of
    a quotient of integers is [Z.div]; [%] is the remainder that takes the
    sign of the dividend, [Z.rem]. *)
Definition formatScreenTime (milliseconds : Z) : jsstring :=
  let totalMinutes := milliseconds / 60000 in
  let hours := totalMinutes / 60 in
  let minutes := Z.rem totalMinutes 60 in
  numberToString hours ++ js "h " ++ numberToString minutes ++ js "m".

(** ** src/services/SystemTrayService.ts *)
Module Tray.

Record AppData := {
  time : Z;
  type : AppType;
  lastActiveTime : Z }.

(** What [JSON.parse] gives back for the stored blob.  [JSON.stringify]
    followed by [JSON.parse] is the identity on the values written here
    (integers, strings, booleans and arrays of them), so the storage keeps
    the value itself; a property that may be missing is an [option]. *)
Module Saved.
Record App := {
  name : jsstring;
  time : Z;
  type : AppType;
  lastActiveTime : Z }.
Record Data := {
  screenTimeToday : option Z;
  focusScore : option Z;
  distractionCount : option Z;
  appUsageData : option (list App);
  focusModeWhitelist : option (list jsstring);
  isFocusMode : option bool;
  dimInsteadOfBlock : option bool;
  timestamp : option Z }.
End Saved.

Abbreviation SavedData := Saved.Data.

Record State := {
  lastActiveWindow : option jsstring;
  windowSwitches : Z;
  switchTimer : option Z;
  listeners : list nat;
  isDesktopApp : bool;
  lastNotificationTime : Z;
  notificationThrottleMap : gmap jsstring Z;
  screenTimeToday : Z;
  lastScreenTimeUpdate : Z;
  lastActivityTime : Z;
  screenTimeListeners : list nat;
  appUsageListeners : list nat;
  appUsageData : gmap jsstring AppData;
  userIdleTime : Z;
  focusScore : Z;
  distractionCount : Z;
  focusScoreUpdateListeners : list nat;
  isFocusMode : bool;
  focusModeWhitelist : list jsstring;
  dimInsteadOfBlock : bool;
  focusModeListeners : list nat;
  recentSwitches : Z;
  lastWindowSwitchTime : Z;
  localStorage : gmap jsstring SavedData }.

Definition set_lastActiveWindow (v : option jsstring) (s : State) : State :=
  {| lastActiveWindow := v; windowSwitches := windowSwitches s; switchTimer := switchTimer s; listeners := listeners s; isDesktopApp := isDesktopApp s; lastNotificationTime := lastNotificationTime s; notificationThrottleMap := notificationThrottleMap s; screenTimeToday := screenTimeToday s; lastScreenTimeUpdate := lastScreenTimeUpdate s; lastActivityTime := lastActivityTime s; screenTimeListeners := screenTimeListeners s; appUsageListeners := appUsageListeners s; appUsageData := appUsageData s; userIdleTime := userIdleTime s; focusScore := focusScore s; distractionCount := distractionCount s; focusScoreUpdateListeners := focusScoreUpdateListeners s; isFocusMode := isFocusMode s; focusModeWhitelist := focusModeWhitelist s; dimInsteadOfBlock := dimInsteadOfBlock s; focusModeListeners := focusModeListeners s; recentSwitches := recentSwitches s; lastWindowSwitchTime := lastWindowSwitchTime s; localStorage := localStorage s |}.

Definition set_windowSwitches (v : Z) (s : State) : State :=
  {| lastActiveWindow := lastActiveWindow s; windowSwitches := v; switchTimer := switchTimer s; listeners := listeners s; isDesktopApp := isDesktopApp s; lastNotificationTime := lastNotificationTime s; notificationThrottleMap := notificationThrottleMap s; screenTimeToday := screenTimeToday s; lastScreenTimeUpdate := lastScreenTimeUpdate s; lastActivityTime := lastActivityTime s; screenTimeListeners := screenTimeListeners s; appUsageListeners := appUsageListeners s; appUsageData := appUsageData s; userIdleTime := userIdleTime s; focusScore := focusScore s; distractionCount := distractionCount s; focusScoreUpdateListeners := focusScoreUpdateListeners s; isFocusMode := isFocusMode s; focusModeWhitelist := focusModeWhitelist s; dimInsteadOfBlock := dimInsteadOfBlock s; focusModeListeners := focusModeListeners s; recentSwitches := recentSwitches s; lastWindowSwitchTime := lastWindowSwitchTime s; localStorage := localStorage s |}.

Definition set_switchTimer (v : option Z) (s : State) : State :=
  {| lastActiveWindow := lastActiveWindow s; windowSwitches := windowSwitches s; switchTimer := v; listeners := listeners s; isDesktopApp := isDesktopApp s; lastNotificationTime := lastNotificationTime s; notificationThrottleMap := notificationThrottleMap s; screenTimeToday := screenTimeToday s; lastScreenTimeUpdate := lastScreenTimeUpdate s; lastActivityTime := lastActivityTime s; screenTimeListeners := screenTimeListeners s; appUsageListeners := appUsageListeners s; appUsageData := appUsageData s; userIdleTime := userIdleTime s; focusScore := focusScore s; distractionCount := distractionCount s; focusScoreUpdateListeners := focusScoreUpdateListeners s; isFocusMode := isFocusMode s; focusModeWhitelist := focusModeWhitelist s; dimInsteadOfBlock := dimInsteadOfBlock s; focusModeListeners := focusModeListeners s; recentSwitches := recentSwitches s; lastWindowSwitchTime := lastWindowSwitchTime s; localStorage := localStorage s |}.

Definition set_listeners (v : list nat) (s : State) : State :=
  {| lastActiveWindow := lastActiveWindow s; windowSwitches := windowSwitches s; switchTimer := switchTimer s; listeners := v; isDesktopApp := isDesktopApp s; lastNotificationTime := lastNotificationTime s; notificationThrottleMap := notificationThrottleMap s; screenTimeToday := screenTimeToday s; lastScreenTimeUpdate := lastScreenTimeUpdate s; lastActivityTime := lastActivityTime s; screenTimeListeners := screenTimeListeners s; appUsageListeners := appUsageListeners s; appUsageData := appUsageData s; userIdleTime := userIdleTime s; focusScore := focusScore s; distractionCount := distractionCount s; focusScoreUpdateListeners := focusScoreUpdateListeners s; isFocusMode := isFocusMode s; focusModeWhitelist := focusModeWhitelist s; dimInsteadOfBlock := dimInsteadOfBlock s; focusModeListeners := focusModeListeners s; recentSwitches := recentSwitches s; lastWindowSwitchTime := lastWindowSwitchTime s; localStorage := localStorage s |}.

Definition set_isDesktopApp (v : bool) (s : State) : State :=
  {| lastActiveWindow := lastActiveWindow s; windowSwitches := windowSwitches s; switchTimer := switchTimer s; listeners := listeners s; isDesktopApp := v; lastNotificationTime := lastNotificationTime s; notificationThrottleMap := notificationThrottleMap s; screenTimeToday := screenTimeToday s; lastScreenTimeUpdate := lastScreenTimeUpdate s; lastActivityTime := lastActivityTime s; screenTimeListeners := screenTimeListeners s; appUsageListeners := appUsageListeners s; appUsageData := appUsageData s; userIdleTime := userIdleTime s; focusScore := focusScore s; distractionCount := distractionCount s; focusScoreUpdateListeners := focusScoreUpdateListeners s; isFocusMode := isFocusMode s; focusModeWhitelist := focusModeWhitelist s; dimInsteadOfBlock := dimInsteadOfBlock s; focusModeListeners := focusModeListeners s; recentSwitches := recentSwitches s; lastWindowSwitchTime := lastWindowSwitchTime s; localStorage := localStorage s |}.

Definition set_lastNotificationTime (v : Z) (s : State) : State :=
  {| lastActiveWindow := lastActiveWindow s; windowSwitches := windowSwitches s; switchTimer := switchTimer s; listeners := listeners s; isDesktopApp := isDesktopApp s; lastNotificationTime := v; notificationThrottleMap := notificationThrottleMap s; screenTimeToday := screenTimeToday s; lastScreenTimeUpdate := lastScreenTimeUpdate s; lastActivityTime := lastActivityTime s; screenTimeListeners := screenTimeListeners s; appUsageListeners := appUsageListeners s; appUsageData := appUsageData s; userIdleTime := userIdleTime s; focusScore := focusScore s; distractionCount := distractionCount s; focusScoreUpdateListeners := focusScoreUpdateListeners s; isFocusMode := isFocusMode s; focusModeWhitelist := focusModeWhitelist s; dimInsteadOfBlock := dimInsteadOfBlock s; focusModeListeners := focusModeListeners s; recentSwitches := recentSwitches s; lastWindowSwitchTime := lastWindowSwitchTime s; localStorage := localStorage s |}.

Definition set_notificationThrottleMap (v : gmap jsstring Z) (s : State) : State :=
  {| lastActiveWindow := lastActiveWindow s; windowSwitches := windowSwitches s; switchTimer := switchTimer s; listeners := listeners s; isDesktopApp := isDesktopApp s; lastNotificationTime := lastNotificationTime s; notificationThrottleMap := v; screenTimeToday := screenTimeToday s; lastScreenTimeUpdate := lastScreenTimeUpdate s; lastActivityTime := lastActivityTime s; screenTimeListeners := screenTimeListeners s; appUsageListeners := appUsageListeners s; appUsageData := appUsageData s; userIdleTime := userIdleTime s; focusScore := focusScore s; distractionCount := distractionCount s; focusScoreUpdateListeners := focusScoreUpdateListeners s; isFocusMode := isFocusMode s; focusModeWhitelist := focusModeWhitelist s; dimInsteadOfBlock := dimInsteadOfBlock s; focusModeListeners := focusModeListeners s; recentSwitches := recentSwitches s; lastWindowSwitchTime := lastWindowSwitchTime s; localStorage := localStorage s |}.

Definition set_screenTimeToday (v : Z) (s : State) : State :=
  {| lastActiveWindow := lastActiveWindow s; windowSwitches := windowSwitches s; switchTimer := switchTimer s; listeners := listeners s; isDesktopApp := isDesktopApp s; lastNotificationTime := lastNotificationTime s; notificationThrottleMap := notificationThrottleMap s; screenTimeToday := v; lastScreenTimeUpdate := lastScreenTimeUpdate s; lastActivityTime := lastActivityTime s; screenTimeListeners := screenTimeListeners s; appUsageListeners := appUsageListeners s; appUsageData := appUsageData s; userIdleTime := userIdleTime s; focusScore := focusScore s; distractionCount := distractionCount s; focusScoreUpdateListeners := focusScoreUpdateListeners s; isFocusMode := isFocusMode s; focusModeWhitelist := focusModeWhitelist s; dimInsteadOfBlock := dimInsteadOfBlock s; focusModeListeners := focusModeListeners s; recentSwitches := recentSwitches s; lastWindowSwitchTime := lastWindowSwitchTime s; localStorage := localStorage s |}.

Definition set_lastScreenTimeUpdate (v : Z) (s : State) : State :=
  {| lastActiveWindow := lastActiveWindow s; windowSwitches := windowSwitches s; switchTimer := switchTimer s; listeners := listeners s; isDesktopApp := isDesktopApp s; lastNotificationTime := lastNotificationTime s; notificationThrottleMap := notificationThrottleMap s; screenTimeToday := screenTimeToday s; lastScreenTimeUpdate := v; lastActivityTime := lastActivityTime s; screenTimeListeners := screenTimeListeners s; appUsageListeners := appUsageListeners s; appUsageData := appUsageData s; userIdleTime := userIdleTime s; focusScore := focusScore s; distractionCount := distractionCount s; focusScoreUpdateListeners := focusScoreUpdateListeners s; isFocusMode := isFocusMode s; focusModeWhitelist := focusModeWhitelist s; dimInsteadOfBlock := dimInsteadOfBlock s; focusModeListeners := focusModeListeners s; recentSwitches := recentSwitches s; lastWindowSwitchTime := lastWindowSwitchTime s; localStorage := localStorage s |}.

Definition set_lastActivityTime (v : Z) (s : State) : State :=
  {| lastActiveWindow := lastActiveWindow s; windowSwitches := windowSwitches s; switchTimer := switchTimer s; listeners := listeners s; isDesktopApp := isDesktopApp s; lastNotificationTime := lastNotificationTime s; notificationThrottleMap := notificationThrottleMap s; screenTimeToday := screenTimeToday s; lastScreenTimeUpdate := lastScreenTimeUpdate s; lastActivityTime := v; screenTimeListeners := screenTimeListeners s; appUsageListeners := appUsageListeners s; appUsageData := appUsageData s; userIdleTime := userIdleTime s; focusScore := focusScore s; distractionCount := distractionCount s; focusScoreUpdateListeners := focusScoreUpdateListeners s; isFocusMode := isFocusMode s; focusModeWhitelist := focusModeWhitelist s; dimInsteadOfBlock := dimInsteadOfBlock s; focusModeListeners := focusModeListeners s; recentSwitches := recentSwitches s; lastWindowSwitchTime := lastWindowSwitchTime s; localStorage := localStorage s |}.

Definition set_screenTimeListeners (v : list nat) (s : State) : State :=
  {| lastActiveWindow := lastActiveWindow s; windowSwitches := windowSwitches s; switchTimer := switchTimer s; listeners := listeners s; isDesktopApp := isDesktopApp s; lastNotificationTime := lastNotificationTime s; notificationThrottleMap := notificationThrottleMap s; screenTimeToday := screenTimeToday s; lastScreenTimeUpdate := lastScreenTimeUpdate s; lastActivityTime := lastActivityTime s; screenTimeListeners := v; appUsageListeners := appUsageListeners s; appUsageData := appUsageData s; userIdleTime := userIdleTime s; focusScore := focusScore s; distractionCount := distractionCount s; focusScoreUpdateListeners := focusScoreUpdateListeners s; isFocusMode := isFocusMode s; focusModeWhitelist := focusModeWhitelist s; dimInsteadOfBlock := dimInsteadOfBlock s; focusModeListeners := focusModeListeners s; recentSwitches := recentSwitches s; lastWindowSwitchTime := lastWindowSwitchTime s; localStorage := localStorage s |}.

Definition set_appUsageListeners (v : list nat) (s : State) : State :=
  {| lastActiveWindow := lastActiveWindow s; windowSwitches := windowSwitches s; switchTimer := switchTimer s; listeners := listeners s; isDesktopApp := isDesktopApp s; lastNotificationTime := lastNotificationTime s; notificationThrottleMap := notificationThrottleMap s; screenTimeToday := screenTimeToday s; lastScreenTimeUpdate := lastScreenTimeUpdate s; lastActivityTime := lastActivityTime s; screenTimeListeners := screenTimeListeners s; appUsageListeners := v; appUsageData := appUsageData s; userIdleTime := userIdleTime s; focusScore := focusScore s; distractionCount := distractionCount s; focusScoreUpdateListeners := focusScoreUpdateListeners s; isFocusMode := isFocusMode s; focusModeWhitelist := focusModeWhitelist s; dimInsteadOfBlock := dimInsteadOfBlock s; focusModeListeners := focusModeListeners s; recentSwitches := recentSwitches s; lastWindowSwitchTime := lastWindowSwitchTime s; localStorage := localStorage s |}.

Definition set_appUsageData (v : gmap jsstring AppData) (s : State) : State :=
  {| lastActiveWindow := lastActiveWindow s; windowSwitches := windowSwitches s; switchTimer := switchTimer s; listeners := listeners s; isDesktopApp := isDesktopApp s; lastNotificationTime := lastNotificationTime s; notificationThrottleMap := notificationThrottleMap s; screenTimeToday := screenTimeToday s; lastScreenTimeUpdate := lastScreenTimeUpdate s; lastActivityTime := lastActivityTime s; screenTimeListeners := screenTimeListeners s; appUsageListeners := appUsageListeners s; appUsageData := v; userIdleTime := userIdleTime s; focusScore := focusScore s; distractionCount := distractionCount s; focusScoreUpdateListeners := focusScoreUpdateListeners s; isFocusMode := isFocusMode s; focusModeWhitelist := focusModeWhitelist s; dimInsteadOfBlock := dimInsteadOfBlock s; focusModeListeners := focusModeListeners s; recentSwitches := recentSwitches s; lastWindowSwitchTime := lastWindowSwitchTime s; localStorage := localStorage s |}.

Definition set_userIdleTime (v : Z) (s : State) : State :=
  {| lastActiveWindow := lastActiveWindow s; windowSwitches := windowSwitches s; switchTimer := switchTimer s; listeners := listeners s; isDesktopApp := isDesktopApp s; lastNotificationTime := lastNotificationTime s; notificationThrottleMap := notificationThrottleMap s; screenTimeToday := screenTimeToday s; lastScreenTimeUpdate := lastScreenTimeUpdate s; lastActivityTime := lastActivityTime s; screenTimeListeners := screenTimeListeners s; appUsageListeners := appUsageListeners s; appUsageData := appUsageData s; userIdleTime := v; focusScore := focusScore s; distractionCount := distractionCount s; focusScoreUpdateListeners := focusScoreUpdateListeners s; isFocusMode := isFocusMode s; focusModeWhitelist := focusModeWhitelist s; dimInsteadOfBlock := dimInsteadOfBlock s; focusModeListeners := focusModeListeners s; recentSwitches := recentSwitches s; lastWindowSwitchTime := lastWindowSwitchTime s; localStorage := localStorage s |}.

Definition set_focusScore (v : Z) (s : State) : State :=
  {| lastActiveWindow := lastActiveWindow s; windowSwitches := windowSwitches s; switchTimer := switchTimer s; listeners := listeners s; isDesktopApp := isDesktopApp s; lastNotificationTime := lastNotificationTime s; notificationThrottleMap := notificationThrottleMap s; screenTimeToday := screenTimeToday s; lastScreenTimeUpdate := lastScreenTimeUpdate s; lastActivityTime := lastActivityTime s; screenTimeListeners := screenTimeListeners s; appUsageListeners := appUsageListeners s; appUsageData := appUsageData s; userIdleTime := userIdleTime s; focusScore := v; distractionCount := distractionCount s; focusScoreUpdateListeners := focusScoreUpdateListeners s; isFocusMode := isFocusMode s; focusModeWhitelist := focusModeWhitelist s; dimInsteadOfBlock := dimInsteadOfBlock s; focusModeListeners := focusModeListeners s; recentSwitches := recentSwitches s; lastWindowSwitchTime := lastWindowSwitchTime s; localStorage := localStorage s |}.

Definition set_distractionCount (v : Z) (s : State) : State :=
  {| lastActiveWindow := lastActiveWindow s; windowSwitches := windowSwitches s; switchTimer := switchTimer s; listeners := listeners s; isDesktopApp := isDesktopApp s; lastNotificationTime := lastNotificationTime s; notificationThrottleMap := notificationThrottleMap s; screenTimeToday := screenTimeToday s; lastScreenTimeUpdate := lastScreenTimeUpdate s; lastActivityTime := lastActivityTime s; screenTimeListeners := screenTimeListeners s; appUsageListeners := appUsageListeners s; appUsageData := appUsageData s; userIdleTime := userIdleTime s; focusScore := focusScore s; distractionCount := v; focusScoreUpdateListeners := focusScoreUpdateListeners s; isFocusMode := isFocusMode s; focusModeWhitelist := focusModeWhitelist s; dimInsteadOfBlock := dimInsteadOfBlock s; focusModeListeners := focusModeListeners s; recentSwitches := recentSwitches s; lastWindowSwitchTime := lastWindowSwitchTime s; localStorage := localStorage s |}.

Definition set_focusScoreUpdateListeners (v : list nat) (s : State) : State :=
  {| lastActiveWindow := lastActiveWindow s; windowSwitches := windowSwitches s; switchTimer := switchTimer s; listeners := listeners s; isDesktopApp := isDesktopApp s; lastNotificationTime := lastNotificationTime s; notificationThrottleMap := notificationThrottleMap s; screenTimeToday := screenTimeToday s; lastScreenTimeUpdate := lastScreenTimeUpdate s; lastActivityTime := lastActivityTime s; screenTimeListeners := screenTimeListeners s; appUsageListeners := appUsageListeners s; appUsageData := appUsageData s; userIdleTime := userIdleTime s; focusScore := focusScore s; distractionCount := distractionCount s; focusScoreUpdateListeners := v; isFocusMode := isFocusMode s; focusModeWhitelist := focusModeWhitelist s; dimInsteadOfBlock := dimInsteadOfBlock s; focusModeListeners := focusModeListeners s; recentSwitches := recentSwitches s; lastWindowSwitchTime := lastWindowSwitchTime s; localStorage := localStorage s |}.

Definition set_isFocusMode (v : bool) (s : State) : State :=
  {| lastActiveWindow := lastActiveWindow s; windowSwitches := windowSwitches s; switchTimer := switchTimer s; listeners := listeners s; isDesktopApp := isDesktopApp s; lastNotificationTime := lastNotificationTime s; notificationThrottleMap := notificationThrottleMap s; screenTimeToday := screenTimeToday s; lastScreenTimeUpdate := lastScreenTimeUpdate s; lastActivityTime := lastActivityTime s; screenTimeListeners := screenTimeListeners s; appUsageListeners := appUsageListeners s; appUsageData := appUsageData s; userIdleTime := userIdleTime s; focusScore := focusScore s; distractionCount := distractionCount s; focusScoreUpdateListeners := focusScoreUpdateListeners s; isFocusMode := v; focusModeWhitelist := focusModeWhitelist s; dimInsteadOfBlock := dimInsteadOfBlock s; focusModeListeners := focusModeListeners s; recentSwitches := recentSwitches s; lastWindowSwitchTime := lastWindowSwitchTime s; localStorage := localStorage s |}.

Definition set_focusModeWhitelist (v : list jsstring) (s : State) : State :=
  {| lastActiveWindow := lastActiveWindow s; windowSwitches := windowSwitches s; switchTimer := switchTimer s; listeners := listeners s; isDesktopApp := isDesktopApp s; lastNotificationTime := lastNotificationTime s; notificationThrottleMap := notificationThrottleMap s; screenTimeToday := screenTimeToday s; lastScreenTimeUpdate := lastScreenTimeUpdate s; lastActivityTime := lastActivityTime s; screenTimeListeners := screenTimeListeners s; appUsageListeners := appUsageListeners s; appUsageData := appUsageData s; userIdleTime := userIdleTime s; focusScore := focusScore s; distractionCount := distractionCount s; focusScoreUpdateListeners := focusScoreUpdateListeners s; isFocusMode := isFocusMode s; focusModeWhitelist := v; dimInsteadOfBlock := dimInsteadOfBlock s; focusModeListeners := focusModeListeners s; recentSwitches := recentSwitches s; lastWindowSwitchTime := lastWindowSwitchTime s; localStorage := localStorage s |}.

Definition set_dimInsteadOfBlock (v : bool) (s : State) : State :=
  {| lastActiveWindow := lastActiveWindow s; windowSwitches := windowSwitches s; switchTimer := switchTimer s; listeners := listeners s; isDesktopApp := isDesktopApp s; lastNotificationTime := lastNotificationTime s; notificationThrottleMap := notificationThrottleMap s; screenTimeToday := screenTimeToday s; lastScreenTimeUpdate := lastScreenTimeUpdate s; lastActivityTime := lastActivityTime s; screenTimeListeners := screenTimeListeners s; appUsageListeners := appUsageListeners s; appUsageData := appUsageData s; userIdleTime := userIdleTime s; focusScore := focusScore s; distractionCount := distractionCount s; focusScoreUpdateListeners := focusScoreUpdateListeners s; isFocusMode := isFocusMode s; focusModeWhitelist := focusModeWhitelist s; dimInsteadOfBlock := v; focusModeListeners := focusModeListeners s; recentSwitches := recentSwitches s; lastWindowSwitchTime := lastWindowSwitchTime s; localStorage := localStorage s |}.

Definition set_focusModeListeners (v : list nat) (s : State) : State :=
  {| lastActiveWindow := lastActiveWindow s; windowSwitches := windowSwitches s; switchTimer := switchTimer s; listeners := listeners s; isDesktopApp := isDesktopApp s; lastNotificationTime := lastNotificationTime s; notificationThrottleMap := notificationThrottleMap s; screenTimeToday := screenTimeToday s; lastScreenTimeUpdate := lastScreenTimeUpdate s; lastActivityTime := lastActivityTime s; screenTimeListeners := screenTimeListeners s; appUsageListeners := appUsageListeners s; appUsageData := appUsageData s; userIdleTime := userIdleTime s; focusScore := focusScore s; distractionCount := distractionCount s; focusScoreUpdateListeners := focusScoreUpdateListeners s; isFocusMode := isFocusMode s; focusModeWhitelist := focusModeWhitelist s; dimInsteadOfBlock := dimInsteadOfBlock s; focusModeListeners := v; recentSwitches := recentSwitches s; lastWindowSwitchTime := lastWindowSwitchTime s; localStorage := localStorage s |}.

Definition set_recentSwitches (v : Z) (s : State) : State :=
  {| lastActiveWindow := lastActiveWindow s; windowSwitches := windowSwitches s; switchTimer := switchTimer s; listeners := listeners s; isDesktopApp := isDesktopApp s; lastNotificationTime := lastNotificationTime s; notificationThrottleMap := notificationThrottleMap s; screenTimeToday := screenTimeToday s; lastScreenTimeUpdate := lastScreenTimeUpdate s; lastActivityTime := lastActivityTime s; screenTimeListeners := screenTimeListeners s; appUsageListeners := appUsageListeners s; appUsageData := appUsageData s; userIdleTime := userIdleTime s; focusScore := focusScore s; distractionCount := distractionCount s; focusScoreUpdateListeners := focusScoreUpdateListeners s; isFocusMode := isFocusMode s; focusModeWhitelist := focusModeWhitelist s; dimInsteadOfBlock := dimInsteadOfBlock s; focusModeListeners := focusModeListeners s; recentSwitches := v; lastWindowSwitchTime := lastWindowSwitchTime s; localStorage := localStorage s |}.

Definition set_lastWindowSwitchTime (v : Z) (s : State) : State :=
  {| lastActiveWindow := lastActiveWindow s; windowSwitches := windowSwitches s; switchTimer := switchTimer s; listeners := listeners s; isDesktopApp := isDesktopApp s; lastNotificationTime := lastNotificationTime s; notificationThrottleMap := notificationThrottleMap s; screenTimeToday := screenTimeToday s; lastScreenTimeUpdate := lastScreenTimeUpdate s; lastActivityTime := lastActivityTime s; screenTimeListeners := screenTimeListeners s; appUsageListeners := appUsageListeners s; appUsageData := appUsageData s; userIdleTime := userIdleTime s; focusScore := focusScore s; distractionCount := distractionCount s; focusScoreUpdateListeners := focusScoreUpdateListeners s; isFocusMode := isFocusMode s; focusModeWhitelist := focusModeWhitelist s; dimInsteadOfBlock := dimInsteadOfBlock s; focusModeListeners := focusModeListeners s; recentSwitches := recentSwitches s; lastWindowSwitchTime := v; localStorage := localStorage s |}.

Definition set_localStorage (v : gmap jsstring SavedData) (s : State) : State :=
  {| lastActiveWindow := lastActiveWindow s; windowSwitches := windowSwitches s; switchTimer := switchTimer s; listeners := listeners s; isDesktopApp := isDesktopApp s; lastNotificationTime := lastNotificationTime s; notificationThrottleMap := notificationThrottleMap s; screenTimeToday := screenTimeToday s; lastScreenTimeUpdate := lastScreenTimeUpdate s; lastActivityTime := lastActivityTime s; screenTimeListeners := screenTimeListeners s; appUsageListeners := appUsageListeners s; appUsageData := appUsageData s; userIdleTime := userIdleTime s; focusScore := focusScore s; distractionCount := distractionCount s; focusScoreUpdateListeners := focusScoreUpdateListeners s; isFocusMode := isFocusMode s; focusModeWhitelist := focusModeWhitelist s; dimInsteadOfBlock := dimInsteadOfBlock s; focusModeListeners := focusModeListeners s; recentSwitches := recentSwitches s; lastWindowSwitchTime := lastWindowSwitchTime s; localStorage := v |}.


Definition notificationThrottleTime : Z := 500.

Definition toItem (d : AppData) : UsageItem :=
  {| itemTime := time d; itemType := type d;
     itemLastActiveTime := lastActiveTime d |}.

(** The field initialisers.  [storage] is what the host's [localStorage]
    holds when the service is constructed. *)
Definition fresh (desktop : bool) (storage : gmap jsstring SavedData) : State :=
  {| lastActiveWindow := None; windowSwitches := 0; switchTimer := None;
     listeners := []; isDesktopApp := desktop; lastNotificationTime := 0;
     notificationThrottleMap := ∅; screenTimeToday := 0;
     lastScreenTimeUpdate := 0; lastActivityTime := 0;
     screenTimeListeners := []; appUsageListeners := []; appUsageData := ∅;
     userIdleTime := 0; focusScore := 100; distractionCount := 0;
     focusScoreUpdateListeners := []; isFocusMode := false;
     focusModeWhitelist := []; dimInsteadOfBlock := true;
     focusModeListeners := []; recentSwitches := 0;
     lastWindowSwitchTime := 0; localStorage := storage |}.

Definition storageKey : jsstring := js "systemTrayData".

Definition toSaved (entry : jsstring * AppData) : Saved.App :=
  {| Saved.name := entry.1; Saved.time := time entry.2;
     Saved.type := type entry.2;
     Saved.lastActiveTime := lastActiveTime entry.2 |}.

Definition dataToSave (now : Z) (s : State) : SavedData :=
  {| Saved.screenTimeToday := Some (screenTimeToday s);
     Saved.focusScore := Some (focusScore s);
     Saved.distractionCount := Some (distractionCount s);
     Saved.appUsageData := Some (List.map toSaved (map_to_list (appUsageData s)));
     Saved.focusModeWhitelist := Some (focusModeWhitelist s);
     Saved.isFocusMode := Some (isFocusMode s);
     Saved.dimInsteadOfBlock := Some (dimInsteadOfBlock s);
     Saved.timestamp := Some now |}.

Definition persistData (now : Z) : Cmd State :=
  modify (fun s => set_localStorage
                     (<[storageKey := dataToSave now s]> (localStorage s)) s).

(** The body of [parsedData.appUsageData.forEach]. *)
Definition restoreApp (now : Z) (m : gmap jsstring AppData) (app : Saved.App)
    : gmap jsstring AppData :=
  if negb (isEmptyString (Saved.name app)) then
    <[Saved.name app :=
        {| time := Saved.time app; type := Saved.type app;
           lastActiveTime := if Saved.lastActiveTime app =? 0 then now
                             else Saved.lastActiveTime app |}]> m
  else m.

(** [x || d] on a number that may be missing: 0 counts as missing too.
    (Where [d] is 0 itself this is [default 0 x].) *)
Definition orElse (x : option Z) (d : Z) : Z :=
  match x with
  | Some v => if v =? 0 then d else v
  | None => d
  end.

Definition loadPersistedData (now : Z) : Cmd State := fun s =>
  match localStorage s !! storageKey with
  | None => skip s
  | Some parsedData =>
      let timestamp := default 0 (Saved.timestamp parsedData) in
      if now - timestamp <? maxAge then
        (modify (set_screenTimeToday (default 0 (Saved.screenTimeToday parsedData))) ;-
         modify (set_focusScore (orElse (Saved.focusScore parsedData) 100)) ;-
         modify (set_distractionCount (default 0 (Saved.distractionCount parsedData))) ;-
         match Saved.focusModeWhitelist parsedData with
         | Some w => modify (set_focusModeWhitelist (mergeWhitelist w))
         | None => modify (set_focusModeWhitelist DEFAULT_WHITELIST_APPS)
         end ;-
         match Saved.isFocusMode parsedData with
         | Some b => modify (set_isFocusMode b)
         | None => skip
         end ;-
         match Saved.dimInsteadOfBlock parsedData with
         | Some b => modify (set_dimInsteadOfBlock b)
         | None => skip
         end ;-
         match Saved.appUsageData parsedData with
         | Some apps =>
             modify (fun s => set_appUsageData
                                (foldl (restoreApp now) (appUsageData s) apps) s)
         | None => skip
         end) s
      else modify (fun s => set_localStorage (delete storageKey (localStorage s)) s) s
  end.

(** The part of [initializeScreenTimeTracking] that writes fields; the
    timers it starts are the events below. *)
Definition initializeScreenTimeTracking (now : Z) : Cmd State :=
  modify (set_lastActivityTime now) ;-
  modify (set_lastScreenTimeUpdate now).

(** State left by the constructor. *)
Definition init (desktop : bool) (storage : gmap jsstring SavedData) (now : Z) : State :=
  fst ((loadPersistedData now ;- initializeScreenTimeTracking now)
         (fresh desktop storage)).

Definition notifyScreenTimeListeners : Cmd State :=
  call (fun s => List.map (fun l => ScreenTimeListener l (screenTimeToday s))
                          (screenTimeListeners s)).

Definition notifyFocusScoreListeners : Cmd State :=
  call (fun s => List.map
                   (fun l => FocusScoreListener l (focusScore s) (distractionCount s))
                   (focusScoreUpdateListeners s)).

Definition notifyAppUsageListeners : Cmd State :=
  call (fun s => List.map (fun l => AppUsageListener l (toItem <$> appUsageData s))
                          (appUsageListeners s)).

Definition notifyFocusModeListeners : Cmd State :=
  call (fun s => List.map (fun l => FocusModeListener l (isFocusMode s))
                          (focusModeListeners s)).

(** The 5-minute interval of [initRecentSwitchesTracking]. *)
Definition resetRecentSwitches : Cmd State := modify (set_recentSwitches 0).

(** The 10-second interval of [initializeScreenTimeTracking]. *)
Definition idleCheck (currentTime : Z) : Cmd State := fun s =>
  let timeSinceLastActivity := currentTime - lastActivityTime s in
  if timeSinceLastActivity >? idleThreshold
  then modify (set_userIdleTime timeSinceLastActivity) s
  else modify (set_userIdleTime 0) s.

Definition resetDailyStats : Cmd State :=
  modify (set_screenTimeToday 0) ;-
  modify (set_distractionCount 0) ;-
  modify (set_focusScore 100) ;-
  modify (set_appUsageData ∅) ;-
  notifyScreenTimeListeners ;-
  notifyFocusScoreListeners ;-
  notifyAppUsageListeners.

Definition updateScreenTime (now : Z) : Cmd State :=
  (fun s =>
     if userIdleTime s <? idleThreshold then
       let timeElapsed := now - lastScreenTimeUpdate s in
       (modify (set_screenTimeToday (screenTimeToday s + timeElapsed)) ;-
        notifyScreenTimeListeners) s
     else skip s) ;-
  modify (set_lastScreenTimeUpdate now).

Definition notifyFocusNeeded : Cmd State :=
  call (fun s =>
    (if isDesktopApp s
     then [ShowNativeNotification
             {| title := js "Focus Reminder"; body := focusNeededMessage;
                notificationId := None |}]
     else []) ++
    List.map (fun l => Listener l focusNeededMessage true) (listeners s)).

Definition notifyFocusModeViolation (appName : jsstring) (now : Z) : Cmd State :=
  fun s =>
  if isSystemApp appName then skip s
  else
    let lastNotified := default 0 (notificationThrottleMap s !! appName) in
    if now - lastNotified <? notificationThrottleTime then skip s
    else
      (modify (fun s => set_notificationThrottleMap
                          (<[appName := now]> (notificationThrottleMap s)) s) ;-
       call (fun s =>
         let message := violationMessage appName in
         (if isDesktopApp s
          then [ShowNativeNotification
                  {| title := js "Focus Mode Alert"; body := message;
                     notificationId :=
                       Some (js "focus-mode-violation-" ++ appName ++ js "-" ++
                             numberToString now) |}]
          else []) ++
         List.map (fun l => Listener l message true) (listeners s))) s.

Definition handleWindowSwitch (newWindow : jsstring) (now : Z) : Cmd State :=
  fun s =>
  if bool_decide (lastActiveWindow s = Some newWindow) then skip s
  else
    (modify (set_lastActiveWindow (Some newWindow)) ;-
     modify (fun s => set_windowSwitches (windowSwitches s + 1) s) ;-
     modify (set_switchTimer (Some (now + switchTimeframe))) ;-
     (fun s =>
        if windowSwitches s >=? switchThreshold then
          ((fun s =>
              if now - lastNotificationTime s >? notificationCooldown then
                (notifyFocusNeeded ;-
                 modify (set_lastNotificationTime now) ;-
                 modify (fun s => set_distractionCount (distractionCount s + 1) s) ;-
                 modify (fun s => set_focusScore
                                    (Z.max 0 (100 - distractionCount s * 5)) s) ;-
                 notifyFocusScoreListeners) s
              else skip s) ;-
           modify (set_windowSwitches 0)) s
        else skip s)) s.

(** The timeout armed by [handleWindowSwitch]; once run it is no longer
    pending. *)
Definition switchTimerCallback : Cmd State :=
  modify (set_windowSwitches 0) ;- modify (set_switchTimer None).

Definition handleRealWindowSwitch (windowTitle : jsstring) (now : Z) : Cmd State :=
  (fun s =>
     if now - lastWindowSwitchTime s >? 2000 then
       (modify (fun s => set_recentSwitches (recentSwitches s + 1) s) ;-
        modify (set_lastWindowSwitchTime now) ;-
        call (fun _ => [ActiveWindowChangedEvent windowTitle])) s
     else skip s) ;-
  handleWindowSwitch windowTitle now.

Definition trackAppUsage (appTitle appOwner : jsstring) (now : Z) : Cmd State :=
  let appName := if bool_decide (appOwner <> js "Unknown") then appOwner else appTitle in
  let coreAppName := extractAppName appName in
  let appType := determineAppType coreAppName in
  (fun s =>
     match appUsageData s !! coreAppName with
     | None => modify (set_appUsageData
                         (<[coreAppName := {| time := 0; type := appType;
                                              lastActiveTime := now |}]>
                            (appUsageData s))) s
     | Some _ => skip s
     end) ;-
  (fun s =>
     if (userIdleTime s <? idleThreshold) &&
        bool_decide (lastActiveWindow s = Some coreAppName)
     then
       let timeElapsed := now - lastActivityTime s in
       match appUsageData s !! coreAppName with
       | Some appData =>
           modify (set_appUsageData
                     (<[coreAppName := {| time := time appData + timeElapsed;
                                          type := type appData;
                                          lastActiveTime := now |}]>
                        (appUsageData s))) s
       | None => skip s
       end
     else
       match appUsageData s !! coreAppName with
       | Some appData =>
           modify (set_appUsageData
                     (<[coreAppName := {| time := time appData;
                                          type := type appData;
                                          lastActiveTime := now |}]>
                        (appUsageData s))) s
       | None => skip s
       end) ;-
  (fun s =>
     if isFocusMode s && negb (isSystemApp coreAppName) &&
        negb (isAppInWhitelist coreAppName (focusModeWhitelist s))
     then notifyFocusModeViolation coreAppName now s
     else skip s) ;-
  notifyAppUsageListeners.

(** The handler registered for ['active-window-changed'] in
    [initializeDesktopMonitoring]. *)
Definition activeWindowChanged (windowTitle : jsstring) (owner : option jsstring)
    (now : Z) : Cmd State :=
  handleRealWindowSwitch windowTitle now ;-
  trackAppUsage windowTitle (ownerOrUnknown owner) now ;-
  modify (set_lastActivityTime now).

Definition getScreenTime (now : Z) (s : State) : Z * (State * list effect) :=
  let r := updateScreenTime now s in
  (screenTimeToday (fst r), r).

Definition addScreenTimeListener (callback : nat) : Cmd State :=
  modify (fun s => set_screenTimeListeners (screenTimeListeners s ++ [callback]) s) ;-
  call (fun s => [ScreenTimeListener callback (screenTimeToday s)]).

Definition addFocusScoreListener (callback : nat) : Cmd State :=
  modify (fun s => set_focusScoreUpdateListeners
                     (focusScoreUpdateListeners s ++ [callback]) s) ;-
  call (fun s => [FocusScoreListener callback (focusScore s) (distractionCount s)]).

Definition addAppUsageListener (callback : nat) : Cmd State :=
  modify (fun s => set_appUsageListeners (appUsageListeners s ++ [callback]) s) ;-
  call (fun s => [AppUsageListener callback (toItem <$> appUsageData s)]).

Definition addFocusModeListener (callback : nat) : Cmd State :=
  modify (fun s => set_focusModeListeners (focusModeListeners s ++ [callback]) s) ;-
  call (fun s => [FocusModeListener callback (isFocusMode s)]).

Definition addNotificationListener (callback : nat) : Cmd State :=
  modify (fun s => set_listeners (listeners s ++ [callback]) s).

Definition focusModeTooltip (active : bool) : jsstring :=
  js "Mindful Desktop Companion " ++ (if active then js "(Focus Mode)" else []).

Definition setFocusMode (active : bool) (now : Z) : Cmd State :=
  modify (set_isFocusMode active) ;-
  (if active then modify (set_notificationThrottleMap ∅) else skip) ;-
  notifyFocusModeListeners ;-
  persistData now ;-
  call (fun s => if isDesktopApp s then [SetTrayTooltip (focusModeTooltip active)]
                 else []).

Definition setFocusModeWhitelist (whitelist : list jsstring) (now : Z) : Cmd State :=
  modify (set_focusModeWhitelist (mergeWhitelist whitelist)) ;-
  modify (set_notificationThrottleMap ∅) ;-
  persistData now.

Definition setDimOption (dim : bool) (now : Z) : Cmd State :=
  modify (set_dimInsteadOfBlock dim) ;-
  persistData now.

Definition resetNotifications : Cmd State :=
  modify (set_notificationThrottleMap ∅).

(** What the host and the application deliver to the service. *)
Inductive event :=
| ActiveWindowChanged (windowTitle : jsstring) (owner : option jsstring) (now : Z)
| IdleCheck (now : Z)
| Tick (now : Z)
| SwitchTimeout (now : Z)
| RecentSwitchesInterval
| Persist (now : Z)
| Midnight
| SetFocusMode (active : bool) (now : Z)
| SetFocusModeWhitelist (whitelist : list jsstring) (now : Z)
| SetDimOption (dim : bool) (now : Z)
| ResetNotifications.

Definition step (ev : event) : Cmd State :=
  match ev with
  | ActiveWindowChanged windowTitle owner now => activeWindowChanged windowTitle owner now
  | IdleCheck now => idleCheck now
  | Tick now => updateScreenTime now
  | SwitchTimeout now =>
      fun s =>
        match switchTimer s with
        | Some due => if due <=? now then switchTimerCallback s else skip s
        | None => skip s
        end
  | RecentSwitchesInterval => resetRecentSwitches
  | Persist now => persistData now
  | Midnight => resetDailyStats
  | SetFocusMode active now => setFocusMode active now
  | SetFocusModeWhitelist whitelist now => setFocusModeWhitelist whitelist now
  | SetDimOption dim now => setDimOption dim now
  | ResetNotifications => resetNotifications
  end.

Fixpoint run (evs : list event) (s : State) : State :=
  match evs with
  | [] => s
  | ev :: evs' => run evs' (fst (step ev s))
  end.

(** Everything the service emits along a run, in call order. *)
Fixpoint trace (evs : list event) (s : State) : list effect :=
  match evs with
  | [] => []
  | ev :: evs' => snd (step ev s) ++ trace evs' (fst (step ev s))
  end.

(** The clock reading an event carries, if any. *)
Definition eventTime (ev : event) : option Z :=
  match ev with
  | ActiveWindowChanged _ _ now | IdleCheck now | Tick now | SwitchTimeout now => Some now
  | Persist now => Some now
  | SetFocusMode _ now | SetFocusModeWhitelist _ now | SetDimOption _ now => Some now
  | _ => None
  end.

(** The events arrive in the order of their clock readings, none before
    [t]. *)
Fixpoint chronological (t : Z) (evs : list event) : Prop :=
  match evs with
  | [] => True
  | ev :: evs' =>
      match eventTime ev with
      | Some now => t <= now /\ chronological now evs'
      | None => chronological t evs'
      end
  end.

(** The events that zero the daily counters. *)
Definition isReset (ev : event) : bool :=
  match ev with
  | Midnight => true
  | _ => false
  end.

Definition isIdleCheck (ev : event) : bool :=
  match ev with
  | IdleCheck _ => true
  | _ => false
  end.

Definition removeScreenTimeListener (callback : nat) : Cmd State :=
  modify (fun s => set_screenTimeListeners
                     (removeFirst callback (screenTimeListeners s)) s).

Definition removeFocusScoreListener (callback : nat) : Cmd State :=
  modify (fun s => set_focusScoreUpdateListeners
                     (removeFirst callback (focusScoreUpdateListeners s)) s).

Definition removeAppUsageListener (callback : nat) : Cmd State :=
  modify (fun s => set_appUsageListeners
                     (removeFirst callback (appUsageListeners s)) s).

Definition removeFocusModeListener (callback : nat) : Cmd State :=
  modify (fun s => set_focusModeListeners
                     (removeFirst callback (focusModeListeners s)) s).

Definition removeNotificationListener (callback : nat) : Cmd State :=
  modify (fun s => set_listeners (removeFirst callback (listeners s)) s).

Definition getFormattedScreenTime (now : Z) (s : State)
    : jsstring * (State * list effect) :=
  let r := getScreenTime now s in
  (formatScreenTime (fst r), snd r).

End Tray.

(** ** The class in src/hooks/use-toast-duration.ts *)
Module UserTray.

Record AppData := {
  time : Z;
  type : AppType;
  lastActiveTime : Z;
  sessionStart : Z }.

(** What [JSON.parse] gives back for a stored blob.  [JSON.stringify]
    followed by [JSON.parse] is the identity on the values written here
    (integers, strings, booleans and arrays of them), so the storage keeps
    the value itself; a property that may be missing is an [option]. *)
Module Saved.
Record App := {
  name : jsstring;
  time : Z;
  type : AppType;
  lastActiveTime : Z }.
Record Data := {
  screenTimeToday : option Z;
  appUsageData : option (list App);
  focusModeWhitelist : option (list jsstring);
  isFocusMode : option bool;
  dimInsteadOfBlock : option bool;
  timestamp : option Z }.
End Saved.

Abbreviation SavedData := Saved.Data.

Record State := {
  lastActiveWindow : option jsstring;
  windowSwitches : Z;
  switchTimer : option Z;
  listeners : list nat;
  isDesktopApp : bool;
  processedNotifications : gset jsstring;
  screenTimeToday : Z;
  lastScreenTimeUpdate : Z;
  lastActivityTime : Z;
  screenTimeListeners : list nat;
  appUsageListeners : list nat;
  appUsageData : gmap jsstring AppData;
  userIdleTime : Z;
  isFocusMode : bool;
  focusModeWhitelist : list jsstring;
  dimInsteadOfBlock : bool;
  focusModeListeners : list nat;
  recentSwitches : Z;
  lastWindowSwitchTime : Z;
  notificationThrottleMap : gmap jsstring Z;
  currentUserId : option jsstring;
  localStorage : gmap jsstring SavedData }.

Definition set_lastActiveWindow (v : option jsstring) (s : State) : State :=
  {| lastActiveWindow := v; windowSwitches := windowSwitches s; switchTimer := switchTimer s; listeners := listeners s; isDesktopApp := isDesktopApp s; processedNotifications := processedNotifications s; screenTimeToday := screenTimeToday s; lastScreenTimeUpdate := lastScreenTimeUpdate s; lastActivityTime := lastActivityTime s; screenTimeListeners := screenTimeListeners s; appUsageListeners := appUsageListeners s; appUsageData := appUsageData s; userIdleTime := userIdleTime s; isFocusMode := isFocusMode s; focusModeWhitelist := focusModeWhitelist s; dimInsteadOfBlock := dimInsteadOfBlock s; focusModeListeners := focusModeListeners s; recentSwitches := recentSwitches s; lastWindowSwitchTime := lastWindowSwitchTime s; notificationThrottleMap := notificationThrottleMap s; currentUserId := currentUserId s; localStorage := localStorage s |}.

Definition set_windowSwitches (v : Z) (s : State) : State :=
  {| lastActiveWindow := lastActiveWindow s; windowSwitches := v; switchTimer := switchTimer s; listeners := listeners s; isDesktopApp := isDesktopApp s; processedNotifications := processedNotifications s; screenTimeToday := screenTimeToday s; lastScreenTimeUpdate := lastScreenTimeUpdate s; lastActivityTime := lastActivityTime s; screenTimeListeners := screenTimeListeners s; appUsageListeners := appUsageListeners s; appUsageData := appUsageData s; userIdleTime := userIdleTime s; isFocusMode := isFocusMode s; focusModeWhitelist := focusModeWhitelist s; dimInsteadOfBlock := dimInsteadOfBlock s; focusModeListeners := focusModeListeners s; recentSwitches := recentSwitches s; lastWindowSwitchTime := lastWindowSwitchTime s; notificationThrottleMap := notificationThrottleMap s; currentUserId := currentUserId s; localStorage := localStorage s |}.

Definition set_switchTimer (v : option Z) (s : State) : State :=
  {| lastActiveWindow := lastActiveWindow s; windowSwitches := windowSwitches s; switchTimer := v; listeners := listeners s; isDesktopApp := isDesktopApp s; processedNotifications := processedNotifications s; screenTimeToday := screenTimeToday s; lastScreenTimeUpdate := lastScreenTimeUpdate s; lastActivityTime := lastActivityTime s; screenTimeListeners := screenTimeListeners s; appUsageListeners := appUsageListeners s; appUsageData := appUsageData s; userIdleTime := userIdleTime s; isFocusMode := isFocusMode s; focusModeWhitelist := focusModeWhitelist s; dimInsteadOfBlock := dimInsteadOfBlock s; focusModeListeners := focusModeListeners s; recentSwitches := recentSwitches s; lastWindowSwitchTime := lastWindowSwitchTime s; notificationThrottleMap := notificationThrottleMap s; currentUserId := currentUserId s; localStorage := localStorage s |}.

Definition set_listeners (v : list nat) (s : State) : State :=
  {| lastActiveWindow := lastActiveWindow s; windowSwitches := windowSwitches s; switchTimer := switchTimer s; listeners := v; isDesktopApp := isDesktopApp s; processedNotifications := processedNotifications s; screenTimeToday := screenTimeToday s; lastScreenTimeUpdate := lastScreenTimeUpdate s; lastActivityTime := lastActivityTime s; screenTimeListeners := screenTimeListeners s; appUsageListeners := appUsageListeners s; appUsageData := appUsageData s; userIdleTime := userIdleTime s; isFocusMode := isFocusMode s; focusModeWhitelist := focusModeWhitelist s; dimInsteadOfBlock := dimInsteadOfBlock s; focusModeListeners := focusModeListeners s; recentSwitches := recentSwitches s; lastWindowSwitchTime := lastWindowSwitchTime s; notificationThrottleMap := notificationThrottleMap s; currentUserId := currentUserId s; localStorage := localStorage s |}.

Definition set_isDesktopApp (v : bool) (s : State) : State :=
  {| lastActiveWindow := lastActiveWindow s; windowSwitches := windowSwitches s; switchTimer := switchTimer s; listeners := listeners s; isDesktopApp := v; processedNotifications := processedNotifications s; screenTimeToday := screenTimeToday s; lastScreenTimeUpdate := lastScreenTimeUpdate s; lastActivityTime := lastActivityTime s; screenTimeListeners := screenTimeListeners s; appUsageListeners := appUsageListeners s; appUsageData := appUsageData s; userIdleTime := userIdleTime s; isFocusMode := isFocusMode s; focusModeWhitelist := focusModeWhitelist s; dimInsteadOfBlock := dimInsteadOfBlock s; focusModeListeners := focusModeListeners s; recentSwitches := recentSwitches s; lastWindowSwitchTime := lastWindowSwitchTime s; notificationThrottleMap := notificationThrottleMap s; currentUserId := currentUserId s; localStorage := localStorage s |}.

Definition set_processedNotifications (v : gset jsstring) (s : State) : State :=
  {| lastActiveWindow := lastActiveWindow s; windowSwitches := windowSwitches s; switchTimer := switchTimer s; listeners := listeners s; isDesktopApp := isDesktopApp s; processedNotifications := v; screenTimeToday := screenTimeToday s; lastScreenTimeUpdate := lastScreenTimeUpdate s; lastActivityTime := lastActivityTime s; screenTimeListeners := screenTimeListeners s; appUsageListeners := appUsageListeners s; appUsageData := appUsageData s; userIdleTime := userIdleTime s; isFocusMode := isFocusMode s; focusModeWhitelist := focusModeWhitelist s; dimInsteadOfBlock := dimInsteadOfBlock s; focusModeListeners := focusModeListeners s; recentSwitches := recentSwitches s; lastWindowSwitchTime := lastWindowSwitchTime s; notificationThrottleMap := notificationThrottleMap s; currentUserId := currentUserId s; localStorage := localStorage s |}.

Definition set_screenTimeToday (v : Z) (s : State) : State :=
  {| lastActiveWindow := lastActiveWindow s; windowSwitches := windowSwitches s; switchTimer := switchTimer s; listeners := listeners s; isDesktopApp := isDesktopApp s; processedNotifications := processedNotifications s; screenTimeToday := v; lastScreenTimeUpdate := lastScreenTimeUpdate s; lastActivityTime := lastActivityTime s; screenTimeListeners := screenTimeListeners s; appUsageListeners := appUsageListeners s; appUsageData := appUsageData s; userIdleTime := userIdleTime s; isFocusMode := isFocusMode s; focusModeWhitelist := focusModeWhitelist s; dimInsteadOfBlock := dimInsteadOfBlock s; focusModeListeners := focusModeListeners s; recentSwitches := recentSwitches s; lastWindowSwitchTime := lastWindowSwitchTime s; notificationThrottleMap := notificationThrottleMap s; currentUserId := currentUserId s; localStorage := localStorage s |}.

Definition set_lastScreenTimeUpdate (v : Z) (s : State) : State :=
  {| lastActiveWindow := lastActiveWindow s; windowSwitches := windowSwitches s; switchTimer := switchTimer s; listeners := listeners s; isDesktopApp := isDesktopApp s; processedNotifications := processedNotifications s; screenTimeToday := screenTimeToday s; lastScreenTimeUpdate := v; lastActivityTime := lastActivityTime s; screenTimeListeners := screenTimeListeners s; appUsageListeners := appUsageListeners s; appUsageData := appUsageData s; userIdleTime := userIdleTime s; isFocusMode := isFocusMode s; focusModeWhitelist := focusModeWhitelist s; dimInsteadOfBlock := dimInsteadOfBlock s; focusModeListeners := focusModeListeners s; recentSwitches := recentSwitches s; lastWindowSwitchTime := lastWindowSwitchTime s; notificationThrottleMap := notificationThrottleMap s; currentUserId := currentUserId s; localStorage := localStorage s |}.

Definition set_lastActivityTime (v : Z) (s : State) : State :=
  {| lastActiveWindow := lastActiveWindow s; windowSwitches := windowSwitches s; switchTimer := switchTimer s; listeners := listeners s; isDesktopApp := isDesktopApp s; processedNotifications := processedNotifications s; screenTimeToday := screenTimeToday s; lastScreenTimeUpdate := lastScreenTimeUpdate s; lastActivityTime := v; screenTimeListeners := screenTimeListeners s; appUsageListeners := appUsageListeners s; appUsageData := appUsageData s; userIdleTime := userIdleTime s; isFocusMode := isFocusMode s; focusModeWhitelist := focusModeWhitelist s; dimInsteadOfBlock := dimInsteadOfBlock s; focusModeListeners := focusModeListeners s; recentSwitches := recentSwitches s; lastWindowSwitchTime := lastWindowSwitchTime s; notificationThrottleMap := notificationThrottleMap s; currentUserId := currentUserId s; localStorage := localStorage s |}.

Definition set_screenTimeListeners (v : list nat) (s : State) : State :=
  {| lastActiveWindow := lastActiveWindow s; windowSwitches := windowSwitches s; switchTimer := switchTimer s; listeners := listeners s; isDesktopApp := isDesktopApp s; processedNotifications := processedNotifications s; screenTimeToday := screenTimeToday s; lastScreenTimeUpdate := lastScreenTimeUpdate s; lastActivityTime := lastActivityTime s; screenTimeListeners := v; appUsageListeners := appUsageListeners s; appUsageData := appUsageData s; userIdleTime := userIdleTime s; isFocusMode := isFocusMode s; focusModeWhitelist := focusModeWhitelist s; dimInsteadOfBlock := dimInsteadOfBlock s; focusModeListeners := focusModeListeners s; recentSwitches := recentSwitches s; lastWindowSwitchTime := lastWindowSwitchTime s; notificationThrottleMap := notificationThrottleMap s; currentUserId := currentUserId s; localStorage := localStorage s |}.

Definition set_appUsageListeners (v : list nat) (s : State) : State :=
  {| lastActiveWindow := lastActiveWindow s; windowSwitches := windowSwitches s; switchTimer := switchTimer s; listeners := listeners s; isDesktopApp := isDesktopApp s; processedNotifications := processedNotifications s; screenTimeToday := screenTimeToday s; lastScreenTimeUpdate := lastScreenTimeUpdate s; lastActivityTime := lastActivityTime s; screenTimeListeners := screenTimeListeners s; appUsageListeners := v; appUsageData := appUsageData s; userIdleTime := userIdleTime s; isFocusMode := isFocusMode s; focusModeWhitelist := focusModeWhitelist s; dimInsteadOfBlock := dimInsteadOfBlock s; focusModeListeners := focusModeListeners s; recentSwitches := recentSwitches s; lastWindowSwitchTime := lastWindowSwitchTime s; notificationThrottleMap := notificationThrottleMap s; currentUserId := currentUserId s; localStorage := localStorage s |}.

Definition set_appUsageData (v : gmap jsstring AppData) (s : State) : State :=
  {| lastActiveWindow := lastActiveWindow s; windowSwitches := windowSwitches s; switchTimer := switchTimer s; listeners := listeners s; isDesktopApp := isDesktopApp s; processedNotifications := processedNotifications s; screenTimeToday := screenTimeToday s; lastScreenTimeUpdate := lastScreenTimeUpdate s; lastActivityTime := lastActivityTime s; screenTimeListeners := screenTimeListeners s; appUsageListeners := appUsageListeners s; appUsageData := v; userIdleTime := userIdleTime s; isFocusMode := isFocusMode s; focusModeWhitelist := focusModeWhitelist s; dimInsteadOfBlock := dimInsteadOfBlock s; focusModeListeners := focusModeListeners s; recentSwitches := recentSwitches s; lastWindowSwitchTime := lastWindowSwitchTime s; notificationThrottleMap := notificationThrottleMap s; currentUserId := currentUserId s; localStorage := localStorage s |}.

Definition set_userIdleTime (v : Z) (s : State) : State :=
  {| lastActiveWindow := lastActiveWindow s; windowSwitches := windowSwitches s; switchTimer := switchTimer s; listeners := listeners s; isDesktopApp := isDesktopApp s; processedNotifications := processedNotifications s; screenTimeToday := screenTimeToday s; lastScreenTimeUpdate := lastScreenTimeUpdate s; lastActivityTime := lastActivityTime s; screenTimeListeners := screenTimeListeners s; appUsageListeners := appUsageListeners s; appUsageData := appUsageData s; userIdleTime := v; isFocusMode := isFocusMode s; focusModeWhitelist := focusModeWhitelist s; dimInsteadOfBlock := dimInsteadOfBlock s; focusModeListeners := focusModeListeners s; recentSwitches := recentSwitches s; lastWindowSwitchTime := lastWindowSwitchTime s; notificationThrottleMap := notificationThrottleMap s; currentUserId := currentUserId s; localStorage := localStorage s |}.

Definition set_isFocusMode (v : bool) (s : State) : State :=
  {| lastActiveWindow := lastActiveWindow s; windowSwitches := windowSwitches s; switchTimer := switchTimer s; listeners := listeners s; isDesktopApp := isDesktopApp s; processedNotifications := processedNotifications s; screenTimeToday := screenTimeToday s; lastScreenTimeUpdate := lastScreenTimeUpdate s; lastActivityTime := lastActivityTime s; screenTimeListeners := screenTimeListeners s; appUsageListeners := appUsageListeners s; appUsageData := appUsageData s; userIdleTime := userIdleTime s; isFocusMode := v; focusModeWhitelist := focusModeWhitelist s; dimInsteadOfBlock := dimInsteadOfBlock s; focusModeListeners := focusModeListeners s; recentSwitches := recentSwitches s; lastWindowSwitchTime := lastWindowSwitchTime s; notificationThrottleMap := notificationThrottleMap s; currentUserId := currentUserId s; localStorage := localStorage s |}.

Definition set_focusModeWhitelist (v : list jsstring) (s : State) : State :=
  {| lastActiveWindow := lastActiveWindow s; windowSwitches := windowSwitches s; switchTimer := switchTimer s; listeners := listeners s; isDesktopApp := isDesktopApp s; processedNotifications := processedNotifications s; screenTimeToday := screenTimeToday s; lastScreenTimeUpdate := lastScreenTimeUpdate s; lastActivityTime := lastActivityTime s; screenTimeListeners := screenTimeListeners s; appUsageListeners := appUsageListeners s; appUsageData := appUsageData s; userIdleTime := userIdleTime s; isFocusMode := isFocusMode s; focusModeWhitelist := v; dimInsteadOfBlock := dimInsteadOfBlock s; focusModeListeners := focusModeListeners s; recentSwitches := recentSwitches s; lastWindowSwitchTime := lastWindowSwitchTime s; notificationThrottleMap := notificationThrottleMap s; currentUserId := currentUserId s; localStorage := localStorage s |}.

Definition set_dimInsteadOfBlock (v : bool) (s : State) : State :=
  {| lastActiveWindow := lastActiveWindow s; windowSwitches := windowSwitches s; switchTimer := switchTimer s; listeners := listeners s; isDesktopApp := isDesktopApp s; processedNotifications := processedNotifications s; screenTimeToday := screenTimeToday s; lastScreenTimeUpdate := lastScreenTimeUpdate s; lastActivityTime := lastActivityTime s; screenTimeListeners := screenTimeListeners s; appUsageListeners := appUsageListeners s; appUsageData := appUsageData s; userIdleTime := userIdleTime s; isFocusMode := isFocusMode s; focusModeWhitelist := focusModeWhitelist s; dimInsteadOfBlock := v; focusModeListeners := focusModeListeners s; recentSwitches := recentSwitches s; lastWindowSwitchTime := lastWindowSwitchTime s; notificationThrottleMap := notificationThrottleMap s; currentUserId := currentUserId s; localStorage := localStorage s |}.

Definition set_focusModeListeners (v : list nat) (s : State) : State :=
  {| lastActiveWindow := lastActiveWindow s; windowSwitches := windowSwitches s; switchTimer := switchTimer s; listeners := listeners s; isDesktopApp := isDesktopApp s; processedNotifications := processedNotifications s; screenTimeToday := screenTimeToday s; lastScreenTimeUpdate := lastScreenTimeUpdate s; lastActivityTime := lastActivityTime s; screenTimeListeners := screenTimeListeners s; appUsageListeners := appUsageListeners s; appUsageData := appUsageData s; userIdleTime := userIdleTime s; isFocusMode := isFocusMode s; focusModeWhitelist := focusModeWhitelist s; dimInsteadOfBlock := dimInsteadOfBlock s; focusModeListeners := v; recentSwitches := recentSwitches s; lastWindowSwitchTime := lastWindowSwitchTime s; notificationThrottleMap := notificationThrottleMap s; currentUserId := currentUserId s; localStorage := localStorage s |}.

Definition set_recentSwitches (v : Z) (s : State) : State :=
  {| lastActiveWindow := lastActiveWindow s; windowSwitches := windowSwitches s; switchTimer := switchTimer s; listeners := listeners s; isDesktopApp := isDesktopApp s; processedNotifications := processedNotifications s; screenTimeToday := screenTimeToday s; lastScreenTimeUpdate := lastScreenTimeUpdate s; lastActivityTime := lastActivityTime s; screenTimeListeners := screenTimeListeners s; appUsageListeners := appUsageListeners s; appUsageData := appUsageData s; userIdleTime := userIdleTime s; isFocusMode := isFocusMode s; focusModeWhitelist := focusModeWhitelist s; dimInsteadOfBlock := dimInsteadOfBlock s; focusModeListeners := focusModeListeners s; recentSwitches := v; lastWindowSwitchTime := lastWindowSwitchTime s; notificationThrottleMap := notificationThrottleMap s; currentUserId := currentUserId s; localStorage := localStorage s |}.

Definition set_lastWindowSwitchTime (v : Z) (s : State) : State :=
  {| lastActiveWindow := lastActiveWindow s; windowSwitches := windowSwitches s; switchTimer := switchTimer s; listeners := listeners s; isDesktopApp := isDesktopApp s; processedNotifications := processedNotifications s; screenTimeToday := screenTimeToday s; lastScreenTimeUpdate := lastScreenTimeUpdate s; lastActivityTime := lastActivityTime s; screenTimeListeners := screenTimeListeners s; appUsageListeners := appUsageListeners s; appUsageData := appUsageData s; userIdleTime := userIdleTime s; isFocusMode := isFocusMode s; focusModeWhitelist := focusModeWhitelist s; dimInsteadOfBlock := dimInsteadOfBlock s; focusModeListeners := focusModeListeners s; recentSwitches := recentSwitches s; lastWindowSwitchTime := v; notificationThrottleMap := notificationThrottleMap s; currentUserId := currentUserId s; localStorage := localStorage s |}.

Definition set_notificationThrottleMap (v : gmap jsstring Z) (s : State) : State :=
  {| lastActiveWindow := lastActiveWindow s; windowSwitches := windowSwitches s; switchTimer := switchTimer s; listeners := listeners s; isDesktopApp := isDesktopApp s; processedNotifications := processedNotifications s; screenTimeToday := screenTimeToday s; lastScreenTimeUpdate := lastScreenTimeUpdate s; lastActivityTime := lastActivityTime s; screenTimeListeners := screenTimeListeners s; appUsageListeners := appUsageListeners s; appUsageData := appUsageData s; userIdleTime := userIdleTime s; isFocusMode := isFocusMode s; focusModeWhitelist := focusModeWhitelist s; dimInsteadOfBlock := dimInsteadOfBlock s; focusModeListeners := focusModeListeners s; recentSwitches := recentSwitches s; lastWindowSwitchTime := lastWindowSwitchTime s; notificationThrottleMap := v; currentUserId := currentUserId s; localStorage := localStorage s |}.

Definition set_currentUserId (v : option jsstring) (s : State) : State :=
  {| lastActiveWindow := lastActiveWindow s; windowSwitches := windowSwitches s; switchTimer := switchTimer s; listeners := listeners s; isDesktopApp := isDesktopApp s; processedNotifications := processedNotifications s; screenTimeToday := screenTimeToday s; lastScreenTimeUpdate := lastScreenTimeUpdate s; lastActivityTime := lastActivityTime s; screenTimeListeners := screenTimeListeners s; appUsageListeners := appUsageListeners s; appUsageData := appUsageData s; userIdleTime := userIdleTime s; isFocusMode := isFocusMode s; focusModeWhitelist := focusModeWhitelist s; dimInsteadOfBlock := dimInsteadOfBlock s; focusModeListeners := focusModeListeners s; recentSwitches := recentSwitches s; lastWindowSwitchTime := lastWindowSwitchTime s; notificationThrottleMap := notificationThrottleMap s; currentUserId := v; localStorage := localStorage s |}.

Definition set_localStorage (v : gmap jsstring SavedData) (s : State) : State :=
  {| lastActiveWindow := lastActiveWindow s; windowSwitches := windowSwitches s; switchTimer := switchTimer s; listeners := listeners s; isDesktopApp := isDesktopApp s; processedNotifications := processedNotifications s; screenTimeToday := screenTimeToday s; lastScreenTimeUpdate := lastScreenTimeUpdate s; lastActivityTime := lastActivityTime s; screenTimeListeners := screenTimeListeners s; appUsageListeners := appUsageListeners s; appUsageData := appUsageData s; userIdleTime := userIdleTime s; isFocusMode := isFocusMode s; focusModeWhitelist := focusModeWhitelist s; dimInsteadOfBlock := dimInsteadOfBlock s; focusModeListeners := focusModeListeners s; recentSwitches := recentSwitches s; lastWindowSwitchTime := lastWindowSwitchTime s; notificationThrottleMap := notificationThrottleMap s; currentUserId := currentUserId s; localStorage := v |}.


Definition notificationThrottleTime : Z := 2000.

Definition toItem (d : AppData) : UsageItem :=
  {| itemTime := time d; itemType := type d;
     itemLastActiveTime := lastActiveTime d |}.

(** State left by the constructor: field initialisers, then
    [initializeScreenTimeTracking].  [storage] is what the host's
    [localStorage] holds at that moment. *)
Definition init (desktop : bool) (storage : gmap jsstring SavedData) (now : Z) : State :=
  {| lastActiveWindow := None; windowSwitches := 0; switchTimer := None;
     listeners := []; isDesktopApp := desktop; processedNotifications := ∅;
     screenTimeToday := 0; lastScreenTimeUpdate := now; lastActivityTime := now;
     screenTimeListeners := []; appUsageListeners := []; appUsageData := ∅;
     userIdleTime := 0; isFocusMode := false; focusModeWhitelist := [];
     dimInsteadOfBlock := true; focusModeListeners := []; recentSwitches := 0;
     lastWindowSwitchTime := 0; notificationThrottleMap := ∅;
     currentUserId := None; localStorage := storage |}.

Definition notifyScreenTimeListeners : Cmd State :=
  call (fun s => List.map (fun l => ScreenTimeListener l (screenTimeToday s))
                          (screenTimeListeners s)).

Definition notifyAppUsageListeners : Cmd State :=
  call (fun s => List.map (fun l => AppUsageListener l (toItem <$> appUsageData s))
                          (appUsageListeners s)).

Definition notifyFocusModeListeners : Cmd State :=
  call (fun s => List.map (fun l => FocusModeListener l (isFocusMode s))
                          (focusModeListeners s)).

Definition resetUserData : Cmd State :=
  modify (set_screenTimeToday 0) ;-
  modify (set_appUsageData ∅) ;-
  modify (set_processedNotifications ∅) ;-
  modify (set_notificationThrottleMap ∅) ;-
  modify (set_focusModeWhitelist DEFAULT_WHITELIST_APPS) ;-
  modify (set_isFocusMode false) ;-
  modify (set_dimInsteadOfBlock true) ;-
  notifyScreenTimeListeners ;-
  notifyAppUsageListeners ;-
  notifyFocusModeListeners.

Definition userDataKey (userId : jsstring) : jsstring :=
  js "systemTrayData_" ++ userId.

(** The body of [parsedData.appUsageData.forEach]. *)
Definition restoreApp (now : Z) (m : gmap jsstring AppData) (app : Saved.App)
    : gmap jsstring AppData :=
  if negb (isEmptyString (Saved.name app)) then
    <[Saved.name app :=
        {| time := Saved.time app; type := Saved.type app;
           lastActiveTime := if Saved.lastActiveTime app =? 0 then now
                             else Saved.lastActiveTime app;
           sessionStart := now |}]> m
  else m.

Definition loadUserData (userId : jsstring) (now : Z) : Cmd State := fun s =>
  match localStorage s !! userDataKey userId with
  | None => skip s
  | Some parsedData =>
      let timestamp := default 0 (Saved.timestamp parsedData) in
      if now - timestamp <? maxAge then
        (modify (set_screenTimeToday (default 0 (Saved.screenTimeToday parsedData))) ;-
         match Saved.focusModeWhitelist parsedData with
         | Some w => modify (set_focusModeWhitelist (mergeWhitelist w))
         | None => skip
         end ;-
         match Saved.isFocusMode parsedData with
         | Some b => modify (set_isFocusMode b)
         | None => skip
         end ;-
         match Saved.dimInsteadOfBlock parsedData with
         | Some b => modify (set_dimInsteadOfBlock b)
         | None => skip
         end ;-
         match Saved.appUsageData parsedData with
         | Some apps =>
             modify (fun s => set_appUsageData
                                (foldl (restoreApp now) (appUsageData s) apps) s)
         | None => skip
         end) s
      else skip s
  end.

Definition setCurrentUser (userId : jsstring) (now : Z) : Cmd State := fun s =>
  if bool_decide (currentUserId s <> Some userId) then
    (modify (set_currentUserId (Some userId)) ;-
     resetUserData ;-
     loadUserData userId now) s
  else skip s.

Definition toSaved (entry : jsstring * AppData) : Saved.App :=
  {| Saved.name := entry.1; Saved.time := time entry.2;
     Saved.type := type entry.2;
     Saved.lastActiveTime := lastActiveTime entry.2 |}.

Definition dataToSave (now : Z) (s : State) : SavedData :=
  {| Saved.screenTimeToday := Some (screenTimeToday s);
     Saved.appUsageData := Some (List.map toSaved (map_to_list (appUsageData s)));
     Saved.focusModeWhitelist := Some (focusModeWhitelist s);
     Saved.isFocusMode := Some (isFocusMode s);
     Saved.dimInsteadOfBlock := Some (dimInsteadOfBlock s);
     Saved.timestamp := Some now |}.

Definition persistUserData (now : Z) : Cmd State := fun s =>
  match currentUserId s with
  | None => skip s
  | Some userId =>
      if isEmptyString userId then skip s
      else modify (set_localStorage
                     (<[userDataKey userId := dataToSave now s]> (localStorage s))) s
  end.

Definition resetRecentSwitches : Cmd State := modify (set_recentSwitches 0).

Definition idleCheck (now : Z) : Cmd State := fun s =>
  let timeSinceLastActivity := now - lastActivityTime s in
  if timeSinceLastActivity >? idleThreshold
  then modify (set_userIdleTime timeSinceLastActivity) s
  else modify (set_userIdleTime 0) s.

Definition resetDailyStats : Cmd State :=
  modify (set_screenTimeToday 0) ;-
  modify (set_appUsageData ∅) ;-
  notifyScreenTimeListeners ;-
  notifyAppUsageListeners.

Definition updateAppUsageTime (appName : jsstring) (timeElapsed now : Z) : Cmd State :=
  fun s =>
  match appUsageData s !! appName with
  | Some appData =>
      modify (set_appUsageData
                (<[appName := {| time := time appData + timeElapsed;
                                 type := type appData;
                                 lastActiveTime := now;
                                 sessionStart := sessionStart appData |}]>
                   (appUsageData s))) s
  | None => skip s
  end.

Definition updateScreenTime (now : Z) : Cmd State :=
  (fun s =>
     if userIdleTime s <? idleThreshold then
       let timeElapsed := now - lastScreenTimeUpdate s in
       (modify (set_screenTimeToday (screenTimeToday s + timeElapsed)) ;-
        (fun s =>
           match lastActiveWindow s with
           | Some w => if isEmptyString w then skip s
                       else updateAppUsageTime w timeElapsed now s
           | None => skip s
           end) ;-
        notifyScreenTimeListeners ;-
        notifyAppUsageListeners) s
     else skip s) ;-
  modify (set_lastScreenTimeUpdate now).

Definition notifyFocusModeViolation (appName : jsstring) (now : Z) : Cmd State :=
  fun s =>
  if isSystemApp appName then skip s
  else
    let notificationId := js "focus-mode-violation-" ++ appName in
    if isAppInWhitelist appName (focusModeWhitelist s)
    then modify (set_processedNotifications ∅) s
    else if bool_decide (notificationId ∈ processedNotifications s) then skip s
    else
      let lastNotified := default 0 (notificationThrottleMap s !! appName) in
      if now - lastNotified <? notificationThrottleTime then skip s
      else
        (modify (fun s => set_notificationThrottleMap
                            (<[appName := now]> (notificationThrottleMap s)) s) ;-
         modify (fun s => set_processedNotifications
                            ({[notificationId]} ∪ processedNotifications s) s) ;-
         call (fun s =>
           let message := violationMessage appName in
           (if isDesktopApp s
            then [ShowNativeNotification
                    {| title := js "Focus Mode Alert"; body := message;
                       notificationId := Some notificationId |}]
            else []) ++
           List.map (fun l => Listener l message true) (listeners s))) s.

Definition handleWindowSwitch (newWindow : jsstring) (now : Z) : Cmd State :=
  fun s =>
  if bool_decide (lastActiveWindow s = Some newWindow) then skip s
  else
    (modify (set_lastActiveWindow (Some newWindow)) ;-
     modify (fun s => set_windowSwitches (windowSwitches s + 1) s) ;-
     modify (set_switchTimer (Some (now + switchTimeframe)))) s.

Definition switchTimerCallback : Cmd State :=
  modify (set_windowSwitches 0) ;- modify (set_switchTimer None).

Definition handleRealWindowSwitch (windowTitle : jsstring) (now : Z) : Cmd State :=
  (fun s =>
     if now - lastWindowSwitchTime s >? 2000 then
       (modify (fun s => set_recentSwitches (recentSwitches s + 1) s) ;-
        modify (set_lastWindowSwitchTime now) ;-
        call (fun _ => [ActiveWindowChangedEvent windowTitle])) s
     else skip s) ;-
  handleWindowSwitch windowTitle now.

Definition trackAppUsage (appTitle appOwner : jsstring) (now : Z) : Cmd State :=
  let appName := if bool_decide (appOwner <> js "Unknown") then appOwner else appTitle in
  let coreAppName := extractAppName appName in
  let appType := determineAppType coreAppName in
  (fun s =>
     match appUsageData s !! coreAppName with
     | None => modify (set_appUsageData
                         (<[coreAppName := {| time := 0; type := appType;
                                              lastActiveTime := now;
                                              sessionStart := now |}]>
                            (appUsageData s))) s
     | Some appData =>
         modify (set_appUsageData
                   (<[coreAppName := {| time := time appData;
                                        type := type appData;
                                        lastActiveTime := now;
                                        sessionStart := sessionStart appData |}]>
                      (appUsageData s))) s
     end) ;-
  (fun s =>
     if isFocusMode s && negb (isSystemApp coreAppName) &&
        negb (isAppInWhitelist coreAppName (focusModeWhitelist s))
     then notifyFocusModeViolation coreAppName now s
     else skip s) ;-
  notifyAppUsageListeners.

Definition activeWindowChanged (windowTitle : jsstring) (owner : option jsstring)
    (now : Z) : Cmd State :=
  handleRealWindowSwitch windowTitle now ;-
  trackAppUsage windowTitle (ownerOrUnknown owner) now ;-
  modify (set_lastActivityTime now).

Definition getScreenTime (now : Z) (s : State) : Z * (State * list effect) :=
  let r := updateScreenTime now s in
  (screenTimeToday (fst r), r).

Definition addScreenTimeListener (callback : nat) : Cmd State :=
  modify (fun s => set_screenTimeListeners (screenTimeListeners s ++ [callback]) s) ;-
  call (fun s => [ScreenTimeListener callback (screenTimeToday s)]).

Definition addAppUsageListener (callback : nat) : Cmd State :=
  modify (fun s => set_appUsageListeners (appUsageListeners s ++ [callback]) s) ;-
  call (fun s => [AppUsageListener callback (toItem <$> appUsageData s)]).

Definition addFocusModeListener (callback : nat) : Cmd State :=
  modify (fun s => set_focusModeListeners (focusModeListeners s ++ [callback]) s) ;-
  call (fun s => [FocusModeListener callback (isFocusMode s)]).

Definition addNotificationListener (callback : nat) : Cmd State :=
  modify (fun s => set_listeners (listeners s ++ [callback]) s).

Definition focusModeTooltip (active : bool) : jsstring :=
  js "Mindful Desktop Companion " ++ (if active then js "(Focus Mode)" else []).

Definition setFocusMode (active : bool) (now : Z) : Cmd State :=
  modify (set_isFocusMode active) ;-
  (if active
   then modify (set_processedNotifications ∅) ;-
        modify (set_notificationThrottleMap ∅)
   else skip) ;-
  notifyFocusModeListeners ;-
  persistUserData now ;-
  call (fun s => if isDesktopApp s then [SetTrayTooltip (focusModeTooltip active)]
                 else []).

Definition setFocusModeWhitelist (whitelist : list jsstring) (now : Z) : Cmd State :=
  modify (set_focusModeWhitelist (mergeWhitelist whitelist)) ;-
  modify (set_processedNotifications ∅) ;-
  modify (set_notificationThrottleMap ∅) ;-
  persistUserData now.

Definition setDimOption (dim : bool) (now : Z) : Cmd State :=
  modify (set_dimInsteadOfBlock dim) ;-
  persistUserData now.

Definition resetNotifications : Cmd State :=
  modify (set_processedNotifications ∅) ;-
  modify (set_notificationThrottleMap ∅).

(** What the host and the application deliver to the service. *)
Inductive event :=
| ActiveWindowChanged (windowTitle : jsstring) (owner : option jsstring) (now : Z)
| IdleCheck (now : Z)
| Tick (now : Z)
| SwitchTimeout (now : Z)
| RecentSwitchesInterval
| Persist (now : Z)
| Midnight
| SetCurrentUser (userId : jsstring) (now : Z)
| SetFocusMode (active : bool) (now : Z)
| SetFocusModeWhitelist (whitelist : list jsstring) (now : Z)
| SetDimOption (dim : bool) (now : Z)
| ResetNotifications.

Definition step (ev : event) : Cmd State :=
  match ev with
  | ActiveWindowChanged windowTitle owner now => activeWindowChanged windowTitle owner now
  | IdleCheck now => idleCheck now
  | Tick now => updateScreenTime now
  | SwitchTimeout now =>
      fun s =>
        match switchTimer s with
        | Some due => if due <=? now then switchTimerCallback s else skip s
        | None => skip s
        end
  | RecentSwitchesInterval => resetRecentSwitches
  | Persist now => persistUserData now
  | Midnight => resetDailyStats
  | SetCurrentUser userId now => setCurrentUser userId now
  | SetFocusMode active now => setFocusMode active now
  | SetFocusModeWhitelist whitelist now => setFocusModeWhitelist whitelist now
  | SetDimOption dim now => setDimOption dim now
  | ResetNotifications => resetNotifications
  end.

Fixpoint run (evs : list event) (s : State) : State :=
  match evs with
  | [] => s
  | ev :: evs' => run evs' (fst (step ev s))
  end.

(** Everything the service emits along a run, in call order. *)
Fixpoint trace (evs : list event) (s : State) : list effect :=
  match evs with
  | [] => []
  | ev :: evs' => snd (step ev s) ++ trace evs' (fst (step ev s))
  end.

(** The clock reading an event carries, if any. *)
Definition eventTime (ev : event) : option Z :=
  match ev with
  | ActiveWindowChanged _ _ now | IdleCheck now | Tick now | SwitchTimeout now => Some now
  | Persist now | SetCurrentUser _ now => Some now
  | SetFocusMode _ now | SetFocusModeWhitelist _ now | SetDimOption _ now => Some now
  | _ => None
  end.

(** The events arrive in the order of their clock readings, none before
    [t]. *)
Fixpoint chronological (t : Z) (evs : list event) : Prop :=
  match evs with
  | [] => True
  | ev :: evs' =>
      match eventTime ev with
      | Some now => t <= now /\ chronological now evs'
      | None => chronological t evs'
      end
  end.

(** The events that zero the daily counters. *)
Definition isReset (ev : event) : bool :=
  match ev with
  | Midnight | SetCurrentUser _ _ => true
  | _ => false
  end.

Definition isIdleCheck (ev : event) : bool :=
  match ev with
  | IdleCheck _ => true
  | _ => false
  end.

Definition removeScreenTimeListener (callback : nat) : Cmd State :=
  modify (fun s => set_screenTimeListeners
                     (removeFirst callback (screenTimeListeners s)) s).

Definition removeAppUsageListener (callback : nat) : Cmd State :=
  modify (fun s => set_appUsageListeners
                     (removeFirst callback (appUsageListeners s)) s).

Definition removeFocusModeListener (callback : nat) : Cmd State :=
  modify (fun s => set_focusModeListeners
                     (removeFirst callback (focusModeListeners s)) s).

Definition removeNotificationListener (callback : nat) : Cmd State :=
  modify (fun s => set_listeners (removeFirst callback (listeners s)) s).

Definition getFormattedScreenTime (now : Z) (s : State)
    : jsstring * (State * list effect) :=
  let r := getScreenTime now s in
  (formatScreenTime (fst r), snd r).

End UserTray.


(** * Vocabulary of the statements *)

(** [t] occurs in [s]. *)
Definition contains (s t : jsstring) : Prop :=
  exists pre post, s = pre ++ t ++ post.

(** [a] case-insensitively contains, or is contained by, the entry [e]. *)
Definition matchesEntry (a e : jsstring) : Prop :=
  contains (toLowerCase e) (toLowerCase a) \/
  contains (toLowerCase a) (toLowerCase e).

(** No separator starts at any of the first [n] positions of [t]. *)
Definition noSeparatorBefore (n : nat) (t : jsstring) : Prop :=
  forall i, (i < n)%nat -> sepAt (drop i t) = false.

Definition noLineTerminator (p : jsstring) : Prop :=
  forallb (fun c => negb (isLineTerminator c)) p = true.

(** The separators as the specification words them: a dash or a pipe
    between spaces, a colon, or a digit. *)
Definition specSepAt (r : jsstring) : bool :=
  match r with
  | c :: r' =>
      isColon c || isDigit c ||
      (isSpace c &&
       match r' with
       | d :: x :: _ => (isDash d || isPipe d) && isSpace x
       | _ => false
       end)
  | [] => false
  end.

Fixpoint specSegment (r : jsstring) : jsstring :=
  if specSepAt r then []
  else match r with
       | [] => []
       | c :: r' => c :: specSegment r'
       end.

(** The normalizer in the specification's words: the leading segment up to
    the first such separator, trimmed. *)
Definition specNormalize (windowTitle : jsstring) : jsstring :=
  trim (specSegment windowTitle).

(** The identity [trackAppUsage] derives from an ['active-window-changed']
    message: the owner when the host gave one, else the title, normalized. *)
Definition derivedIdentity (windowTitle : jsstring) (owner : option jsstring) : jsstring :=
  let appOwner := ownerOrUnknown owner in
  extractAppName (if bool_decide (appOwner <> js "Unknown") then appOwner else windowTitle).

(** [e] delivers a focus-mode violation about the identity [a], to a
    listener or to the host. *)
Definition violationFor (a : jsstring) (e : effect) : Prop :=
  match e with
  | Listener _ message _ => message = violationMessage a
  | ShowNativeNotification n => body n = violationMessage a
  | _ => False
  end.

(** A service of the second class that saw one window, "Slack", one second
    after it was constructed. *)
Definition slackSession : UserTray.State :=
  fst (UserTray.step (UserTray.ActiveWindowChanged (js "Slack") None 1000)
         (UserTray.init true ∅ 0)).

(** Services of the second class that saw one window one second after
    they were constructed: one with an empty title, one whose title is not
    its own derived identity (the record is stored under "Inbox"). *)
Definition blankTitleSession : UserTray.State :=
  fst (UserTray.step (UserTray.ActiveWindowChanged [] None 1000)
         (UserTray.init true ∅ 0)).

Definition inboxSession : UserTray.State :=
  fst (UserTray.step (UserTray.ActiveWindowChanged (js "Inbox - Mail") None 1000)
         (UserTray.init true ∅ 0)).


(** ** The distraction-streak signal of the first service *)

Fixpoint countb {A} (p : A -> bool) (l : list A) : nat :=
  match l with
  | [] => 0%nat
  | x :: l' => ((if p x then 1 else 0) + countb p l')%nat
  end.

(** The signal as the host receives it. *)
Definition isStreakNative (e : effect) : bool :=
  match e with
  | ShowNativeNotification n => bool_decide (title n = js "Focus Reminder")
  | _ => false
  end.

(** The signal as the notification listener [cb] receives it. *)
Definition isStreakCall (cb : nat) (e : effect) : bool :=
  match e with
  | Listener l message _ => bool_decide (l = cb) && bool_decide (message = focusNeededMessage)
  | _ => false
  end.

Definition nativeReminders (out : list effect) : nat := countb isStreakNative out.

Definition listenerReminders (cb : nat) (out : list effect) : nat :=
  countb (isStreakCall cb) out.

(** The event is a genuine window switch that brings the switch counter to
    the threshold. *)
Definition reachesThreshold (s : Tray.State) (ev : Tray.event) : bool :=
  match ev with
  | Tray.ActiveWindowChanged t _ _ =>
      negb (bool_decide (Tray.lastActiveWindow s = Some t)) &&
      (Tray.windowSwitches s + 1 >=? switchThreshold)
  | _ => false
  end.

(** More than the cooldown has passed since the last signal. *)
Definition cooldownElapsed (s : Tray.State) (ev : Tray.event) : bool :=
  match Tray.eventTime ev with
  | Some now => now - Tray.lastNotificationTime s >? notificationCooldown
  | None => false
  end.

Definition emitsStreak (s : Tray.State) (ev : Tray.event) : bool :=
  reachesThreshold s ev && cooldownElapsed s ev.

(** The times at which a run emits the signal. *)
Fixpoint streakTimes (evs : list Tray.event) (s : Tray.State) : list Z :=
  match evs with
  | [] => []
  | ev :: evs' =>
      (if emitsStreak s ev
       then match Tray.eventTime ev with Some now => [now] | None => [] end
       else []) ++ streakTimes evs' (fst (Tray.step ev s))
  end.

(** Each time is more than the cooldown after the one before it, the first
    after [last]. *)
Fixpoint spaced (last : Z) (ts : list Z) : Prop :=
  match ts with
  | [] => True
  | t :: ts' => t - last > notificationCooldown /\ spaced t ts'
  end.

(** ** The 30-second timeframe of the switch counter *)

(** The event is a window message for a window other than the last active
    one. *)
Definition genuineSwitch (s : Tray.State) (ev : Tray.event) : bool :=
  match ev with
  | Tray.ActiveWindowChanged t _ _ =>
      negb (bool_decide (Tray.lastActiveWindow s = Some t))
  | _ => false
  end.

(** The event is the host running the callback of the switch timer at or
    after the time it was set for. *)
Definition timeoutDue (s : Tray.State) (ev : Tray.event) : bool :=
  match ev with
  | Tray.SwitchTimeout now =>
      match Tray.switchTimer s with
      | Some due => due <=? now
      | None => false
      end
  | _ => false
  end.

(** The same two notions for the second service. *)
Definition UserTray_genuineSwitch (s : UserTray.State) (ev : UserTray.event) : bool :=
  match ev with
  | UserTray.ActiveWindowChanged t _ _ =>
      negb (bool_decide (UserTray.lastActiveWindow s = Some t))
  | _ => false
  end.

Definition UserTray_timeoutDue (s : UserTray.State) (ev : UserTray.event) : bool :=
  match ev with
  | UserTray.SwitchTimeout now =>
      match UserTray.switchTimer s with
      | Some due => due <=? now
      | None => false
      end
  | _ => false
  end.

(** The host does not hand [ev] to the service while the switch timer is
    overdue: a pending timer set for [due] has run before any other event
    with a clock reading after [due] is handled. *)
Definition timerRespected (s : Tray.State) (ev : Tray.event) : Prop :=
  match ev with
  | Tray.SwitchTimeout _ => True
  | _ =>
      match Tray.switchTimer s, Tray.eventTime ev with
      | Some due, Some now => now <= due
      | _, _ => True
      end
  end.

(** A run in which the host runs the switch timer on time. *)
Fixpoint timely (evs : list Tray.event) (s : Tray.State) : Prop :=
  match evs with
  | [] => True
  | ev :: evs' => timerRespected s ev /\ timely evs' (fst (Tray.step ev s))
  end.

(** No event of [evs], run from [s], is a genuine switch. *)
Fixpoint noSwitchIn (evs : list Tray.event) (s : Tray.State) : Prop :=
  match evs with
  | [] => True
  | ev :: evs' => genuineSwitch s ev = false /\ noSwitchIn evs' (fst (Tray.step ev s))
  end.

(** The last two genuine switches of the run [pre] from [s] are window
    messages at [n1] and then at [n2]. *)
Definition twoSwitchesBefore (s : Tray.State) (pre : list Tray.event) (n1 n2 : Z) : Prop :=
  exists a t1 o1 b t2 o2 c,
    let e1 := Tray.ActiveWindowChanged t1 o1 n1 in
    let e2 := Tray.ActiveWindowChanged t2 o2 n2 in
    pre = a ++ e1 :: b ++ e2 :: c /\
    genuineSwitch (Tray.run a s) e1 = true /\
    noSwitchIn b (Tray.run (a ++ [e1]) s) /\
    genuineSwitch (Tray.run (a ++ e1 :: b) s) e2 = true /\
    noSwitchIn c (Tray.run (a ++ e1 :: b ++ [e2]) s).

(** Three genuine switches 29 s apart, 58 s from the first to the last. *)
Definition spreadSwitches : list Tray.event :=
  [Tray.ActiveWindowChanged (js "Mail") None 200000;
   Tray.ActiveWindowChanged (js "Chat") None 229000;
   Tray.ActiveWindowChanged (js "News") None 258000].

(** The counter's value is backed by that many genuine switches, the last
    ones of the run, the last of which armed the pending timer, each no
    more than the timeframe after the one before. *)
Definition counterBacked (s0 : Tray.State) (pre : list Tray.event) : Prop :=
  let s := Tray.run pre s0 in
  Tray.windowSwitches s = 0 \/
  (Tray.windowSwitches s = 1 /\
   exists a t o n c,
     pre = a ++ Tray.ActiveWindowChanged t o n :: c /\
     genuineSwitch (Tray.run a s0) (Tray.ActiveWindowChanged t o n) = true /\
     noSwitchIn c (Tray.run (a ++ [Tray.ActiveWindowChanged t o n]) s0) /\
     Tray.switchTimer s = Some (n + switchTimeframe)) \/
  (Tray.windowSwitches s = 2 /\
   exists n1 n2,
     twoSwitchesBefore s0 pre n1 n2 /\ n2 - n1 <= switchTimeframe /\
     Tray.switchTimer s = Some (n2 + switchTimeframe)).

(** The focus score is the one that goes with the distraction count. *)
Definition scoreInStep (s : Tray.State) : Prop :=
  Tray.focusScore s = Z.max 0 (100 - 5 * Tray.distractionCount s).

(** ** Persistence *)



(** A session of user "u1" in which the host reported a window with an
    empty title and one minute was accumulated, saved at 61000. *)
Definition emptyTitleSession : UserTray.State :=
  UserTray.run
    [UserTray.SetCurrentUser (js "u1") 500;
     UserTray.ActiveWindowChanged [] None 1000;
     UserTray.Tick 60000]
    (UserTray.init true ∅ 0).

Definition emptyTitleSaved : UserTray.State :=
  fst (UserTray.step (UserTray.Persist 61000) emptyTitleSession).


(** ** Three quick window switches, seen by each service with one
    notification listener, 7, subscribed *)
Definition threeSwitches {E} (mk : jsstring -> option jsstring -> Z -> E) : list E :=
  [mk (js "Mail") None 200000; mk (js "Chat") None 201000; mk (js "News") None 202000].

Definition listeningTray : Tray.State :=
  fst (Tray.addNotificationListener 7 (Tray.init true ∅ 0)).

Definition listeningUserTray : UserTray.State :=
  fst (UserTray.addNotificationListener 7 (UserTray.init true ∅ 0)).

(** ** Twenty streaks in one day *)

(** Three genuine switches one second apart, starting at [base]. *)
Definition streakAt (base : Z) : list Tray.event :=
  [Tray.ActiveWindowChanged (js "Mail") None base;
   Tray.ActiveWindowChanged (js "Chat") None (base + 1000);
   Tray.ActiveWindowChanged (js "News") None (base + 2000)].

(** Twenty such streaks, 200 s apart, on a fresh service. *)
Definition twentyStreaks : list Tray.event :=
  flat_map (fun i => streakAt (200000 * Z.of_nat i)) (seq 1 20).

Definition wornOut : Tray.State := Tray.run twentyStreaks (Tray.init true ∅ 0).

(** The same service saved at 4100000 and constructed again at 4200000
    over the storage it left. *)
Definition wornOutRestarted : Tray.State :=
  Tray.init true
    (Tray.localStorage (fst (Tray.step (Tray.Persist 4100000) wornOut))) 4200000.

(** * Vocabulary of the further statements *)

(** The lower-cased name contains one of the keywords. *)
Definition hasKeyword (name : jsstring) (keywords : list jsstring) : Prop :=
  exists k, In k keywords /\ contains (toLowerCase name) k.

(** Every code unit is white space. *)
Definition blank (s : jsstring) : Prop := forallb isSpace s = true.

(** ** Printed durations *)

(** A decimal numeral holds no letter [h]. *)
Definition noH (s : jsstring) : Prop := Forall (fun c => c <> 104%N) s.

(** ** Subscriptions *)

(** One kind of subscription: the method that subscribes, the method that
    unsubscribes and the field that holds the callbacks. *)
Record Subscription (St : Type) := {
  subscribe : nat -> Cmd St;
  unsubscribe : nat -> Cmd St;
  registered : St -> list nat }.
Arguments subscribe {St}.
Arguments unsubscribe {St}.
Arguments registered {St}.

Definition Tray_subscriptions : list (Subscription Tray.State) :=
  [ {| subscribe := Tray.addNotificationListener;
       unsubscribe := Tray.removeNotificationListener;
       registered := Tray.listeners |};
    {| subscribe := Tray.addScreenTimeListener;
       unsubscribe := Tray.removeScreenTimeListener;
       registered := Tray.screenTimeListeners |};
    {| subscribe := Tray.addFocusScoreListener;
       unsubscribe := Tray.removeFocusScoreListener;
       registered := Tray.focusScoreUpdateListeners |};
    {| subscribe := Tray.addAppUsageListener;
       unsubscribe := Tray.removeAppUsageListener;
       registered := Tray.appUsageListeners |};
    {| subscribe := Tray.addFocusModeListener;
       unsubscribe := Tray.removeFocusModeListener;
       registered := Tray.focusModeListeners |} ].

Definition UserTray_subscriptions : list (Subscription UserTray.State) :=
  [ {| subscribe := UserTray.addNotificationListener;
       unsubscribe := UserTray.removeNotificationListener;
       registered := UserTray.listeners |};
    {| subscribe := UserTray.addScreenTimeListener;
       unsubscribe := UserTray.removeScreenTimeListener;
       registered := UserTray.screenTimeListeners |};
    {| subscribe := UserTray.addAppUsageListener;
       unsubscribe := UserTray.removeAppUsageListener;
       registered := UserTray.appUsageListeners |};
    {| subscribe := UserTray.addFocusModeListener;
       unsubscribe := UserTray.removeFocusModeListener;
       registered := UserTray.focusModeListeners |} ].

(** How often [callback] is called when the subscribers of kind [k] are
    notified. *)
Definition subscribed {St} (k : Subscription St) (callback : nat) (s : St) : nat :=
  count_occ Nat.eq_dec (registered k s) callback.

(** Unsubscribing takes one registration of the callback away, silently,
    and does nothing at all for a callback that is not registered;
    subscribing adds one registration; a callback that was not registered
    and subscribes and unsubscribes leaves the service as it was. *)
Definition unsubscribeUndoes {St} (k : Subscription St) : Prop :=
  forall (callback : nat) (s : St),
    let s1 := fst (subscribe k callback s) in
    let s2 := fst (unsubscribe k callback s) in
    snd (unsubscribe k callback s) = [] /\
    (forall other, subscribed k other s1 =
       if Nat.eqb other callback then S (subscribed k other s)
       else subscribed k other s) /\
    (forall other, subscribed k other s2 =
       if Nat.eqb other callback then Nat.pred (subscribed k other s)
       else subscribed k other s) /\
    (subscribed k callback s = 0%nat ->
     s2 = s /\ fst (unsubscribe k callback s1) = s).

(** ** Counters of the first service *)

(** The switch counter is below the threshold, the distraction count is
    not negative, and the focus score is the one that goes with it. *)
Definition countersInRange (s : Tray.State) : Prop :=
  0 <= Tray.windowSwitches s < switchThreshold /\
  0 <= Tray.distractionCount s /\
  scoreInStep s.

Definition noReset (evs : list Tray.event) : Prop :=
  forallb (fun ev => negb (Tray.isReset ev)) evs = true.

(** ** The focus-mode guard *)

(** Someone is there to be told: the host of the desktop build, or a
    notification listener. *)
Definition hasReceiver (desktop : bool) (listeners : list nat) : Prop :=
  desktop = true \/ listeners <> [].

(** The first service owes a violation about the identity [a] at [now]. *)
Definition Tray_violationDue (a : jsstring) (now : Z) (s : Tray.State) : Prop :=
  Tray.isFocusMode s = true /\
  isSystemApp a = false /\
  isAppInWhitelist a (Tray.focusModeWhitelist s) = false /\
  Tray.notificationThrottleTime <= now - default 0 (Tray.notificationThrottleMap s !! a).

(** The key under which the second service remembers that it has told
    about [a]. *)
Definition violationKey (a : jsstring) : jsstring := js "focus-mode-violation-" ++ a.

(** The second service owes a violation about the identity [a] at [now]. *)
Definition UserTray_violationDue (a : jsstring) (now : Z) (s : UserTray.State) : Prop :=
  UserTray.isFocusMode s = true /\
  isSystemApp a = false /\
  isAppInWhitelist a (UserTray.focusModeWhitelist s) = false /\
  (violationKey a ∉ UserTray.processedNotifications s) /\
  UserTray.notificationThrottleTime <=
    now - default 0 (UserTray.notificationThrottleMap s !! a).

(** The events that leave the first service's throttle map alone. *)
Definition Tray_keepsThrottle (ev : Tray.event) : bool :=
  match ev with
  | Tray.SetFocusMode active _ => negb active
  | Tray.SetFocusModeWhitelist _ _ | Tray.ResetNotifications => false
  | _ => true
  end.

(** The events that never empty the second service's set of processed
    notifications. *)
Definition UserTray_keepsProcessed (ev : UserTray.event) : bool :=
  match ev with
  | UserTray.SetFocusMode active _ => negb active
  | UserTray.SetFocusModeWhitelist _ _ | UserTray.ResetNotifications
  | UserTray.SetCurrentUser _ _ => false
  | _ => true
  end.

(** The event carries no clock reading at or after [t]. *)
Definition Tray_before (t : Z) (ev : Tray.event) : Prop :=
  forall now, Tray.eventTime ev = Some now -> now < t.

(** ** Restarting the first service *)

(** A usage record as [loadPersistedData] rebuilds it at time [now] from
    what [persistData] wrote for it. *)
Definition Tray_restored (now : Z) (d : Tray.AppData) : Tray.AppData :=
  {| Tray.time := Tray.time d;
     Tray.type := Tray.type d;
     Tray.lastActiveTime :=
       if Tray.lastActiveTime d =? 0 then now else Tray.lastActiveTime d |}.

(** The first service saves its state [s] at [t0]; a new service is
    constructed at [now] over the storage this leaves. *)
Definition Tray_restarted (desktop : bool) (t0 now : Z) (s : Tray.State) : Tray.State :=
  Tray.init desktop (Tray.localStorage (fst (Tray.persistData t0 s))) now.

(** ** Storage of the second service *)

(** The users the second service works for during a run: the one signed in
    at its start and those who sign in along it. *)
Fixpoint usersOf (current : option jsstring) (evs : list UserTray.event) : list jsstring :=
  match evs with
  | [] => match current with Some u => [u] | None => [] end
  | UserTray.SetCurrentUser u _ :: evs' =>
      match current with Some u0 => [u0] | None => [] end ++ usersOf (Some u) evs'
  | _ :: evs' => usersOf current evs'
  end.

(** ** The usage ledger of the second service *)

(** The time the usage records hold, taken together. *)
Definition ledgerTotal (usage : gmap jsstring UserTray.AppData) : Z :=
  map_fold (fun _ d total => UserTray.time d + total) 0 usage.

Definition sameUser (ev : UserTray.event) : bool :=
  match ev with
  | UserTray.SetCurrentUser _ _ => false
  | _ => true
  end.

(** ** The usage ledger of the first service *)

(** The first service credits the window of an ['active-window-changed']
    message: the user is not idle and the title is its own derived
    identity. *)
Definition Tray_credits (windowTitle : jsstring) (owner : option jsstring)
    (s : Tray.State) : bool :=
  (Tray.userIdleTime s <? idleThreshold) &&
  bool_decide (windowTitle = derivedIdentity windowTitle owner).

(** ** Usage records along a run *)

Definition UserTray_noReset (evs : list UserTray.event) : Prop :=
  forallb (fun ev => negb (UserTray.isReset ev)) evs = true.

(** Events in the order of their clock readings, none before [t], as the
    first service's activity stamp sees them. *)
Definition Tray_inOrderSince (s : Tray.State) (evs : list Tray.event) : Prop :=
  exists t, Tray.lastActivityTime s <= t /\ Tray.chronological t evs.

Definition UserTray_inOrderSince (s : UserTray.State) (evs : list UserTray.event) : Prop :=
  exists t, UserTray.lastScreenTimeUpdate s <= t /\ UserTray.chronological t evs.

(** ** The debounced switch count *)

(** The page event that [handleRealWindowSwitch] dispatches. *)
Definition isDispatch (e : effect) : bool :=
  match e with
  | ActiveWindowChangedEvent _ => true
  | _ => false
  end.

Definition dispatches (out : list effect) : nat := countb isDispatch out.





(** * Properties *)

(** ** Strings *)

Lemma startsWith_spec (t s : jsstring) :
  startsWith s t = true <-> exists post, s = t ++ post.
Proof.
  revert s. induction t as [|b t IH]; intros s; simpl.
  - split; [intros _; exists s; reflexivity | reflexivity].
  - destruct s as [|a s].
    + split; [discriminate | intros [post H]; discriminate H].
    + rewrite andb_true_iff, N.eqb_eq, IH. split.
      * intros [-> [post ->]]. exists post. reflexivity.
      * intros [post H]. injection H as -> ->. split; [reflexivity | eauto].
Qed.

Lemma includes_spec (s t : jsstring) :
  includes s t = true <-> contains s t.
Proof.
  unfold contains. induction s as [|a s IH].
  - simpl. rewrite orb_false_r, startsWith_spec. split.
    + intros [post H]. exists [], post. exact H.
    + intros [pre [post H]]. destruct pre; [|discriminate H].
      exists post. exact H.
  - cbn [includes]. rewrite orb_true_iff, startsWith_spec, IH. split.
    + intros [[post H] | [pre [post H]]].
      * exists [], post. exact H.
      * exists (a :: pre), post. rewrite H. reflexivity.
    + intros [pre [post H]]. destruct pre as [|x pre].
      * left. exists post. exact H.
      * right. injection H as -> H. eauto.
Qed.

Lemma includes_empty (s : jsstring) : includes s [] = true.
Proof. destruct s; reflexivity. Qed.

Lemma fuzzyMatch_spec (a e : jsstring) :
  fuzzyMatch a e = true <->
  contains (toLowerCase a) (toLowerCase e) \/
  contains (toLowerCase e) (toLowerCase a).
Proof. unfold fuzzyMatch. rewrite orb_true_iff, !includes_spec. reflexivity. Qed.

Lemma isSystemApp_spec (a : jsstring) :
  isSystemApp a = true <->
  exists e, In e DEFAULT_WHITELIST_APPS /\ matchesEntry a e.
Proof.
  unfold isSystemApp, matchesEntry. rewrite existsb_exists. split.
  - intros [e [Hin H]]. exists e. split; [exact Hin|].
    apply fuzzyMatch_spec in H. tauto.
  - intros [e [Hin H]]. exists e. split; [exact Hin|].
    apply fuzzyMatch_spec. tauto.
Qed.

Lemma isSystemApp_empty : isSystemApp [] = true.
Proof. reflexivity. Qed.

(** C5. The whitelist test is a two-way, case-insensitive substring test:
    for a non-empty identity [a] and any whitelist [w] it answers true
    exactly when some entry of the default-exempt list or of [w] contains
    [a] or is contained in [a], lower-cased on both sides; the empty
    identity is never allowed; and both [isAppInWhitelist "VSCode" ["code"]]
    and [isAppInWhitelist "code" ["VSCode"]] are true. *)
Theorem isAppInWhitelist_bidirectional :
  (forall (a : jsstring) (w : list jsstring),
      a <> [] ->
      (isAppInWhitelist a w = true <->
       exists e, In e (DEFAULT_WHITELIST_APPS ++ w) /\ matchesEntry a e)) /\
  (forall w : list jsstring, isAppInWhitelist [] w = false) /\
  isAppInWhitelist (js "VSCode") [js "code"] = true /\
  isAppInWhitelist (js "code") [js "VSCode"] = true.
Proof.
  split; [|split; [|split]].
  - intros a w Ha. unfold isAppInWhitelist.
    destruct a as [|c a]; [congruence|]. cbn [isEmptyString].
    destruct (isSystemApp (c :: a)) eqn:Hsys.
    + split; [|reflexivity]. intros _.
      apply isSystemApp_spec in Hsys as [e [Hin H]].
      exists e. split; [apply in_or_app; left; exact Hin | exact H].
    + rewrite existsb_exists. split.
      * intros [e [Hin H]]. exists e. split; [apply in_or_app; right; exact Hin|].
        apply fuzzyMatch_spec in H. unfold matchesEntry. tauto.
      * intros [e [Hin H]]. apply in_app_or in Hin as [Hin | Hin].
        -- assert (isSystemApp (c :: a) = true) as Habs
             by (apply isSystemApp_spec; eauto).
           congruence.
        -- exists e. split; [exact Hin|]. apply fuzzyMatch_spec.
           unfold matchesEntry in H. tauto.
  - reflexivity.
  - vm_compute. reflexivity.
  - vm_compute. reflexivity.
Qed.

Lemma isAppInWhitelist_bidirectional_witness :
  isAppInWhitelist (js "Slack") [js "slack desktop"] = true <->
  exists e, In e (DEFAULT_WHITELIST_APPS ++ [js "slack desktop"]) /\
            matchesEntry (js "Slack") e.
Proof.
  apply (proj1 isAppInWhitelist_bidirectional (js "Slack") [js "slack desktop"]).
  vm_compute. discriminate.
Defined.

(** ** NameNormalizer *)

Lemma matchFrom_unfold (acc r : jsstring) :
  matchFrom acc r =
  if sepAt r then Some (rev acc)
  else match r with
       | [] => Some (rev acc)
       | c :: r' => if isLineTerminator c then None else matchFrom (c :: acc) r'
       end.
Proof. destruct r; reflexivity. Qed.

Lemma noSeparatorBefore_tail (n : nat) (c : N) (t : jsstring) :
  noSeparatorBefore (S n) (c :: t) ->
  sepAt (c :: t) = false /\ noSeparatorBefore n t.
Proof.
  intros H. split.
  - apply (H 0%nat). lia.
  - intros i Hi. apply (H (S i)). lia.
Qed.

Lemma matchFrom_found (pre rest acc : jsstring) :
  noSeparatorBefore (length pre) (pre ++ rest) ->
  noLineTerminator pre ->
  sepAt rest = true \/ rest = [] ->
  matchFrom acc (pre ++ rest) = Some (rev acc ++ pre).
Proof.
  revert acc. induction pre as [|c pre IH]; intros acc Hsep Hlt Hrest.
  - cbn [app]. rewrite matchFrom_unfold, app_nil_r.
    destruct Hrest as [-> | ->]; reflexivity.
  - cbn [app length] in *. apply noSeparatorBefore_tail in Hsep as [H0 Hsep].
    unfold noLineTerminator in Hlt. cbn [forallb] in Hlt.
    apply andb_true_iff in Hlt as [Hc Hlt]. apply negb_true_iff in Hc.
    rewrite matchFrom_unfold, H0, Hc, (IH (c :: acc) Hsep Hlt Hrest).
    cbn [rev]. rewrite <- app_assoc. reflexivity.
Qed.

Lemma matchFrom_lineTerminator (pre rest acc : jsstring) (c : N) :
  noSeparatorBefore (S (length pre)) (pre ++ c :: rest) ->
  noLineTerminator pre ->
  isLineTerminator c = true ->
  matchFrom acc (pre ++ c :: rest) = None.
Proof.
  revert acc. induction pre as [|x pre IH]; intros acc Hsep Hlt Hc.
  - cbn [app length] in *. apply noSeparatorBefore_tail in Hsep as [H0 _].
    rewrite matchFrom_unfold, H0, Hc. reflexivity.
  - cbn [app length] in *. apply noSeparatorBefore_tail in Hsep as [H0 Hsep].
    unfold noLineTerminator in Hlt. cbn [forallb] in Hlt.
    apply andb_true_iff in Hlt as [Hx Hlt]. apply negb_true_iff in Hx.
    rewrite matchFrom_unfold, H0, Hx. apply IH; assumption.
Qed.

Lemma matchFrom_no_separator (t acc : jsstring) :
  (forall i, sepAt (drop i t) = false) ->
  matchFrom acc t = Some (rev acc ++ t) \/ matchFrom acc t = None.
Proof.
  revert acc. induction t as [|c t IH]; intros acc H.
  - left. rewrite app_nil_r. reflexivity.
  - pose proof (H 0%nat) as H0. cbn [drop] in H0.
    rewrite matchFrom_unfold, H0.
    destruct (isLineTerminator c); [right; reflexivity|].
    destruct (IH (c :: acc) (fun i => H (S i))) as [-> | ->].
    + left. cbn [rev]. rewrite <- app_assoc. reflexivity.
    + right. reflexivity.
Qed.

Lemma extractAppName_of_match (t g : jsstring) :
  t <> [] -> matchAppName t = Some g ->
  extractAppName t = if isEmptyString (trim g) then trim t else trim g.
Proof.
  intros Ht Hm. unfold extractAppName. rewrite Hm.
  destruct t; [congruence | reflexivity].
Qed.

Lemma extractAppName_no_match (t : jsstring) :
  matchAppName t = None -> extractAppName t = trim t.
Proof.
  intros Hm. unfold extractAppName. rewrite Hm. destruct t; reflexivity.
Qed.

(** C7, counterexample.  A digit or a colon that does not follow white
    space is a separator in the specification's wording but not for the
    code: "MP3 Player" and "Settings: Display" stay whole. *)
Lemma extractAppName_digit_colon_counterexample :
  extractAppName (js "MP3 Player") = js "MP3 Player" /\
  specNormalize (js "MP3 Player") = js "MP" /\
  extractAppName (js "Settings: Display") = js "Settings: Display" /\
  specNormalize (js "Settings: Display") = js "Settings".
Proof. vm_compute. repeat split. Qed.

(** C7, as amended.  A separator is white space followed by a dash
    (hyphen, en dash, em dash) and white space, white space followed by a
    pipe and white space, white space followed by a colon, or white space
    followed by a digit.  With [rest] starting at the first separator of
    the title [pre ++ rest] and no line terminator in [pre], the result is
    [pre] trimmed, unless that is empty, in which case it is the whole
    title trimmed.  A title without any separator, and a title in which a
    line terminator comes before the first separator, give the whole title
    trimmed.  The empty title gives the empty identity.
    "YouTube - Cat Videos" gives "YouTube"; "Visual Studio Code" gives
    itself. *)
Theorem extractAppName_leading_segment :
  (forall pre rest : jsstring,
      noSeparatorBefore (length pre) (pre ++ rest) ->
      noLineTerminator pre ->
      sepAt rest = true ->
      extractAppName (pre ++ rest) =
      if isEmptyString (trim pre) then trim (pre ++ rest) else trim pre) /\
  (forall t : jsstring,
      (forall i, sepAt (drop i t) = false) -> extractAppName t = trim t) /\
  (forall (pre rest : jsstring) (c : N),
      noSeparatorBefore (S (length pre)) (pre ++ c :: rest) ->
      noLineTerminator pre ->
      isLineTerminator c = true ->
      extractAppName (pre ++ c :: rest) = trim (pre ++ c :: rest)) /\
  extractAppName [] = [] /\
  extractAppName (js "YouTube - Cat Videos") = js "YouTube" /\
  extractAppName (js "Visual Studio Code") = js "Visual Studio Code".
Proof.
  split; [|split; [|split; [|split; [|split]]]].
  - intros pre rest Hsep Hlt Hrest.
    apply extractAppName_of_match.
    + destruct pre; [|discriminate]. destruct rest; [discriminate Hrest | discriminate].
    + unfold matchAppName. rewrite (matchFrom_found pre rest []); auto.
  - intros t H. destruct t as [|c t]; [reflexivity|].
    destruct (matchFrom_no_separator (c :: t) [] H) as [Hm | Hm].
    + rewrite (extractAppName_of_match (c :: t) (c :: t)); [|discriminate | exact Hm].
      destruct (isEmptyString (trim (c :: t))); reflexivity.
    + apply extractAppName_no_match. exact Hm.
  - intros pre rest c Hsep Hlt Hc. apply extractAppName_no_match.
    unfold matchAppName. apply matchFrom_lineTerminator; assumption.
  - reflexivity.
  - vm_compute. reflexivity.
  - vm_compute. reflexivity.
Qed.

Lemma extractAppName_leading_segment_witness :
  extractAppName (js "Inbox | Mail" ) = js "Inbox" /\
  extractAppName (js "Visual Studio Code") = trim (js "Visual Studio Code") /\
  extractAppName (js "Notes" ++ 10%N :: js " - x") = trim (js "Notes" ++ 10%N :: js " - x").
Proof.
  split; [|split].
  - apply (proj1 extractAppName_leading_segment (js "Inbox") (js " | Mail")).
    + intros i Hi. do 5 (destruct i as [|i]; [reflexivity|]). cbn in Hi. lia.
    + reflexivity.
    + reflexivity.
  - apply (proj1 (proj2 extractAppName_leading_segment) (js "Visual Studio Code")).
    intros i. do 18 (destruct i as [|i]; [reflexivity|]). destruct i; reflexivity.
  - apply (proj1 (proj2 (proj2 extractAppName_leading_segment)) (js "Notes") (js " - x") 10%N).
    + intros i Hi. do 6 (destruct i as [|i]; [reflexivity|]). cbn in Hi. lia.
    + reflexivity.
    + reflexivity.
Defined.

(** ** Running method bodies *)

Lemma andThen_fst {S} (c1 c2 : Cmd S) (s : S) :
  fst ((c1 ;- c2) s) = fst (c2 (fst (c1 s))).
Proof.
  unfold andThen. destruct (c1 s) as [s1 o1]. cbn [fst].
  destruct (c2 s1). reflexivity.
Qed.

Lemma andThen_snd {S} (c1 c2 : Cmd S) (s : S) :
  snd ((c1 ;- c2) s) = snd (c1 s) ++ snd (c2 (fst (c1 s))).
Proof.
  unfold andThen. destruct (c1 s) as [s1 o1]. cbn [fst snd].
  destruct (c2 s1). reflexivity.
Qed.

Lemma Forall_map_intro {A B} (P : B -> Prop) (f : A -> B) (l : list A) :
  (forall x, P (f x)) -> Forall P (List.map f l).
Proof. intros H. induction l; constructor; auto. Qed.

Ltac cmd_simpl :=
  unfold andThen, modify, call, skip in *; cbn beta iota delta [fst snd] in *.

Ltac cases :=
  repeat match goal with
         | |- context [if ?c then _ else _] => destruct c eqn:?
         | |- context [match ?x with Some _ => _ | None => _ end] => destruct x eqn:?
         end.

Ltac forget_states :=
  repeat match goal with
         | |- context [fst ?x] => generalize (fst x); intro
         end.

Ltac split_out :=
  rewrite ?andThen_snd; repeat (apply Forall_app; split); forget_states.

Ltac all_out :=
  repeat first
    [ apply List.Forall_nil
    | apply Forall_app; split
    | apply List.Forall_cons
    | apply Forall_map_intro; intros ? ].

(** Projections of updated states. *)
Ltac tray_fields :=
  cbn [
    Tray.lastActiveWindow Tray.set_lastActiveWindow Tray.windowSwitches
    Tray.set_windowSwitches Tray.switchTimer Tray.set_switchTimer
    Tray.listeners Tray.set_listeners Tray.isDesktopApp Tray.set_isDesktopApp
    Tray.lastNotificationTime Tray.set_lastNotificationTime
    Tray.notificationThrottleMap Tray.set_notificationThrottleMap
    Tray.screenTimeToday Tray.set_screenTimeToday Tray.lastScreenTimeUpdate
    Tray.set_lastScreenTimeUpdate Tray.lastActivityTime
    Tray.set_lastActivityTime Tray.screenTimeListeners
    Tray.set_screenTimeListeners Tray.appUsageListeners
    Tray.set_appUsageListeners Tray.appUsageData Tray.set_appUsageData
    Tray.userIdleTime Tray.set_userIdleTime Tray.focusScore
    Tray.set_focusScore Tray.distractionCount Tray.set_distractionCount
    Tray.focusScoreUpdateListeners Tray.set_focusScoreUpdateListeners
    Tray.isFocusMode Tray.set_isFocusMode Tray.focusModeWhitelist
    Tray.set_focusModeWhitelist Tray.dimInsteadOfBlock
    Tray.set_dimInsteadOfBlock Tray.focusModeListeners
    Tray.set_focusModeListeners Tray.recentSwitches Tray.set_recentSwitches
    Tray.lastWindowSwitchTime Tray.set_lastWindowSwitchTime
    fst snd] in *.

Ltac usertray_fields :=
  cbn [
    UserTray.lastActiveWindow UserTray.set_lastActiveWindow
    UserTray.windowSwitches UserTray.set_windowSwitches UserTray.switchTimer
    UserTray.set_switchTimer UserTray.listeners UserTray.set_listeners
    UserTray.isDesktopApp UserTray.set_isDesktopApp
    UserTray.processedNotifications UserTray.set_processedNotifications
    UserTray.screenTimeToday UserTray.set_screenTimeToday
    UserTray.lastScreenTimeUpdate UserTray.set_lastScreenTimeUpdate
    UserTray.lastActivityTime UserTray.set_lastActivityTime
    UserTray.screenTimeListeners UserTray.set_screenTimeListeners
    UserTray.appUsageListeners UserTray.set_appUsageListeners
    UserTray.appUsageData UserTray.set_appUsageData UserTray.userIdleTime
    UserTray.set_userIdleTime UserTray.isFocusMode UserTray.set_isFocusMode
    UserTray.focusModeWhitelist UserTray.set_focusModeWhitelist
    UserTray.dimInsteadOfBlock UserTray.set_dimInsteadOfBlock
    UserTray.focusModeListeners UserTray.set_focusModeListeners
    UserTray.recentSwitches UserTray.set_recentSwitches
    UserTray.lastWindowSwitchTime UserTray.set_lastWindowSwitchTime
    UserTray.notificationThrottleMap UserTray.set_notificationThrottleMap
    UserTray.currentUserId UserTray.set_currentUserId UserTray.localStorage
    UserTray.set_localStorage
    fst snd] in *.

Ltac tray_policy :=
  unfold Tray.setFocusMode, Tray.setFocusModeWhitelist, Tray.setDimOption,
    Tray.resetNotifications, Tray.persistData, Tray.notifyFocusModeListeners.

Ltac usertray_policy :=
  unfold UserTray.setFocusMode, UserTray.setFocusModeWhitelist, UserTray.setDimOption,
    UserTray.resetNotifications, UserTray.persistUserData,
    UserTray.notifyFocusModeListeners.

(** ** FocusModeGuard: default-exempt identities *)

Lemma violationMessage_inj (a b : jsstring) :
  violationMessage a = violationMessage b -> a = b.
Proof.
  unfold violationMessage. intros H.
  apply app_inv_head in H. apply app_inv_tail in H. exact H.
Qed.

Lemma violationMessage_not_focusNeeded (a : jsstring) :
  focusNeededMessage <> violationMessage a.
Proof. unfold violationMessage. intros H. vm_compute in H. discriminate H. Qed.

Ltac no_violation := all_out; cbn [violationFor body]; try tauto.

Lemma Tray_handleRealWindowSwitch_no_violation a t now s :
  Forall (fun e => ~ violationFor a e) (snd (Tray.handleRealWindowSwitch t now s)).
Proof.
  unfold Tray.handleRealWindowSwitch. split_out.
  - cmd_simpl. cases; cbn [fst snd app]; no_violation.
  - unfold Tray.handleWindowSwitch, Tray.notifyFocusNeeded, Tray.notifyFocusScoreListeners.
    cmd_simpl. cases; cbn [fst snd app]; no_violation.
    all: apply violationMessage_not_focusNeeded.
Qed.

Lemma Tray_notifyFocusModeViolation_exempt a now s :
  isSystemApp a = true -> snd (Tray.notifyFocusModeViolation a now s) = [].
Proof. intros Ha. unfold Tray.notifyFocusModeViolation. rewrite Ha. reflexivity. Qed.

Lemma Tray_notifyFocusModeViolation_other a b now s :
  isSystemApp a = true ->
  Forall (fun e => ~ violationFor a e) (snd (Tray.notifyFocusModeViolation b now s)).
Proof.
  intros Ha. unfold Tray.notifyFocusModeViolation. cmd_simpl.
  cases; cbn [fst snd app]; no_violation.
  all: intros H%violationMessage_inj; congruence.
Qed.

Lemma Tray_trackAppUsage_no_violation a t o now s :
  isSystemApp a = true ->
  Forall (fun e => ~ violationFor a e) (snd (Tray.trackAppUsage t o now s)).
Proof.
  intros Ha. unfold Tray.trackAppUsage. split_out.
  - cmd_simpl. cases; cbn [fst snd app]; no_violation.
  - cmd_simpl. cases; cbn [fst snd app]; no_violation.
  - cbn beta.
    cases; first [apply Tray_notifyFocusModeViolation_other; exact Ha
                 | apply List.Forall_nil].
  - unfold Tray.notifyAppUsageListeners. cmd_simpl. no_violation.
Qed.

Lemma Tray_step_no_violation (a : jsstring) (ev : Tray.event) (s : Tray.State) :
  isSystemApp a = true ->
  Forall (fun e => ~ violationFor a e) (snd (Tray.step ev s)).
Proof.
  intros Ha. destruct ev as [t o now | now | now | now | | now | | active now | w now | dim now |]; cbn [Tray.step].
  - unfold Tray.activeWindowChanged. split_out.
    + apply Tray_handleRealWindowSwitch_no_violation.
    + apply Tray_trackAppUsage_no_violation. exact Ha.
    + apply List.Forall_nil.
  - unfold Tray.idleCheck. cmd_simpl. cases; apply List.Forall_nil.
  - unfold Tray.updateScreenTime, Tray.notifyScreenTimeListeners. cmd_simpl.
    cases; cbn [fst snd app]; no_violation.
  - unfold Tray.switchTimerCallback. cmd_simpl. cases; apply List.Forall_nil.
  - apply List.Forall_nil.
  - apply List.Forall_nil.
  - unfold Tray.resetDailyStats, Tray.notifyScreenTimeListeners,
      Tray.notifyFocusScoreListeners, Tray.notifyAppUsageListeners.
    cmd_simpl. no_violation.
  - tray_policy. cmd_simpl. cases; cbn [fst snd app]; no_violation.
  - apply List.Forall_nil.
  - apply List.Forall_nil.
  - apply List.Forall_nil.
Qed.

Lemma UserTray_handleRealWindowSwitch_no_violation a t now s :
  Forall (fun e => ~ violationFor a e) (snd (UserTray.handleRealWindowSwitch t now s)).
Proof.
  unfold UserTray.handleRealWindowSwitch. split_out.
  - cmd_simpl. cases; cbn [fst snd app]; no_violation.
  - unfold UserTray.handleWindowSwitch. cmd_simpl. cases; cbn [fst snd app]; no_violation.
Qed.

Lemma UserTray_notifyFocusModeViolation_exempt a now s :
  isSystemApp a = true -> snd (UserTray.notifyFocusModeViolation a now s) = [].
Proof. intros Ha. unfold UserTray.notifyFocusModeViolation. rewrite Ha. reflexivity. Qed.

Lemma UserTray_notifyFocusModeViolation_other a b now s :
  isSystemApp a = true ->
  Forall (fun e => ~ violationFor a e) (snd (UserTray.notifyFocusModeViolation b now s)).
Proof.
  intros Ha. unfold UserTray.notifyFocusModeViolation. cmd_simpl.
  cases; cbn [fst snd app]; no_violation.
  all: intros H%violationMessage_inj; congruence.
Qed.

Lemma UserTray_trackAppUsage_no_violation a t o now s :
  isSystemApp a = true ->
  Forall (fun e => ~ violationFor a e) (snd (UserTray.trackAppUsage t o now s)).
Proof.
  intros Ha. unfold UserTray.trackAppUsage. split_out.
  - cmd_simpl. cases; cbn [fst snd app]; no_violation.
  - cbn beta.
    cases; first [apply UserTray_notifyFocusModeViolation_other; exact Ha
                 | apply List.Forall_nil].
  - unfold UserTray.notifyAppUsageListeners. cmd_simpl. no_violation.
Qed.

Lemma UserTray_resetUserData_no_violation a s :
  Forall (fun e => ~ violationFor a e) (snd (UserTray.resetUserData s)).
Proof.
  unfold UserTray.resetUserData, UserTray.notifyScreenTimeListeners,
    UserTray.notifyAppUsageListeners, UserTray.notifyFocusModeListeners.
  cmd_simpl. no_violation.
Qed.

Lemma UserTray_loadUserData_silent u now s :
  snd (UserTray.loadUserData u now s) = [].
Proof.
  unfold UserTray.loadUserData. cmd_simpl. cases; reflexivity.
Qed.

Lemma UserTray_step_no_violation (a : jsstring) (ev : UserTray.event) (s : UserTray.State) :
  isSystemApp a = true ->
  Forall (fun e => ~ violationFor a e) (snd (UserTray.step ev s)).
Proof.
  intros Ha. destruct ev as [t o now | now | now | now | | now | | u now | active now | w now | dim now |];
    cbn [UserTray.step].
  - unfold UserTray.activeWindowChanged. split_out.
    + apply UserTray_handleRealWindowSwitch_no_violation.
    + apply UserTray_trackAppUsage_no_violation. exact Ha.
    + apply List.Forall_nil.
  - unfold UserTray.idleCheck. cmd_simpl. cases; apply List.Forall_nil.
  - unfold UserTray.updateScreenTime, UserTray.updateAppUsageTime,
      UserTray.notifyScreenTimeListeners, UserTray.notifyAppUsageListeners.
    cmd_simpl. cases; cbn [fst snd app]; no_violation.
  - unfold UserTray.switchTimerCallback. cmd_simpl. cases; apply List.Forall_nil.
  - apply List.Forall_nil.
  - unfold UserTray.persistUserData. cmd_simpl. cases; apply List.Forall_nil.
  - unfold UserTray.resetDailyStats, UserTray.notifyScreenTimeListeners,
      UserTray.notifyAppUsageListeners.
    cmd_simpl. no_violation.
  - unfold UserTray.setCurrentUser. destruct (bool_decide _); [|apply List.Forall_nil].
    split_out.
    all: first [ apply UserTray_resetUserData_no_violation
               | rewrite UserTray_loadUserData_silent; apply List.Forall_nil
               | solve [no_violation] ].
  - usertray_policy. cmd_simpl. cases; cbn [fst snd app]; no_violation.
  - usertray_policy. cmd_simpl. cases; apply List.Forall_nil.
  - usertray_policy. cmd_simpl. cases; apply List.Forall_nil.
  - apply List.Forall_nil.
Qed.

(** C4. An identity that case-insensitively contains, or is contained by,
    an entry of the default-exempt list is never reported: in both
    services, whatever the state (any whitelist, the empty one included,
    focus mode on or off), [notifyFocusModeViolation] called with it
    delivers nothing, and no run of the service, from any state and over
    any events, delivers a focus-mode violation about it to a listener or
    to the host. *)
Theorem default_exempt_never_violates (a : jsstring) :
  (exists e, In e DEFAULT_WHITELIST_APPS /\ matchesEntry a e) ->
  (forall s now, snd (Tray.notifyFocusModeViolation a now s) = []) /\
  (forall s now, snd (UserTray.notifyFocusModeViolation a now s) = []) /\
  (forall evs s, Forall (fun e => ~ violationFor a e) (Tray.trace evs s)) /\
  (forall evs s, Forall (fun e => ~ violationFor a e) (UserTray.trace evs s)).
Proof.
  intros Ha. apply isSystemApp_spec in Ha. repeat split.
  - intros s now. apply Tray_notifyFocusModeViolation_exempt. exact Ha.
  - intros s now. apply UserTray_notifyFocusModeViolation_exempt. exact Ha.
  - induction evs as [|ev evs IH]; intros s; cbn [Tray.trace].
    + apply List.Forall_nil.
    + apply Forall_app. split; [apply Tray_step_no_violation; exact Ha | apply IH].
  - induction evs as [|ev evs IH]; intros s; cbn [UserTray.trace].
    + apply List.Forall_nil.
    + apply Forall_app. split; [apply UserTray_step_no_violation; exact Ha | apply IH].
Qed.

Lemma default_exempt_never_violates_witness :
  snd (Tray.notifyFocusModeViolation (js "Chrome") 1000
         (Tray.set_isFocusMode true (Tray.init true ∅ 0))) = [] /\
  Forall (fun e => ~ violationFor (js "Chrome") e)
    (Tray.trace [Tray.ActiveWindowChanged (js "Chrome") None 1000]
       (Tray.set_isFocusMode true (Tray.init true ∅ 0))).
Proof.
  assert (exists e, In e DEFAULT_WHITELIST_APPS /\ matchesEntry (js "Chrome") e) as H.
  { exists (js "chrome-devtools"). split.
    - vm_compute. tauto.
    - left. exists [], (js "-devtools"). vm_compute. reflexivity. }
  split.
  - apply (proj1 (default_exempt_never_violates (js "Chrome") H)).
  - apply (proj1 (proj2 (proj2 (default_exempt_never_violates (js "Chrome") H)))).
Defined.

(** ** SubscriptionRegistry *)

(** C9, counterexample.  Subscribing to the distraction/alert messages only
    registers the callback: nothing is invoked, in either service. *)
Lemma addNotificationListener_no_replay_counterexample :
  snd (Tray.addNotificationListener 7 (Tray.init true ∅ 0)) = [] /\
  snd (UserTray.addNotificationListener 7 (UserTray.init true ∅ 0)) = [].
Proof. split; reflexivity. Qed.

(** C9, as amended.  For screen time, app usage and focus-mode state (and,
    in the first service, the focus score) subscribing appends the callback
    to the listener list and invokes it once, with the current value,
    before returning; for the distraction/alert messages subscribing
    appends the callback and invokes nothing: the callback first hears of
    an alert when the next one is sent. *)
Theorem subscribe_replays_state_signals :
  (forall cb s,
      Tray.addScreenTimeListener cb s =
      (Tray.set_screenTimeListeners (Tray.screenTimeListeners s ++ [cb]) s,
       [ScreenTimeListener cb (Tray.screenTimeToday s)])) /\
  (forall cb s,
      Tray.addAppUsageListener cb s =
      (Tray.set_appUsageListeners (Tray.appUsageListeners s ++ [cb]) s,
       [AppUsageListener cb (Tray.toItem <$> Tray.appUsageData s)])) /\
  (forall cb s,
      Tray.addFocusModeListener cb s =
      (Tray.set_focusModeListeners (Tray.focusModeListeners s ++ [cb]) s,
       [FocusModeListener cb (Tray.isFocusMode s)])) /\
  (forall cb s,
      Tray.addFocusScoreListener cb s =
      (Tray.set_focusScoreUpdateListeners (Tray.focusScoreUpdateListeners s ++ [cb]) s,
       [FocusScoreListener cb (Tray.focusScore s) (Tray.distractionCount s)])) /\
  (forall cb s,
      Tray.addNotificationListener cb s =
      (Tray.set_listeners (Tray.listeners s ++ [cb]) s, []) /\
      In (Listener cb focusNeededMessage true)
         (snd (Tray.notifyFocusNeeded (fst (Tray.addNotificationListener cb s))))) /\
  (forall cb s,
      UserTray.addScreenTimeListener cb s =
      (UserTray.set_screenTimeListeners (UserTray.screenTimeListeners s ++ [cb]) s,
       [ScreenTimeListener cb (UserTray.screenTimeToday s)])) /\
  (forall cb s,
      UserTray.addAppUsageListener cb s =
      (UserTray.set_appUsageListeners (UserTray.appUsageListeners s ++ [cb]) s,
       [AppUsageListener cb (UserTray.toItem <$> UserTray.appUsageData s)])) /\
  (forall cb s,
      UserTray.addFocusModeListener cb s =
      (UserTray.set_focusModeListeners (UserTray.focusModeListeners s ++ [cb]) s,
       [FocusModeListener cb (UserTray.isFocusMode s)])) /\
  (forall cb s,
      UserTray.addNotificationListener cb s =
      (UserTray.set_listeners (UserTray.listeners s ++ [cb]) s, [])).
Proof.
  repeat apply conj; try reflexivity.
  intros cb s. split; [reflexivity|].
  unfold Tray.addNotificationListener, Tray.notifyFocusNeeded. cmd_simpl. tray_fields.
  apply in_or_app. right. rewrite List.map_app. apply in_or_app. right.
  left. reflexivity.
Qed.

(** ** getScreenTime *)

Lemma slackSession_record :
  UserTray.appUsageData slackSession !! js "Slack" =
  Some {| UserTray.time := 0; UserTray.type := communication;
          UserTray.lastActiveTime := 1000; UserTray.sessionStart := 1000 |}.
Proof. vm_compute. reflexivity. Qed.

Lemma Tray_updateScreenTime_state now s :
  fst (Tray.updateScreenTime now s) =
  Tray.set_lastScreenTimeUpdate now
    (if Tray.userIdleTime s <? idleThreshold
     then Tray.set_screenTimeToday
            (Tray.screenTimeToday s + (now - Tray.lastScreenTimeUpdate s)) s
     else s).
Proof.
  unfold Tray.updateScreenTime, Tray.notifyScreenTimeListeners. cmd_simpl.
  destruct (Tray.userIdleTime s <? idleThreshold); reflexivity.
Qed.

Lemma UserTray_updateScreenTime_fields now s :
  let s' := fst (UserTray.updateScreenTime now s) in
  s' = UserTray.set_lastScreenTimeUpdate now
         (UserTray.set_appUsageData (UserTray.appUsageData s')
            (UserTray.set_screenTimeToday (UserTray.screenTimeToday s') s)) /\
  UserTray.screenTimeToday s' =
    (if UserTray.userIdleTime s <? idleThreshold
     then UserTray.screenTimeToday s + (now - UserTray.lastScreenTimeUpdate s)
     else UserTray.screenTimeToday s).
Proof.
  unfold UserTray.updateScreenTime, UserTray.updateAppUsageTime,
    UserTray.notifyScreenTimeListeners, UserTray.notifyAppUsageListeners.
  cmd_simpl. cases; destruct s; split; reflexivity.
Qed.

Lemma UserTray_updateScreenTime_usage now s :
  UserTray.appUsageData (fst (UserTray.updateScreenTime now s)) =
  if UserTray.userIdleTime s <? idleThreshold then
    match UserTray.lastActiveWindow s with
    | Some w =>
        if isEmptyString w then UserTray.appUsageData s
        else match UserTray.appUsageData s !! w with
             | Some d =>
                 <[w := {| UserTray.time :=
                             UserTray.time d + (now - UserTray.lastScreenTimeUpdate s);
                           UserTray.type := UserTray.type d;
                           UserTray.lastActiveTime := now;
                           UserTray.sessionStart := UserTray.sessionStart d |}]>
                   (UserTray.appUsageData s)
             | None => UserTray.appUsageData s
             end
    | None => UserTray.appUsageData s
    end
  else UserTray.appUsageData s.
Proof.
  unfold UserTray.updateScreenTime, UserTray.updateAppUsageTime,
    UserTray.notifyScreenTimeListeners, UserTray.notifyAppUsageListeners.
  cmd_simpl. cases; simpl in *; congruence.
Qed.

(** C10, counterexample.  In the second service the getter also writes the
    usage record of the last active window: "Slack" gains the 5000 ms since
    the previous tick and a new last-active stamp. *)
Lemma getScreenTime_usage_counterexample :
  UserTray.appUsageData slackSession !! js "Slack" =
    Some {| UserTray.time := 0; UserTray.type := communication;
            UserTray.lastActiveTime := 1000; UserTray.sessionStart := 1000 |} /\
  UserTray.appUsageData (fst (snd (UserTray.getScreenTime 5000 slackSession)))
    !! js "Slack" =
    Some {| UserTray.time := 5000; UserTray.type := communication;
            UserTray.lastActiveTime := 5000; UserTray.sessionStart := 1000 |}.
Proof. split; vm_compute; reflexivity. Qed.

(** C10, as amended.  [getScreenTime] is not a pure query: each call runs
    the accumulation step.  The value returned is the total plus the time
    since the previous tick when the idle flag is clear, and the unchanged
    total when it is set; the previous-tick timestamp becomes the current
    time; two successive calls can return different values.  In the first
    service nothing but the total and that timestamp changes.  In the
    second service one usage record can change as well: when the flag is
    clear, the raw title of the last active window is not empty and a
    record is stored under that title, this record gains the same elapsed
    time and its last-active stamp becomes the current time.  No other
    record changes, and none at all when the flag is set, when there is no
    last active window, when its title is empty, or when no record is
    stored under the title (records are stored under the derived identity,
    which need not be the title); every other field is unchanged. *)
Theorem getScreenTime_runs_accumulation :
  (forall now s,
      fst (snd (Tray.getScreenTime now s)) =
      Tray.set_lastScreenTimeUpdate now
        (Tray.set_screenTimeToday (fst (Tray.getScreenTime now s)) s)) /\
  (forall now s,
      fst (Tray.getScreenTime now s) =
      if Tray.userIdleTime s <? idleThreshold
      then Tray.screenTimeToday s + (now - Tray.lastScreenTimeUpdate s)
      else Tray.screenTimeToday s) /\
  (fst (Tray.getScreenTime 1000 (Tray.init true ∅ 0)) = 1000 /\
   fst (Tray.getScreenTime 2000
          (fst (snd (Tray.getScreenTime 1000 (Tray.init true ∅ 0))))) = 2000) /\
  (forall now s,
      let s' := fst (snd (UserTray.getScreenTime now s)) in
      s' = UserTray.set_lastScreenTimeUpdate now
             (UserTray.set_appUsageData (UserTray.appUsageData s')
                (UserTray.set_screenTimeToday (fst (UserTray.getScreenTime now s)) s))) /\
  (forall now s,
      fst (UserTray.getScreenTime now s) =
      if UserTray.userIdleTime s <? idleThreshold
      then UserTray.screenTimeToday s + (now - UserTray.lastScreenTimeUpdate s)
      else UserTray.screenTimeToday s) /\
  (forall now s k,
      UserTray.lastActiveWindow s <> Some k ->
      UserTray.appUsageData (fst (snd (UserTray.getScreenTime now s))) !! k =
      UserTray.appUsageData s !! k) /\
  (forall now s,
      idleThreshold <= UserTray.userIdleTime s ->
      UserTray.appUsageData (fst (snd (UserTray.getScreenTime now s))) =
      UserTray.appUsageData s) /\
  (forall now s w d,
      UserTray.userIdleTime s < idleThreshold ->
      UserTray.lastActiveWindow s = Some w -> w <> [] ->
      UserTray.appUsageData s !! w = Some d ->
      UserTray.appUsageData (fst (snd (UserTray.getScreenTime now s))) !! w =
      Some {| UserTray.time :=
                UserTray.time d + (now - UserTray.lastScreenTimeUpdate s);
              UserTray.type := UserTray.type d;
              UserTray.lastActiveTime := now;
              UserTray.sessionStart := UserTray.sessionStart d |}) /\
  (forall now s,
      UserTray.lastActiveWindow s = None ->
      UserTray.appUsageData (fst (snd (UserTray.getScreenTime now s))) =
      UserTray.appUsageData s) /\
  (forall now s,
      UserTray.lastActiveWindow s = Some [] ->
      UserTray.appUsageData (fst (snd (UserTray.getScreenTime now s))) =
      UserTray.appUsageData s) /\
  (forall now s w,
      UserTray.lastActiveWindow s = Some w ->
      UserTray.appUsageData s !! w = None ->
      UserTray.appUsageData (fst (snd (UserTray.getScreenTime now s))) =
      UserTray.appUsageData s).
Proof.
  unfold Tray.getScreenTime, UserTray.getScreenTime. cbn [fst snd].
  split; [|split; [|split; [|split; [|split; [|split; [|split; [|split; [|split; [|split]]]]]]]]].
  - intros now s. rewrite Tray_updateScreenTime_state.
    destruct (Tray.userIdleTime s <? idleThreshold); destruct s; reflexivity.
  - intros now s. rewrite Tray_updateScreenTime_state.
    destruct (Tray.userIdleTime s <? idleThreshold); reflexivity.
  - split; vm_compute; reflexivity.
  - intros now s. apply (UserTray_updateScreenTime_fields now s).
  - intros now s. apply (UserTray_updateScreenTime_fields now s).
  - intros now s k Hk. rewrite UserTray_updateScreenTime_usage.
    cases; try reflexivity. apply lookup_insert_ne. congruence.
  - intros now s Hidle. rewrite UserTray_updateScreenTime_usage.
    destruct (Z.ltb_spec (UserTray.userIdleTime s) idleThreshold); [lia | reflexivity].
  - intros now s w d Hidle Hw Hne Hd. rewrite UserTray_updateScreenTime_usage.
    destruct (Z.ltb_spec (UserTray.userIdleTime s) idleThreshold); [|lia].
    rewrite Hw, Hd. destruct w; [congruence|]. cbn [isEmptyString].
    apply lookup_insert_eq.
  - intros now s Hw. rewrite UserTray_updateScreenTime_usage, Hw.
    destruct (UserTray.userIdleTime s <? idleThreshold); reflexivity.
  - intros now s Hw. rewrite UserTray_updateScreenTime_usage, Hw. cbn [isEmptyString].
    destruct (UserTray.userIdleTime s <? idleThreshold); reflexivity.
  - intros now s w Hw Hd. rewrite UserTray_updateScreenTime_usage, Hw, Hd.
    destruct (UserTray.userIdleTime s <? idleThreshold); [| reflexivity].
    destruct (isEmptyString w); reflexivity.
Qed.

Lemma getScreenTime_runs_accumulation_witness :
  UserTray.appUsageData (fst (snd (UserTray.getScreenTime 5000 slackSession)))
    !! js "Mail" = UserTray.appUsageData slackSession !! js "Mail" /\
  UserTray.appUsageData
    (fst (snd (UserTray.getScreenTime 90000
                 (UserTray.set_userIdleTime 70000 slackSession)))) =
  UserTray.appUsageData (UserTray.set_userIdleTime 70000 slackSession) /\
  UserTray.appUsageData (fst (snd (UserTray.getScreenTime 5000 slackSession)))
    !! js "Slack" =
    Some {| UserTray.time := 0 + (5000 - 0); UserTray.type := communication;
            UserTray.lastActiveTime := 5000; UserTray.sessionStart := 1000 |} /\
  UserTray.appUsageData
    (fst (snd (UserTray.getScreenTime 5000 (UserTray.init true ∅ 0)))) =
  UserTray.appUsageData (UserTray.init true ∅ 0) /\
  UserTray.appUsageData (fst (snd (UserTray.getScreenTime 5000 blankTitleSession))) =
  UserTray.appUsageData blankTitleSession /\
  UserTray.appUsageData (fst (snd (UserTray.getScreenTime 5000 inboxSession))) =
  UserTray.appUsageData inboxSession.
Proof.
  pose proof getScreenTime_runs_accumulation
    as (_ & _ & _ & _ & _ & Hother & Hidle & Hgain & Hnone & Hblank & Hmissing).
  split; [|split; [|split; [|split; [|split]]]].
  - apply (Hother 5000 slackSession (js "Mail")).
    vm_compute. discriminate.
  - apply (Hidle 90000 (UserTray.set_userIdleTime 70000 slackSession)).
    vm_compute. discriminate.
  - apply (Hgain 5000 slackSession (js "Slack")
             {| UserTray.time := 0; UserTray.type := communication;
                UserTray.lastActiveTime := 1000; UserTray.sessionStart := 1000 |}).
    + vm_compute. reflexivity.
    + vm_compute. reflexivity.
    + vm_compute. discriminate.
    + vm_compute. reflexivity.
  - apply (Hnone 5000 (UserTray.init true ∅ 0)). reflexivity.
  - apply (Hblank 5000 blankTitleSession). vm_compute. reflexivity.
  - apply (Hmissing 5000 inboxSession (js "Inbox - Mail")).
    + vm_compute. reflexivity.
    + vm_compute. reflexivity.
Defined.

(** ** Activity events *)

Lemma Tray_handleRealWindowSwitch_fields t now s :
  let s' := fst (Tray.handleRealWindowSwitch t now s) in
  Tray.appUsageData s' = Tray.appUsageData s /\
  Tray.lastActivityTime s' = Tray.lastActivityTime s /\
  Tray.screenTimeToday s' = Tray.screenTimeToday s /\
  Tray.lastScreenTimeUpdate s' = Tray.lastScreenTimeUpdate s /\
  Tray.userIdleTime s' = Tray.userIdleTime s /\
  Tray.lastActiveWindow s' = Some t /\
  Tray.windowSwitches s' =
    (if bool_decide (Tray.lastActiveWindow s = Some t) then Tray.windowSwitches s
     else if Tray.windowSwitches s + 1 >=? switchThreshold then 0
          else Tray.windowSwitches s + 1).
Proof.
  unfold Tray.handleRealWindowSwitch, Tray.handleWindowSwitch, Tray.notifyFocusNeeded,
    Tray.notifyFocusScoreListeners.
  cmd_simpl. cases; simpl in *; repeat split; try congruence.
  all: match goal with H : bool_decide _ = true |- _ => apply bool_decide_eq_true in H end.
  all: simpl in *; congruence.
Qed.

Lemma Tray_trackAppUsage_fields t o now s :
  let s' := fst (Tray.trackAppUsage t o now s) in
  Tray.lastActivityTime s' = Tray.lastActivityTime s /\
  Tray.screenTimeToday s' = Tray.screenTimeToday s /\
  Tray.lastScreenTimeUpdate s' = Tray.lastScreenTimeUpdate s /\
  Tray.userIdleTime s' = Tray.userIdleTime s /\
  Tray.lastActiveWindow s' = Tray.lastActiveWindow s /\
  Tray.windowSwitches s' = Tray.windowSwitches s /\
  Tray.lastNotificationTime s' = Tray.lastNotificationTime s /\
  Tray.focusScore s' = Tray.focusScore s /\
  Tray.distractionCount s' = Tray.distractionCount s.
Proof.
  unfold Tray.trackAppUsage, Tray.notifyFocusModeViolation, Tray.notifyAppUsageListeners.
  cmd_simpl. cases; simpl; repeat split.
Qed.

Lemma Tray_trackAppUsage_usage t o now s :
  let core := extractAppName (if bool_decide (o <> js "Unknown") then o else t) in
  let s' := fst (Tray.trackAppUsage t o now s) in
  (exists d, Tray.appUsageData s' !! core = Some d /\ Tray.lastActiveTime d = now) /\
  (forall k, k <> core -> Tray.appUsageData s' !! k = Tray.appUsageData s !! k).
Proof.
  unfold Tray.trackAppUsage, Tray.notifyFocusModeViolation, Tray.notifyAppUsageListeners.
  cmd_simpl.
  cases; simpl in *; simplify_map_eq; split; eauto;
    intros k Hk; rewrite ?lookup_insert_ne by congruence; reflexivity.
Qed.

Lemma Tray_trackAppUsage_exempt t o now s a :
  isSystemApp (extractAppName (if bool_decide (o <> js "Unknown") then o else t)) = true ->
  Forall (fun e => ~ violationFor a e) (snd (Tray.trackAppUsage t o now s)).
Proof.
  intros Hsys. unfold Tray.trackAppUsage. split_out.
  - cmd_simpl. cases; cbn [fst snd app]; no_violation.
  - cmd_simpl. cases; cbn [fst snd app]; no_violation.
  - cbn beta. rewrite Hsys, andb_false_r. apply List.Forall_nil.
  - unfold Tray.notifyAppUsageListeners. cmd_simpl. no_violation.
Qed.

Lemma UserTray_handleRealWindowSwitch_fields t now s :
  let s' := fst (UserTray.handleRealWindowSwitch t now s) in
  UserTray.appUsageData s' = UserTray.appUsageData s /\
  UserTray.lastActivityTime s' = UserTray.lastActivityTime s /\
  UserTray.screenTimeToday s' = UserTray.screenTimeToday s /\
  UserTray.lastScreenTimeUpdate s' = UserTray.lastScreenTimeUpdate s /\
  UserTray.userIdleTime s' = UserTray.userIdleTime s /\
  UserTray.lastActiveWindow s' = Some t /\
  UserTray.windowSwitches s' =
    (if bool_decide (UserTray.lastActiveWindow s = Some t) then UserTray.windowSwitches s
     else UserTray.windowSwitches s + 1).
Proof.
  unfold UserTray.handleRealWindowSwitch, UserTray.handleWindowSwitch.
  cmd_simpl. cases; simpl in *; repeat split; try congruence.
  all: match goal with H : bool_decide _ = true |- _ => apply bool_decide_eq_true in H end.
  all: simpl in *; congruence.
Qed.

Lemma UserTray_trackAppUsage_fields t o now s :
  let s' := fst (UserTray.trackAppUsage t o now s) in
  UserTray.lastActivityTime s' = UserTray.lastActivityTime s /\
  UserTray.screenTimeToday s' = UserTray.screenTimeToday s /\
  UserTray.lastScreenTimeUpdate s' = UserTray.lastScreenTimeUpdate s /\
  UserTray.userIdleTime s' = UserTray.userIdleTime s /\
  UserTray.lastActiveWindow s' = UserTray.lastActiveWindow s /\
  UserTray.windowSwitches s' = UserTray.windowSwitches s.
Proof.
  unfold UserTray.trackAppUsage, UserTray.notifyFocusModeViolation,
    UserTray.notifyAppUsageListeners.
  cmd_simpl. cases; simpl; repeat split.
Qed.

Lemma UserTray_trackAppUsage_usage t o now s :
  let core := extractAppName (if bool_decide (o <> js "Unknown") then o else t) in
  let s' := fst (UserTray.trackAppUsage t o now s) in
  (exists d, UserTray.appUsageData s' !! core = Some d /\ UserTray.lastActiveTime d = now) /\
  (forall k, k <> core -> UserTray.appUsageData s' !! k = UserTray.appUsageData s !! k).
Proof.
  unfold UserTray.trackAppUsage, UserTray.notifyFocusModeViolation,
    UserTray.notifyAppUsageListeners.
  cmd_simpl.
  cases; simpl in *; simplify_map_eq; split; eauto;
    intros k Hk; rewrite ?lookup_insert_ne by congruence; reflexivity.
Qed.

Lemma UserTray_trackAppUsage_exempt t o now s a :
  isSystemApp (extractAppName (if bool_decide (o <> js "Unknown") then o else t)) = true ->
  Forall (fun e => ~ violationFor a e) (snd (UserTray.trackAppUsage t o now s)).
Proof.
  intros Hsys. unfold UserTray.trackAppUsage. split_out.
  - cmd_simpl. cases; cbn [fst snd app]; no_violation.
  - cbn beta. rewrite Hsys, andb_false_r. apply List.Forall_nil.
  - unfold UserTray.notifyAppUsageListeners. cmd_simpl. no_violation.
Qed.

Lemma Tray_activeWindowChanged_state t o now s :
  fst (Tray.activeWindowChanged t o now s) =
  Tray.set_lastActivityTime now
    (fst (Tray.trackAppUsage t (ownerOrUnknown o) now
            (fst (Tray.handleRealWindowSwitch t now s)))).
Proof. unfold Tray.activeWindowChanged. rewrite !andThen_fst. reflexivity. Qed.

Lemma UserTray_activeWindowChanged_state t o now s :
  fst (UserTray.activeWindowChanged t o now s) =
  UserTray.set_lastActivityTime now
    (fst (UserTray.trackAppUsage t (ownerOrUnknown o) now
            (fst (UserTray.handleRealWindowSwitch t now s)))).
Proof. unfold UserTray.activeWindowChanged. rewrite !andThen_fst. reflexivity. Qed.


(** ** ActivityClock and ScreenTimeAccumulator *)

Lemma Tray_idleCheck_state now s :
  fst (Tray.idleCheck now s) =
  Tray.set_userIdleTime
    (if now - Tray.lastActivityTime s >? idleThreshold
     then now - Tray.lastActivityTime s else 0) s.
Proof. unfold Tray.idleCheck. cmd_simpl. cases; reflexivity. Qed.

Lemma UserTray_idleCheck_state now s :
  fst (UserTray.idleCheck now s) =
  UserTray.set_userIdleTime
    (if now - UserTray.lastActivityTime s >? idleThreshold
     then now - UserTray.lastActivityTime s else 0) s.
Proof. unfold UserTray.idleCheck. cmd_simpl. cases; reflexivity. Qed.

Lemma Tray_activeWindowChanged_fields t o now s :
  let s' := fst (Tray.activeWindowChanged t o now s) in
  Tray.screenTimeToday s' = Tray.screenTimeToday s /\
  Tray.lastScreenTimeUpdate s' = Tray.lastScreenTimeUpdate s /\
  Tray.userIdleTime s' = Tray.userIdleTime s.
Proof.
  cbn zeta. rewrite Tray_activeWindowChanged_state.
  pose proof (Tray_handleRealWindowSwitch_fields t now s) as Hh. cbn zeta in Hh.
  pose proof (Tray_trackAppUsage_fields t (ownerOrUnknown o) now
                (fst (Tray.handleRealWindowSwitch t now s))) as Ht. cbn zeta in Ht.
  cbn [Tray.set_lastActivityTime Tray.screenTimeToday Tray.lastScreenTimeUpdate
       Tray.userIdleTime].
  intuition congruence.
Qed.

Lemma UserTray_activeWindowChanged_fields t o now s :
  let s' := fst (UserTray.activeWindowChanged t o now s) in
  UserTray.screenTimeToday s' = UserTray.screenTimeToday s /\
  UserTray.lastScreenTimeUpdate s' = UserTray.lastScreenTimeUpdate s /\
  UserTray.userIdleTime s' = UserTray.userIdleTime s.
Proof.
  cbn zeta. rewrite UserTray_activeWindowChanged_state.
  pose proof (UserTray_handleRealWindowSwitch_fields t now s) as Hh. cbn zeta in Hh.
  pose proof (UserTray_trackAppUsage_fields t (ownerOrUnknown o) now
                (fst (UserTray.handleRealWindowSwitch t now s))) as Ht. cbn zeta in Ht.
  cbn [UserTray.set_lastActivityTime UserTray.screenTimeToday
       UserTray.lastScreenTimeUpdate UserTray.userIdleTime].
  intuition congruence.
Qed.

Lemma UserTray_setCurrentUser_fields u now s :
  let s' := fst (UserTray.setCurrentUser u now s) in
  UserTray.lastScreenTimeUpdate s' = UserTray.lastScreenTimeUpdate s /\
  UserTray.userIdleTime s' = UserTray.userIdleTime s.
Proof.
  unfold UserTray.setCurrentUser, UserTray.resetUserData, UserTray.loadUserData,
    UserTray.notifyScreenTimeListeners, UserTray.notifyAppUsageListeners,
    UserTray.notifyFocusModeListeners.
  cmd_simpl. cases; simpl; split; reflexivity.
Qed.

(** What one event does to the accumulator, the previous-tick timestamp
    and the idle flag. *)
Lemma Tray_step_accumulator ev s :
  let s' := fst (Tray.step ev s) in
  match ev with
  | Tray.Tick now =>
      Tray.lastScreenTimeUpdate s' = now /\
      Tray.userIdleTime s' = Tray.userIdleTime s /\
      Tray.screenTimeToday s' =
        (if Tray.userIdleTime s <? idleThreshold
         then Tray.screenTimeToday s + (now - Tray.lastScreenTimeUpdate s)
         else Tray.screenTimeToday s)
  | Tray.Midnight =>
      Tray.lastScreenTimeUpdate s' = Tray.lastScreenTimeUpdate s /\
      Tray.userIdleTime s' = Tray.userIdleTime s /\
      Tray.screenTimeToday s' = 0
  | Tray.IdleCheck _ =>
      Tray.lastScreenTimeUpdate s' = Tray.lastScreenTimeUpdate s /\
      Tray.screenTimeToday s' = Tray.screenTimeToday s
  | _ =>
      Tray.lastScreenTimeUpdate s' = Tray.lastScreenTimeUpdate s /\
      Tray.userIdleTime s' = Tray.userIdleTime s /\
      Tray.screenTimeToday s' = Tray.screenTimeToday s
  end.
Proof.
  destruct ev as [t o now | now | now | now | | now | | active now | w now | dim now |]; cbn [Tray.step]; cbn zeta.
  - pose proof (Tray_activeWindowChanged_fields t o now s). cbn zeta in *. tauto.
  - rewrite Tray_idleCheck_state. split; reflexivity.
  - rewrite Tray_updateScreenTime_state.
    destruct (Tray.userIdleTime s <? idleThreshold); repeat split.
  - unfold Tray.switchTimerCallback. cmd_simpl. cases; repeat split.
  - repeat split.
  - repeat split.
  - repeat split.
  - tray_policy. cmd_simpl. cases; repeat split.
  - repeat split.
  - repeat split.
  - repeat split.
Qed.

Lemma UserTray_step_accumulator ev s :
  let s' := fst (UserTray.step ev s) in
  match ev with
  | UserTray.Tick now =>
      UserTray.lastScreenTimeUpdate s' = now /\
      UserTray.userIdleTime s' = UserTray.userIdleTime s /\
      UserTray.screenTimeToday s' =
        (if UserTray.userIdleTime s <? idleThreshold
         then UserTray.screenTimeToday s + (now - UserTray.lastScreenTimeUpdate s)
         else UserTray.screenTimeToday s)
  | UserTray.Midnight =>
      UserTray.lastScreenTimeUpdate s' = UserTray.lastScreenTimeUpdate s /\
      UserTray.userIdleTime s' = UserTray.userIdleTime s /\
      UserTray.screenTimeToday s' = 0
  | UserTray.SetCurrentUser _ _ =>
      UserTray.lastScreenTimeUpdate s' = UserTray.lastScreenTimeUpdate s /\
      UserTray.userIdleTime s' = UserTray.userIdleTime s
  | UserTray.IdleCheck _ =>
      UserTray.lastScreenTimeUpdate s' = UserTray.lastScreenTimeUpdate s /\
      UserTray.screenTimeToday s' = UserTray.screenTimeToday s
  | _ =>
      UserTray.lastScreenTimeUpdate s' = UserTray.lastScreenTimeUpdate s /\
      UserTray.userIdleTime s' = UserTray.userIdleTime s /\
      UserTray.screenTimeToday s' = UserTray.screenTimeToday s
  end.
Proof.
  destruct ev as [t o now | now | now | now | | now | | u now | active now | w now | dim now |];
    cbn [UserTray.step]; cbn zeta.
  - pose proof (UserTray_activeWindowChanged_fields t o now s). cbn zeta in *. tauto.
  - rewrite UserTray_idleCheck_state. split; reflexivity.
  - pose proof (UserTray_updateScreenTime_fields now s) as [H1 H2].
    rewrite H1 at 1 2. cbn [UserTray.set_lastScreenTimeUpdate UserTray.lastScreenTimeUpdate
                           UserTray.userIdleTime].
    repeat split. exact H2.
  - unfold UserTray.switchTimerCallback. cmd_simpl. cases; repeat split.
  - repeat split.
  - unfold UserTray.persistUserData. cmd_simpl. cases; repeat split.
  - repeat split.
  - apply UserTray_setCurrentUser_fields.
  - usertray_policy. cmd_simpl. cases; repeat split.
  - usertray_policy. cmd_simpl. cases; repeat split.
  - usertray_policy. cmd_simpl. cases; repeat split.
  - repeat split.
Qed.

Lemma Tray_run_app pre post s :
  Tray.run (pre ++ post) s = Tray.run post (Tray.run pre s).
Proof. revert s. induction pre as [|ev pre IH]; intros s; [reflexivity | apply IH]. Qed.


Lemma Tray_chronological_run pre rest s t0 :
  Tray.lastScreenTimeUpdate s <= t0 ->
  Tray.chronological t0 (pre ++ rest) ->
  exists t1, Tray.lastScreenTimeUpdate (Tray.run pre s) <= t1 /\
             Tray.chronological t1 rest.
Proof.
  revert s t0. induction pre as [|ev pre IH]; intros s t0 Hs Hc.
  - exists t0. split; assumption.
  - cbn [app Tray.chronological Tray.run] in *.
    pose proof (Tray_step_accumulator ev s) as Hstep. cbn zeta in Hstep.
    destruct ev; cbn [Tray.eventTime] in Hc;
      try destruct Hc as [Hle Hc]; eapply IH; try exact Hc; lia.
Qed.

Lemma UserTray_chronological_run pre rest s t0 :
  UserTray.lastScreenTimeUpdate s <= t0 ->
  UserTray.chronological t0 (pre ++ rest) ->
  exists t1, UserTray.lastScreenTimeUpdate (UserTray.run pre s) <= t1 /\
             UserTray.chronological t1 rest.
Proof.
  revert s t0. induction pre as [|ev pre IH]; intros s t0 Hs Hc.
  - exists t0. split; assumption.
  - cbn [app UserTray.chronological UserTray.run] in *.
    pose proof (UserTray_step_accumulator ev s) as Hstep. cbn zeta in Hstep.
    destruct ev; cbn [UserTray.eventTime] in Hc;
      try destruct Hc as [Hle Hc]; eapply IH; try exact Hc; lia.
Qed.

(** C1, counterexample.  The accumulation step adds the difference between
    the clock reading and the previous-tick timestamp as it is, without a
    lower bound.  A tick that comes with a reading before that timestamp
    (the wall clock was set back: constructed at 1000, tick at 500) lowers
    the accumulated screen time, here from 0 to -500, in both services,
    and it is not a reset. *)
Lemma screenTime_clock_set_back_counterexample :
  (Tray.screenTimeToday (Tray.init true ∅ 1000) = 0 /\
   Tray.screenTimeToday (fst (Tray.step (Tray.Tick 500) (Tray.init true ∅ 1000))) = -500 /\
   Tray.isReset (Tray.Tick 500) = false) /\
  (UserTray.screenTimeToday (UserTray.init true ∅ 1000) = 0 /\
   UserTray.screenTimeToday
     (fst (UserTray.step (UserTray.Tick 500) (UserTray.init true ∅ 1000))) = -500 /\
   UserTray.isReset (UserTray.Tick 500) = false).
Proof. vm_compute. repeat split. Qed.

(** C1, as amended.  Along every run whose events arrive in the order of
    their clock readings, starting no earlier than the previous tick, an
    event other than the daily reset (and, in the second service, the user
    switch) never lowers the accumulated screen time, and the only event
    that changes it is an accumulation tick taken while the idle flag is
    clear ([userIdleTime] below the idle threshold). *)
Theorem screenTime_monotone :
  (forall s t0 pre ev post,
      Tray.lastScreenTimeUpdate s <= t0 ->
      Tray.chronological t0 (pre ++ ev :: post) ->
      Tray.isReset ev = false ->
      let s1 := Tray.run pre s in
      let s2 := fst (Tray.step ev s1) in
      Tray.screenTimeToday s1 <= Tray.screenTimeToday s2 /\
      (Tray.screenTimeToday s1 <> Tray.screenTimeToday s2 ->
       exists now, ev = Tray.Tick now /\ Tray.userIdleTime s1 < idleThreshold)) /\
  (forall s t0 pre ev post,
      UserTray.lastScreenTimeUpdate s <= t0 ->
      UserTray.chronological t0 (pre ++ ev :: post) ->
      UserTray.isReset ev = false ->
      let s1 := UserTray.run pre s in
      let s2 := fst (UserTray.step ev s1) in
      UserTray.screenTimeToday s1 <= UserTray.screenTimeToday s2 /\
      (UserTray.screenTimeToday s1 <> UserTray.screenTimeToday s2 ->
       exists now, ev = UserTray.Tick now /\ UserTray.userIdleTime s1 < idleThreshold)).
Proof.
  split; intros s t0 pre ev post Hs Hc Hreset; cbn zeta.
  - destruct (Tray_chronological_run pre (ev :: post) s t0 Hs Hc) as (t1 & H1 & Hc1).
    pose proof (Tray_step_accumulator ev (Tray.run pre s)) as Hstep. cbn zeta in Hstep.
    destruct ev as [t o now | now | now | now | | now | | active now | w now | dim now |]; try discriminate Hreset;
      cbn [Tray.chronological Tray.eventTime] in Hc1.
    1,2,4,5,6,7,8,9,10: split; [lia | intros Hne; exfalso; apply Hne; symmetry; tauto].
    destruct Hstep as (_ & _ & ->). destruct Hc1 as [Hle _].
    destruct (Z.ltb_spec (Tray.userIdleTime (Tray.run pre s)) idleThreshold).
    + split; [lia | intros _; eauto].
    + split; [lia | intros Hne; congruence].
  - destruct (UserTray_chronological_run pre (ev :: post) s t0 Hs Hc) as (t1 & H1 & Hc1).
    pose proof (UserTray_step_accumulator ev (UserTray.run pre s)) as Hstep.
    cbn zeta in Hstep.
    destruct ev as [t o now | now | now | now | | now | | u now | active now | w now | dim now |]; try discriminate Hreset;
      cbn [UserTray.chronological UserTray.eventTime] in Hc1.
    1,2,4,5,6,7,8,9,10: split; [lia | intros Hne; exfalso; apply Hne; symmetry; tauto].
    destruct Hstep as (_ & _ & ->). destruct Hc1 as [Hle _].
    destruct (Z.ltb_spec (UserTray.userIdleTime (UserTray.run pre s)) idleThreshold).
    + split; [lia | intros _; eauto].
    + split; [lia | intros Hne; congruence].
Qed.

Lemma screenTime_monotone_witness :
  let pre := [Tray.ActiveWindowChanged (js "Slack") None 1000; Tray.IdleCheck 10000] in
  Tray.screenTimeToday (Tray.run pre (Tray.init true ∅ 0)) <=
  Tray.screenTimeToday (fst (Tray.step (Tray.Tick 60000) (Tray.run pre (Tray.init true ∅ 0)))).
Proof.
  cbn zeta.
  apply (proj1 screenTime_monotone (Tray.init true ∅ 0) 0
           [Tray.ActiveWindowChanged (js "Slack") None 1000; Tray.IdleCheck 10000]
           (Tray.Tick 60000) []).
  - vm_compute. discriminate.
  - simpl. lia.
  - reflexivity.
Defined.






(** ** WindowSwitchTracker *)

Lemma countb_app {A} (p : A -> bool) (l1 l2 : list A) :
  countb p (l1 ++ l2) = (countb p l1 + countb p l2)%nat.
Proof. induction l1 as [|x l1 IH]; cbn [app countb]; [reflexivity | lia]. Qed.

Lemma countb_map_none {A B} (p : B -> bool) (f : A -> B) (l : list A) :
  (forall x, p (f x) = false) -> countb p (List.map f l) = 0%nat.
Proof.
  intros H. induction l as [|x l IH]; [reflexivity|].
  cbn [List.map countb]. rewrite H, IH. reflexivity.
Qed.

Lemma countb_streak_listeners cb (ls : list nat) :
  countb (isStreakCall cb) (List.map (fun l => Listener l focusNeededMessage true) ls) =
  count_occ Nat.eq_dec ls cb.
Proof.
  induction ls as [|l ls IH]; [reflexivity|].
  cbn [List.map countb count_occ isStreakCall]. rewrite IH.
  rewrite (bool_decide_eq_true_2 (focusNeededMessage = focusNeededMessage)) by reflexivity.
  rewrite andb_true_r.
  destruct (Nat.eq_dec l cb) as [-> | Hne].
  - rewrite bool_decide_eq_true_2 by reflexivity. reflexivity.
  - rewrite bool_decide_eq_false_2 by exact Hne. reflexivity.
Qed.

Lemma countb_violation_listeners cb a (ls : list nat) :
  countb (isStreakCall cb) (List.map (fun l => Listener l (violationMessage a) true) ls) =
  0%nat.
Proof.
  apply countb_map_none. intros l. cbn [isStreakCall].
  rewrite (bool_decide_eq_false_2 (violationMessage a = focusNeededMessage)).
  - apply andb_false_r.
  - intros H. symmetry in H. exact (violationMessage_not_focusNeeded a H).
Qed.

(** What [handleWindowSwitch] delivers and what it leaves behind. *)
Lemma Tray_handleWindowSwitch_streak t now s :
  let fires :=
    negb (bool_decide (Tray.lastActiveWindow s = Some t)) &&
    (Tray.windowSwitches s + 1 >=? switchThreshold) &&
    (now - Tray.lastNotificationTime s >? notificationCooldown) in
  let s' := fst (Tray.handleWindowSwitch t now s) in
  let out := snd (Tray.handleWindowSwitch t now s) in
  nativeReminders out = (if fires then Nat.b2n (Tray.isDesktopApp s) else 0%nat) /\
  (forall cb, listenerReminders cb out =
              if fires then count_occ Nat.eq_dec (Tray.listeners s) cb else 0%nat) /\
  Tray.lastNotificationTime s' = (if fires then now else Tray.lastNotificationTime s) /\
  Tray.distractionCount s' =
    (if fires then Tray.distractionCount s + 1 else Tray.distractionCount s) /\
  Tray.focusScore s' =
    (if fires then Z.max 0 (100 - (Tray.distractionCount s + 1) * 5)
     else Tray.focusScore s) /\
  Tray.listeners s' = Tray.listeners s /\
  Tray.isDesktopApp s' = Tray.isDesktopApp s.
Proof.
  unfold Tray.handleWindowSwitch, Tray.notifyFocusNeeded, Tray.notifyFocusScoreListeners,
    nativeReminders, listenerReminders.
  cmd_simpl.
  destruct (bool_decide (Tray.lastActiveWindow s = Some t)); cbn [negb andb fst snd].
  { repeat split. }
  tray_fields.
  destruct (Tray.windowSwitches s + 1 >=? switchThreshold); cbn [andb fst snd].
  2: { repeat split. }
  destruct (now - Tray.lastNotificationTime s >? notificationCooldown); cbn [fst snd].
  2: { repeat split. }
  tray_fields. rewrite !app_nil_r. repeat split.
  - rewrite !countb_app, countb_map_none, (countb_map_none isStreakNative) by reflexivity.
    destruct (Tray.isDesktopApp s); reflexivity.
  - intros cb. rewrite !countb_app, countb_streak_listeners,
      (countb_map_none (isStreakCall cb)) by reflexivity.
    destruct (Tray.isDesktopApp s); cbn; lia.
Qed.

Lemma Tray_handleRealWindowSwitch_streak t now s :
  let fires :=
    negb (bool_decide (Tray.lastActiveWindow s = Some t)) &&
    (Tray.windowSwitches s + 1 >=? switchThreshold) &&
    (now - Tray.lastNotificationTime s >? notificationCooldown) in
  let s' := fst (Tray.handleRealWindowSwitch t now s) in
  let out := snd (Tray.handleRealWindowSwitch t now s) in
  nativeReminders out = (if fires then Nat.b2n (Tray.isDesktopApp s) else 0%nat) /\
  (forall cb, listenerReminders cb out =
              if fires then count_occ Nat.eq_dec (Tray.listeners s) cb else 0%nat) /\
  Tray.lastNotificationTime s' = (if fires then now else Tray.lastNotificationTime s) /\
  Tray.distractionCount s' =
    (if fires then Tray.distractionCount s + 1 else Tray.distractionCount s) /\
  Tray.focusScore s' =
    (if fires then Z.max 0 (100 - (Tray.distractionCount s + 1) * 5)
     else Tray.focusScore s) /\
  Tray.listeners s' = Tray.listeners s /\
  Tray.isDesktopApp s' = Tray.isDesktopApp s.
Proof.
  cbn zeta. unfold Tray.handleRealWindowSwitch. rewrite andThen_fst, andThen_snd.
  unfold nativeReminders, listenerReminders.
  destruct (now - Tray.lastWindowSwitchTime s >? 2000).
  - pose proof (Tray_handleWindowSwitch_streak t now
                  (Tray.set_lastWindowSwitchTime now
                     (Tray.set_recentSwitches (Tray.recentSwitches s + 1) s))) as H.
    cbn zeta in H. unfold nativeReminders, listenerReminders in H.
    cmd_simpl. tray_fields. rewrite !countb_app. cbn [countb isStreakNative].
    destruct H as (H1 & H2 & H3 & H4 & H5 & H6 & H7).
    repeat split; assumption.
  - pose proof (Tray_handleWindowSwitch_streak t now s) as H.
    cbn zeta in H. unfold nativeReminders, listenerReminders in H.
    cmd_simpl. exact H.
Qed.

Lemma focusModeAlert_not_reminder :
  bool_decide (js "Focus Mode Alert" = js "Focus Reminder") = false.
Proof. apply bool_decide_eq_false_2. vm_compute. discriminate. Qed.

Lemma Tray_notifyFocusModeViolation_no_streak a now s :
  nativeReminders (snd (Tray.notifyFocusModeViolation a now s)) = 0%nat /\
  (forall cb, listenerReminders cb (snd (Tray.notifyFocusModeViolation a now s)) = 0%nat).
Proof.
  unfold Tray.notifyFocusModeViolation, nativeReminders, listenerReminders. cmd_simpl.
  destruct (isSystemApp a); [split; reflexivity|].
  destruct (_ <? _); [split; reflexivity|].
  cbn [fst snd app]. tray_fields. split; [|intros cb]; rewrite countb_app.
  - rewrite (countb_map_none isStreakNative) by reflexivity.
    destruct (Tray.isDesktopApp s); [|reflexivity].
    cbn [countb isStreakNative title]. rewrite focusModeAlert_not_reminder. reflexivity.
  - rewrite countb_violation_listeners.
    destruct (Tray.isDesktopApp s); reflexivity.
Qed.

Lemma Tray_trackAppUsage_no_streak t o now s :
  nativeReminders (snd (Tray.trackAppUsage t o now s)) = 0%nat /\
  (forall cb, listenerReminders cb (snd (Tray.trackAppUsage t o now s)) = 0%nat).
Proof.
  unfold Tray.trackAppUsage. rewrite !andThen_snd.
  unfold nativeReminders, listenerReminders.
  assert (forall p : effect -> bool, forall s0 : Tray.State,
             (forall l m, p (AppUsageListener l m) = false) ->
             countb p (snd (Tray.notifyAppUsageListeners s0)) = 0%nat) as Hlast.
  { intros p s0 Hp. unfold Tray.notifyAppUsageListeners. cmd_simpl.
    apply countb_map_none. intros l. apply Hp. }
  split; [|intros cb]; rewrite !countb_app; forget_states.
  - rewrite Hlast by reflexivity.
    replace (countb isStreakNative (snd _)) with 0%nat
      by (cmd_simpl; cases; reflexivity).
    replace (countb isStreakNative (snd _)) with 0%nat
      by (cmd_simpl; cases; reflexivity).
    cbn beta. destruct (_ && _); [|reflexivity].
    rewrite (proj1 (Tray_notifyFocusModeViolation_no_streak _ _ _)). reflexivity.
  - rewrite Hlast by reflexivity.
    replace (countb (isStreakCall cb) (snd _)) with 0%nat
      by (cmd_simpl; cases; reflexivity).
    replace (countb (isStreakCall cb) (snd _)) with 0%nat
      by (cmd_simpl; cases; reflexivity).
    cbn beta. destruct (_ && _); [|reflexivity].
    match goal with
    | |- context [Tray.notifyFocusModeViolation ?a ?n ?s0] =>
        pose proof (proj2 (Tray_notifyFocusModeViolation_no_streak a n s0) cb) as H
    end.
    unfold listenerReminders in H. rewrite H. reflexivity.
Qed.

Ltac quiet :=
  repeat apply conj; intros;
  rewrite ?countb_app, ?countb_map_none by reflexivity;
  first [ reflexivity | discriminate | split; reflexivity ].

Lemma Tray_step_streak ev s :
  let s2 := fst (Tray.step ev s) in
  let out := snd (Tray.step ev s) in
  nativeReminders out =
    (if emitsStreak s ev then Nat.b2n (Tray.isDesktopApp s) else 0%nat) /\
  (forall cb, listenerReminders cb out =
              if emitsStreak s ev then count_occ Nat.eq_dec (Tray.listeners s) cb
              else 0%nat) /\
  Tray.lastNotificationTime s2 =
    (if emitsStreak s ev then default 0 (Tray.eventTime ev)
     else Tray.lastNotificationTime s) /\
  (emitsStreak s ev = true ->
   Tray.distractionCount s2 = Tray.distractionCount s + 1 /\
   Tray.focusScore s2 = Z.max 0 (100 - (Tray.distractionCount s + 1) * 5)) /\
  (reachesThreshold s ev = true -> Tray.windowSwitches s2 = 0) /\
  (emitsStreak s ev = false -> Tray.isReset ev = false ->
   Tray.distractionCount s2 = Tray.distractionCount s /\
   Tray.focusScore s2 = Tray.focusScore s) /\
  (Tray.isReset ev = true ->
   Tray.distractionCount s2 = 0 /\ Tray.focusScore s2 = 100).
Proof.
  destruct ev as [t o now | now | now | now | | now | | active now | w now | dim now |]; cbn zeta; cbn [Tray.step].
  - rewrite Tray_activeWindowChanged_state.
    unfold Tray.activeWindowChanged. rewrite !andThen_snd.
    unfold nativeReminders, listenerReminders. rewrite !countb_app.
    pose proof (Tray_handleRealWindowSwitch_streak t now s) as Hh. cbn zeta in Hh.
    pose proof (Tray_handleRealWindowSwitch_fields t now s) as Hf. cbn zeta in Hf.
    set (s1 := fst (Tray.handleRealWindowSwitch t now s)) in *.
    pose proof (Tray_trackAppUsage_no_streak t (ownerOrUnknown o) now s1) as [Hn Hl].
    pose proof (Tray_trackAppUsage_fields t (ownerOrUnknown o) now s1) as Ht.
    cbn zeta in Ht.
    unfold nativeReminders, listenerReminders in *.
    destruct Hh as (H1 & H2 & H3 & H4 & H5 & _).
    destruct Hf as (_ & _ & _ & _ & _ & _ & Hw).
    destruct Ht as (_ & _ & _ & _ & _ & Tw & Tn & Tf & Td).
    tray_fields. unfold emitsStreak, reachesThreshold, cooldownElapsed.
    cbn [Tray.eventTime Tray.isReset default from_option id].
    set (fires := negb _ && _ && _) in *.
    repeat apply conj.
    + rewrite H1, Hn. unfold modify. cbn [snd countb]. destruct fires; lia.
    + intros cb. rewrite !countb_app, H2, Hl. unfold modify. cbn [snd countb].
      destruct fires; lia.
    + congruence.
    + intros Hfire. rewrite Hfire in *. split; congruence.
    + intros [Hne Hge]%andb_true_iff. rewrite Tw, Hw.
      apply negb_true_iff in Hne. rewrite Hne, Hge. reflexivity.
    + intros Hfire _. rewrite Hfire in *. split; congruence.
    + discriminate.
  - rewrite Tray_idleCheck_state. unfold Tray.idleCheck. cmd_simpl.
    destruct (_ >? _); cbn; quiet.
  - rewrite Tray_updateScreenTime_state.
    unfold Tray.updateScreenTime, Tray.notifyScreenTimeListeners,
      nativeReminders, listenerReminders.
    cmd_simpl. destruct (_ <? _); cbn [fst snd app]; tray_fields;
      rewrite ?app_nil_r, ?countb_map_none by reflexivity;
      cbn; quiet.
  - unfold Tray.switchTimerCallback. cmd_simpl. cases; cbn; quiet.
  - cbn. quiet.
  - cbn. quiet.
  - unfold Tray.resetDailyStats, Tray.notifyScreenTimeListeners,
      Tray.notifyFocusScoreListeners, Tray.notifyAppUsageListeners,
      nativeReminders, listenerReminders.
    cmd_simpl. tray_fields. rewrite !countb_app, !countb_map_none by reflexivity.
    cbn. quiet.
  - tray_policy. unfold nativeReminders, listenerReminders.
    cmd_simpl. cases; cbn [fst snd app]; tray_fields; cbn; quiet.
  - cbn. quiet.
  - cbn. quiet.
  - cbn. quiet.
Qed.

Lemma Tray_step_scoreInStep ev s :
  scoreInStep s -> scoreInStep (fst (Tray.step ev s)).
Proof.
  unfold scoreInStep. intros Hs.
  pose proof (Tray_step_streak ev s) as H. cbn zeta in H.
  destruct H as (_ & _ & _ & Hfire & _ & Hquiet & Hreset).
  destruct (Tray.isReset ev) eqn:Hr.
  - destruct (Hreset eq_refl) as [-> ->]. reflexivity.
  - destruct (emitsStreak s ev) eqn:He.
    + destruct (Hfire eq_refl) as [-> ->]. lia.
    + destruct (Hquiet eq_refl eq_refl) as [-> ->]. exact Hs.
Qed.

Lemma Tray_run_scoreInStep evs s :
  scoreInStep s -> scoreInStep (Tray.run evs s).
Proof.
  revert s. induction evs as [|ev evs IH]; intros s Hs; [exact Hs|].
  apply IH, Tray_step_scoreInStep, Hs.
Qed.

Lemma streakTimes_spaced evs s :
  spaced (Tray.lastNotificationTime s) (streakTimes evs s).
Proof.
  revert s. induction evs as [|ev evs IH]; intros s; [exact I|].
  cbn [streakTimes].
  pose proof (Tray_step_streak ev s) as H. cbn zeta in H.
  destruct H as (_ & _ & Hlast & _).
  specialize (IH (fst (Tray.step ev s))). rewrite Hlast in IH.
  destruct (emitsStreak s ev) eqn:He; [|exact IH].
  unfold emitsStreak, cooldownElapsed in He.
  apply andb_true_iff in He as [_ He].
  destruct (Tray.eventTime ev) as [now|]; [|discriminate He].
  cbn [app spaced default from_option id] in *. split; [|exact IH].
  destruct (Z.gtb_spec (now - Tray.lastNotificationTime s) notificationCooldown);
    [lia | discriminate He].
Qed.

Lemma Tray_streak_signal (s : Tray.State) (evs : list Tray.event) :
  scoreInStep s ->
  (forall pre ev post,
      evs = pre ++ ev :: post ->
      let s1 := Tray.run pre s in
      let s2 := fst (Tray.step ev s1) in
      let out := snd (Tray.step ev s1) in
      (emitsStreak s1 ev = true ->
       nativeReminders out = Nat.b2n (Tray.isDesktopApp s1) /\
       (forall cb, listenerReminders cb out =
                   count_occ Nat.eq_dec (Tray.listeners s1) cb) /\
       Tray.distractionCount s2 = Tray.distractionCount s1 + 1 /\
       Tray.focusScore s2 = Z.max 0 (Tray.focusScore s1 - 5) /\
       Tray.windowSwitches s2 = 0) /\
      (emitsStreak s1 ev = false ->
       nativeReminders out = 0%nat /\
       (forall cb, listenerReminders cb out = 0%nat) /\
       (reachesThreshold s1 ev = true ->
        Tray.windowSwitches s2 = 0 /\
        Tray.distractionCount s2 = Tray.distractionCount s1 /\
        Tray.focusScore s2 = Tray.focusScore s1))) /\
  spaced (Tray.lastNotificationTime s) (streakTimes evs s).
Proof.
  intros Hs. split; [|apply streakTimes_spaced].
  intros pre ev post _. cbn zeta.
  pose proof (Tray_run_scoreInStep pre s Hs) as Hs1. unfold scoreInStep in Hs1.
  pose proof (Tray_step_streak ev (Tray.run pre s)) as H. cbn zeta in H.
  destruct H as (Hn & Hl & _ & Hfire & Hreach & Hquiet & _).
  split; intros He; rewrite He in *.
  - destruct (Hfire eq_refl) as [Hd Hf].
    repeat split; try assumption.
    + rewrite Hf. lia.
    + apply Hreach. unfold emitsStreak in He. apply andb_true_iff in He. tauto.
  - repeat split; try assumption.
    + apply Hreach. assumption.
    + apply Hquiet; [reflexivity|]. destruct ev; try discriminate; reflexivity.
    + apply Hquiet; [reflexivity|]. destruct ev; try discriminate; reflexivity.
Qed.

Lemma UserTray_notifyFocusModeViolation_no_streak a now s :
  nativeReminders (snd (UserTray.notifyFocusModeViolation a now s)) = 0%nat /\
  (forall cb, listenerReminders cb (snd (UserTray.notifyFocusModeViolation a now s)) = 0%nat).
Proof.
  unfold UserTray.notifyFocusModeViolation, nativeReminders, listenerReminders. cmd_simpl.
  destruct (isSystemApp a); [split; reflexivity|].
  destruct (isAppInWhitelist _ _); [split; reflexivity|].
  destruct (bool_decide _); [split; reflexivity|].
  destruct (_ <? _); [split; reflexivity|].
  cbn [fst snd app]. usertray_fields. split; [|intros cb]; rewrite countb_app.
  - rewrite (countb_map_none isStreakNative) by reflexivity.
    destruct (UserTray.isDesktopApp s); [|reflexivity].
    cbn [countb isStreakNative title]. rewrite focusModeAlert_not_reminder. reflexivity.
  - rewrite countb_violation_listeners.
    destruct (UserTray.isDesktopApp s); reflexivity.
Qed.

Ltac no_streak :=
  unfold nativeReminders, listenerReminders; cmd_simpl; cases; cbn [fst snd app];
  usertray_fields; split; intros;
  rewrite ?countb_app, ?countb_map_none by reflexivity; reflexivity.

Lemma UserTray_step_no_streak ev s :
  nativeReminders (snd (UserTray.step ev s)) = 0%nat /\
  (forall cb, listenerReminders cb (snd (UserTray.step ev s)) = 0%nat).
Proof.
  destruct ev as [t o now | now | now | now | | now | | u now | active now | w now | dim now |]; cbn [UserTray.step].
  - unfold UserTray.activeWindowChanged, UserTray.trackAppUsage.
    rewrite !andThen_snd. unfold nativeReminders, listenerReminders.
    assert (forall p : effect -> bool,
               countb p (snd (UserTray.handleRealWindowSwitch t now s)) =
               countb p (if now - UserTray.lastWindowSwitchTime s >? 2000
                         then [ActiveWindowChangedEvent t] else [])) as Hh.
    { intros p. unfold UserTray.handleRealWindowSwitch, UserTray.handleWindowSwitch.
      cmd_simpl. cases; reflexivity. }
    assert (forall (p : effect -> bool) (s0 : UserTray.State),
               (forall l m, p (AppUsageListener l m) = false) ->
               countb p (snd (UserTray.notifyAppUsageListeners s0)) = 0%nat) as Hlast.
    { intros p s0 Hp. unfold UserTray.notifyAppUsageListeners. cmd_simpl.
      apply countb_map_none. intros l. apply Hp. }
    split; [|intros cb]; rewrite !countb_app, Hh; forget_states.
    + rewrite Hlast by reflexivity.
      replace (countb isStreakNative (snd _)) with 0%nat
        by (cmd_simpl; cases; reflexivity).
      unfold modify. cbn [snd countb]. cbn beta.
      destruct (_ >? _); destruct (_ && _); cbn [countb isStreakNative];
        rewrite ?(proj1 (UserTray_notifyFocusModeViolation_no_streak _ _ _));
        reflexivity.
    + rewrite Hlast by reflexivity.
      replace (countb (isStreakCall cb) (snd _)) with 0%nat
        by (cmd_simpl; cases; reflexivity).
      unfold modify. cbn [snd countb]. cbn beta.
      destruct (_ >? _); destruct (_ && _); cbn [countb isStreakCall skip snd];
        try reflexivity.
      all: match goal with
           | |- context [UserTray.notifyFocusModeViolation ?a ?n ?s0] =>
               pose proof (proj2 (UserTray_notifyFocusModeViolation_no_streak a n s0) cb) as H
           end.
      all: unfold listenerReminders in H; rewrite H; reflexivity.
  - unfold UserTray.idleCheck. no_streak.
  - unfold UserTray.updateScreenTime, UserTray.updateAppUsageTime,
      UserTray.notifyScreenTimeListeners, UserTray.notifyAppUsageListeners. no_streak.
  - unfold UserTray.switchTimerCallback. no_streak.
  - unfold UserTray.resetRecentSwitches. no_streak.
  - unfold UserTray.persistUserData. no_streak.
  - unfold UserTray.resetDailyStats, UserTray.notifyScreenTimeListeners,
      UserTray.notifyAppUsageListeners. no_streak.
  - unfold UserTray.setCurrentUser. destruct (bool_decide _); [|split; reflexivity].
    rewrite !andThen_snd, UserTray_loadUserData_silent.
    unfold UserTray.resetUserData, UserTray.notifyScreenTimeListeners,
      UserTray.notifyAppUsageListeners, UserTray.notifyFocusModeListeners. no_streak.
  - usertray_policy. no_streak.
  - usertray_policy. no_streak.
  - usertray_policy. no_streak.
  - usertray_policy. no_streak.
Qed.

Lemma UserTray_trace_no_streak evs s :
  nativeReminders (UserTray.trace evs s) = 0%nat /\
  (forall cb, listenerReminders cb (UserTray.trace evs s) = 0%nat).
Proof.
  revert s. induction evs as [|ev evs IH]; intros s; [split; reflexivity|].
  cbn [UserTray.trace]. unfold nativeReminders, listenerReminders in *.
  destruct (UserTray_step_no_streak ev s) as [Hn Hl].
  destruct (IH (fst (UserTray.step ev s))) as [IHn IHl].
  unfold nativeReminders, listenerReminders in *.
  split; [|intros cb]; rewrite countb_app, ?Hn, ?Hl, ?IHn, ?IHl; reflexivity.
Qed.

(** C3, counterexample.  Three genuine window switches one second apart,
    long after any earlier signal, with listener 7 subscribed.  The first
    service delivers the signal once.  The second service, which has no
    streak detector, delivers nothing and leaves its counter at 3.
    In the first service the score is recomputed from the count: after
    twenty signals (score 0, count 20) a save and a restart bring the score
    back as 100 beside a count of 20, and the next signal takes it from 100
    to 0, not to 95.  And the timeframe of the first service runs from one
    switch to the next, not over the three: switches at 200 s, 229 s and
    258 s, 58 s from the first to the last, deliver the signal at the
    third. *)
Lemma streak_absent_in_user_service_counterexample :
  nativeReminders (Tray.trace (threeSwitches Tray.ActiveWindowChanged) listeningTray) = 1%nat /\
  listenerReminders 7 (Tray.trace (threeSwitches Tray.ActiveWindowChanged) listeningTray) = 1%nat /\
  nativeReminders
    (UserTray.trace (threeSwitches UserTray.ActiveWindowChanged) listeningUserTray) = 0%nat /\
  listenerReminders 7
    (UserTray.trace (threeSwitches UserTray.ActiveWindowChanged) listeningUserTray) = 0%nat /\
  UserTray.windowSwitches
    (UserTray.run (threeSwitches UserTray.ActiveWindowChanged) listeningUserTray) = 3 /\
  (Tray.focusScore wornOut = 0 /\ Tray.distractionCount wornOut = 20) /\
  (Tray.focusScore wornOutRestarted = 100 /\ Tray.distractionCount wornOutRestarted = 20) /\
  (Tray.focusScore (Tray.run (streakAt 4300000) wornOutRestarted) = 0 /\
   Tray.distractionCount (Tray.run (streakAt 4300000) wornOutRestarted) = 21) /\
  (streakTimes spreadSwitches listeningTray = [258000] /\
   nativeReminders (Tray.trace spreadSwitches listeningTray) = 1%nat).
Proof. vm_compute. repeat split. Qed.

Lemma Tray_handleRealWindowSwitch_switchTimer t now s :
  Tray.switchTimer (fst (Tray.handleRealWindowSwitch t now s)) =
  if bool_decide (Tray.lastActiveWindow s = Some t) then Tray.switchTimer s
  else Some (now + switchTimeframe).
Proof.
  unfold Tray.handleRealWindowSwitch, Tray.handleWindowSwitch, Tray.notifyFocusNeeded,
    Tray.notifyFocusScoreListeners.
  cmd_simpl. cases; simpl in *; congruence.
Qed.

Lemma Tray_trackAppUsage_switchTimer t o now s :
  Tray.switchTimer (fst (Tray.trackAppUsage t o now s)) = Tray.switchTimer s.
Proof.
  unfold Tray.trackAppUsage, Tray.notifyFocusModeViolation, Tray.notifyAppUsageListeners.
  cmd_simpl. cases; reflexivity.
Qed.

(** What one event does to the switch counter and its timer. *)
Lemma Tray_step_counter (ev : Tray.event) (s : Tray.State) :
  let s2 := fst (Tray.step ev s) in
  (genuineSwitch s ev = true ->
   Tray.windowSwitches s2 =
     (if Tray.windowSwitches s + 1 >=? switchThreshold then 0
      else Tray.windowSwitches s + 1) /\
   Tray.switchTimer s2 = Some (default 0 (Tray.eventTime ev) + switchTimeframe)) /\
  (timeoutDue s ev = true ->
   Tray.windowSwitches s2 = 0 /\ Tray.switchTimer s2 = None) /\
  (genuineSwitch s ev = false -> timeoutDue s ev = false ->
   Tray.windowSwitches s2 = Tray.windowSwitches s /\
   Tray.switchTimer s2 = Tray.switchTimer s).
Proof.
  destruct ev as [t o now | now | now | now | | now | | active now | w now | dim now |];
    cbn [Tray.step genuineSwitch timeoutDue Tray.eventTime default from_option id];
    cbn zeta.
  - rewrite Tray_activeWindowChanged_state.
    cbn [Tray.set_lastActivityTime Tray.windowSwitches Tray.switchTimer].
    pose proof (Tray_handleRealWindowSwitch_fields t now s) as Hh. cbn zeta in Hh.
    destruct Hh as (_ & _ & _ & _ & _ & _ & Hc).
    pose proof (Tray_trackAppUsage_fields t (ownerOrUnknown o) now
                  (fst (Tray.handleRealWindowSwitch t now s))) as Ht. cbn zeta in Ht.
    destruct Ht as (_ & _ & _ & _ & _ & Hc' & _).
    rewrite Hc', Hc, Tray_trackAppUsage_switchTimer, Tray_handleRealWindowSwitch_switchTimer.
    destruct (bool_decide (Tray.lastActiveWindow s = Some t)); cbn [negb].
    + split; [discriminate |]. split; [discriminate |]. intros _ _. split; reflexivity.
    + split; [intros _; split; reflexivity |]. split; discriminate.
  - rewrite Tray_idleCheck_state.
    split; [discriminate |]. split; [discriminate |]. intros _ _. split; reflexivity.
  - rewrite Tray_updateScreenTime_state.
    split; [discriminate |]. split; [discriminate |]. intros _ _.
    destruct (Tray.userIdleTime s <? idleThreshold); split; reflexivity.
  - split; [discriminate |]. unfold Tray.switchTimerCallback.
    destruct (Tray.switchTimer s) as [due |] eqn:E; [destruct (due <=? now) |].
    + split; [intros _; split; reflexivity | discriminate].
    + split; [discriminate | intros _ _; split; [reflexivity | exact E] ].
    + split; [discriminate | intros _ _; split; [reflexivity | exact E] ].
  - split; [discriminate |]. split; [discriminate |]. intros _ _. split; reflexivity.
  - split; [discriminate |]. split; [discriminate |]. intros _ _. split; reflexivity.
  - split; [discriminate |]. split; [discriminate |]. intros _ _. split; reflexivity.
  - split; [discriminate |]. split; [discriminate |]. intros _ _.
    tray_policy. cmd_simpl. cases; split; reflexivity.
  - split; [discriminate |]. split; [discriminate |]. intros _ _. split; reflexivity.
  - split; [discriminate |]. split; [discriminate |]. intros _ _. split; reflexivity.
  - split; [discriminate |]. split; [discriminate |]. intros _ _. split; reflexivity.
Qed.

Lemma Tray_run_snoc (pre : list Tray.event) (ev : Tray.event) (s : Tray.State) :
  Tray.run (pre ++ [ev]) s = fst (Tray.step ev (Tray.run pre s)).
Proof. rewrite Tray_run_app. reflexivity. Qed.

Lemma timely_snoc (pre : list Tray.event) (ev : Tray.event) (s : Tray.State) :
  timely (pre ++ [ev]) s <-> timely pre s /\ timerRespected (Tray.run pre s) ev.
Proof.
  revert s. induction pre as [| e pre IH]; intros s; cbn [app timely Tray.run].
  - tauto.
  - rewrite IH. tauto.
Qed.

Lemma timely_app (pre post : list Tray.event) (s : Tray.State) :
  timely (pre ++ post) s <-> timely pre s /\ timely post (Tray.run pre s).
Proof.
  revert s. induction pre as [| e pre IH]; intros s; cbn [app timely Tray.run].
  - tauto.
  - rewrite IH. tauto.
Qed.

Lemma noSwitchIn_snoc (c : list Tray.event) (ev : Tray.event) (s : Tray.State) :
  noSwitchIn (c ++ [ev]) s <-> noSwitchIn c s /\ genuineSwitch (Tray.run c s) ev = false.
Proof.
  revert s. induction c as [| e c IH]; intros s; cbn [app noSwitchIn Tray.run].
  - tauto.
  - rewrite IH. tauto.
Qed.

Lemma Tray_run_cons_app (a c : list Tray.event) (e : Tray.event) (s : Tray.State) :
  Tray.run (a ++ e :: c) s = Tray.run c (Tray.run (a ++ [e]) s).
Proof. rewrite <- Tray_run_app, <- app_assoc. reflexivity. Qed.

Lemma twoSwitchesBefore_snoc s0 pre ev n1 n2 :
  twoSwitchesBefore s0 pre n1 n2 ->
  genuineSwitch (Tray.run pre s0) ev = false ->
  twoSwitchesBefore s0 (pre ++ [ev]) n1 n2.
Proof.
  intros (a & t1 & o1 & b & t2 & o2 & c & Hpre & H1 & Hb & H2 & Hc) Hev.
  cbn zeta in *.
  exists a, t1, o1, b, t2, o2, (c ++ [ev]). cbn zeta.
  split; [| split; [exact H1 | split; [exact Hb | split; [exact H2 |] ] ] ].
  - rewrite Hpre, <- !app_assoc. cbn [app]. rewrite <- app_assoc. reflexivity.
  - apply noSwitchIn_snoc. split; [exact Hc |].
    replace (Tray.run c _) with (Tray.run pre s0); [exact Hev |].
    rewrite Hpre.
    replace (a ++ Tray.ActiveWindowChanged t1 o1 n1 :: b ++
             Tray.ActiveWindowChanged t2 o2 n2 :: c)
      with ((a ++ Tray.ActiveWindowChanged t1 o1 n1 :: b) ++
            Tray.ActiveWindowChanged t2 o2 n2 :: c)
      by (rewrite <- app_assoc; reflexivity).
    rewrite Tray_run_cons_app. rewrite <- app_assoc. reflexivity.
Qed.

Lemma counterBacked_snoc (s0 : Tray.State) (pre : list Tray.event) (ev : Tray.event) :
  counterBacked s0 pre ->
  timerRespected (Tray.run pre s0) ev ->
  counterBacked s0 (pre ++ [ev]).
Proof.
  unfold counterBacked. cbn zeta. rewrite Tray_run_snoc.
  set (s := Tray.run pre s0). intros Hb Hr.
  pose proof (Tray_step_counter ev s) as (Hg & Hd & Hn). cbn zeta in Hg, Hd, Hn.
  destruct (genuineSwitch s ev) eqn:Eg.
  - destruct (Hg eq_refl) as [Hw Ht]. clear Hg Hd Hn.
    destruct ev as [t o now | | | | | | | | | |]; try discriminate Eg.
    cbn [Tray.eventTime default from_option id] in Ht.
    unfold switchThreshold in Hw.
    destruct Hb as [H0 | [(H1 & a & t1 & o1 & n1 & c & Hpre & Hg1 & Hq & Htm) | (H2 & _)] ].
    + right. left. rewrite Hw, H0. split; [reflexivity |].
      exists pre, t, o, now, [].
      split; [reflexivity |]. split; [exact Eg |]. split; [exact I | exact Ht].
    + right. right. rewrite Hw, H1. split; [reflexivity |].
      exists n1, now. split; [| split; [| exact Ht] ].
      * exists a, t1, o1, c, t, o, []. cbn zeta.
        split; [| split; [exact Hg1 | split; [exact Hq | split; [| exact I] ] ] ].
        -- rewrite Hpre, <- app_assoc. reflexivity.
        -- rewrite <- Hpre. exact Eg.
      * cbn [timerRespected Tray.eventTime] in Hr. rewrite Htm in Hr. lia.
    + left. rewrite Hw, H2. reflexivity.
  - destruct (timeoutDue s ev) eqn:Ed.
    + left. exact (proj1 (Hd eq_refl)).
    + destruct (Hn eq_refl eq_refl) as [Hw Ht]. rewrite Hw, Ht.
      destruct Hb as [H0 | [(H1 & a & t1 & o1 & n1 & c & Hpre & Hg1 & Hq & Htm)
                           | (H2 & n1 & n2 & Htwo & Hgap & Htm)] ].
      * left. exact H0.
      * right. left. split; [exact H1 |].
        exists a, t1, o1, n1, (c ++ [ev]).
        split; [| split; [exact Hg1 | split; [| exact Htm] ] ].
        -- rewrite Hpre, <- app_assoc. reflexivity.
        -- apply noSwitchIn_snoc. split; [exact Hq |].
           replace (Tray.run c _) with s; [exact Eg |].
           subst s. rewrite Hpre. apply Tray_run_cons_app.
      * right. right. split; [exact H2 |].
        exists n1, n2. split; [| split; assumption].
        now apply twoSwitchesBefore_snoc.
Qed.

Lemma counterBacked_run (s0 : Tray.State) (pre : list Tray.event) :
  Tray.windowSwitches s0 = 0 -> timely pre s0 -> counterBacked s0 pre.
Proof.
  intros H0. induction pre as [| ev pre IH] using rev_ind; intros Ht.
  - left. exact H0.
  - apply timely_snoc in Ht as [Ht Hr]. apply counterBacked_snoc; auto.
Qed.

Lemma Tray_threshold_within_timeframe (s : Tray.State) (evs : list Tray.event) :
  Tray.windowSwitches s = 0 ->
  timely evs s ->
  forall pre t o now post,
    evs = pre ++ Tray.ActiveWindowChanged t o now :: post ->
    reachesThreshold (Tray.run pre s) (Tray.ActiveWindowChanged t o now) = true ->
    exists n1 n2,
      twoSwitchesBefore s pre n1 n2 /\
      n2 - n1 <= switchTimeframe /\ now - n2 <= switchTimeframe.
Proof.
  intros H0 Ht pre t o now post -> Hreach.
  apply timely_app in Ht as [Hpre Hrest]. cbn [timely] in Hrest. destruct Hrest as [Hr _].
  pose proof (counterBacked_run s pre H0 Hpre) as Hb. unfold counterBacked in Hb.
  cbn zeta in Hb. cbn [reachesThreshold] in Hreach.
  apply andb_true_iff in Hreach as [_ Hge]. unfold switchThreshold in Hge.
  destruct Hb as [Hw | [(Hw & _) | (Hw & n1 & n2 & Htwo & Hgap & Htm)] ];
    try (rewrite Hw in Hge; discriminate Hge).
  exists n1, n2. split; [exact Htwo |]. split; [exact Hgap |].
  cbn [timerRespected Tray.eventTime] in Hr. rewrite Htm in Hr. lia.
Qed.


Lemma UserTray_handleRealWindowSwitch_switchTimer t now s :
  UserTray.switchTimer (fst (UserTray.handleRealWindowSwitch t now s)) =
  if bool_decide (UserTray.lastActiveWindow s = Some t) then UserTray.switchTimer s
  else Some (now + switchTimeframe).
Proof.
  unfold UserTray.handleRealWindowSwitch, UserTray.handleWindowSwitch.
  cmd_simpl. cases; simpl in *; congruence.
Qed.

Lemma UserTray_trackAppUsage_switchTimer t o now s :
  UserTray.switchTimer (fst (UserTray.trackAppUsage t o now s)) = UserTray.switchTimer s.
Proof.
  unfold UserTray.trackAppUsage, UserTray.notifyFocusModeViolation,
    UserTray.notifyAppUsageListeners.
  cmd_simpl. cases; reflexivity.
Qed.

Lemma UserTray_step_counter (ev : UserTray.event) (s : UserTray.State) :
  let s2 := fst (UserTray.step ev s) in
  (UserTray_genuineSwitch s ev = true ->
   UserTray.windowSwitches s2 = UserTray.windowSwitches s + 1 /\
   UserTray.switchTimer s2 =
     Some (default 0 (UserTray.eventTime ev) + switchTimeframe)) /\
  (UserTray_timeoutDue s ev = true ->
   UserTray.windowSwitches s2 = 0 /\ UserTray.switchTimer s2 = None) /\
  (UserTray_genuineSwitch s ev = false -> UserTray_timeoutDue s ev = false ->
   UserTray.windowSwitches s2 = UserTray.windowSwitches s /\
   UserTray.switchTimer s2 = UserTray.switchTimer s).
Proof.
  destruct ev as [t o now | now | now | now | | now | | u now | active now | w now | dim now |];
    cbn [UserTray.step UserTray_genuineSwitch UserTray_timeoutDue UserTray.eventTime
         default from_option id];
    cbn zeta.
  - rewrite UserTray_activeWindowChanged_state.
    cbn [UserTray.set_lastActivityTime UserTray.windowSwitches UserTray.switchTimer].
    pose proof (UserTray_handleRealWindowSwitch_fields t now s) as Hh. cbn zeta in Hh.
    destruct Hh as (_ & _ & _ & _ & _ & _ & Hc).
    pose proof (UserTray_trackAppUsage_fields t (ownerOrUnknown o) now
                  (fst (UserTray.handleRealWindowSwitch t now s))) as Ht. cbn zeta in Ht.
    destruct Ht as (_ & _ & _ & _ & _ & Hc').
    rewrite Hc', Hc, UserTray_trackAppUsage_switchTimer,
      UserTray_handleRealWindowSwitch_switchTimer.
    destruct (bool_decide (UserTray.lastActiveWindow s = Some t)); cbn [negb].
    + split; [discriminate |]. split; [discriminate |]. intros _ _. split; reflexivity.
    + split; [intros _; split; reflexivity |]. split; discriminate.
  - rewrite UserTray_idleCheck_state.
    split; [discriminate |]. split; [discriminate |]. intros _ _. split; reflexivity.
  - split; [discriminate |]. split; [discriminate |]. intros _ _.
    rewrite (proj1 (UserTray_updateScreenTime_fields now s)). split; reflexivity.
  - split; [discriminate |]. unfold UserTray.switchTimerCallback.
    destruct (UserTray.switchTimer s) as [due |] eqn:E; [destruct (due <=? now) |].
    + split; [intros _; split; reflexivity | discriminate].
    + split; [discriminate | intros _ _; split; [reflexivity | exact E] ].
    + split; [discriminate | intros _ _; split; [reflexivity | exact E] ].
  - split; [discriminate |]. split; [discriminate |]. intros _ _. split; reflexivity.
  - split; [discriminate |]. split; [discriminate |]. intros _ _.
    unfold UserTray.persistUserData. cmd_simpl. cases; split; reflexivity.
  - split; [discriminate |]. split; [discriminate |]. intros _ _. split; reflexivity.
  - split; [discriminate |]. split; [discriminate |]. intros _ _.
    unfold UserTray.setCurrentUser, UserTray.resetUserData, UserTray.loadUserData,
      UserTray.notifyScreenTimeListeners, UserTray.notifyAppUsageListeners,
      UserTray.notifyFocusModeListeners.
    cmd_simpl. cases; split; reflexivity.
  - split; [discriminate |]. split; [discriminate |]. intros _ _.
    usertray_policy. cmd_simpl. cases; split; reflexivity.
  - split; [discriminate |]. split; [discriminate |]. intros _ _.
    usertray_policy. cmd_simpl. cases; split; reflexivity.
  - split; [discriminate |]. split; [discriminate |]. intros _ _.
    usertray_policy. cmd_simpl. cases; split; reflexivity.
  - split; [discriminate |]. split; [discriminate |]. intros _ _. split; reflexivity.
Qed.

(** C3, as amended.  In the first service, along every run from a state
    whose focus score goes with its distraction count (as in a fresh
    service): an event delivers the distraction-streak signal exactly once
    (one native reminder when running on the desktop, one call to each
    notification listener) when it is a window switch that brings the
    switch counter to the threshold 3 and more than the 180 s cooldown has
    passed since the last signal, and does not deliver it otherwise, in
    particular not when the threshold is reached within the cooldown; an
    emission adds one to the distraction count, lowers the focus score by
    5 but not below 0, and resets the switch counter, which is reset as
    well when the threshold is reached within the cooldown; successive
    emissions are more than the cooldown apart.
    The 30 s timeframe: a genuine window switch adds one to the counter
    (or resets it at the threshold) and sets the switch timer to 30 s
    after its clock reading; the timer's callback, run at or after that
    time, zeroes the counter and clears the timer; no other event changes
    the counter or the timer.  So when the counter starts at 0 and the host
    runs the timer on time (before it handles any other event with a clock
    reading after the time the timer was set for), a switch brings the
    counter to the threshold only as the third of three genuine switches
    in a row, each no more than 30 s after the one before.
    The second service has no streak detector: no run of it delivers the
    signal.  It only keeps the counter: a genuine window switch adds one to
    it and sets the switch timer to 30 s after its clock reading, the
    timer's callback zeroes it, and no other event changes it. *)
Theorem streak_signal_once_per_threshold :
  (forall (s : Tray.State) (evs : list Tray.event),
      scoreInStep s ->
      (forall pre ev post,
          evs = pre ++ ev :: post ->
          let s1 := Tray.run pre s in
          let s2 := fst (Tray.step ev s1) in
          let out := snd (Tray.step ev s1) in
          (emitsStreak s1 ev = true ->
           nativeReminders out = Nat.b2n (Tray.isDesktopApp s1) /\
           (forall cb, listenerReminders cb out =
                       count_occ Nat.eq_dec (Tray.listeners s1) cb) /\
           Tray.distractionCount s2 = Tray.distractionCount s1 + 1 /\
           Tray.focusScore s2 = Z.max 0 (Tray.focusScore s1 - 5) /\
           Tray.windowSwitches s2 = 0) /\
          (emitsStreak s1 ev = false ->
           nativeReminders out = 0%nat /\
           (forall cb, listenerReminders cb out = 0%nat) /\
           (reachesThreshold s1 ev = true ->
            Tray.windowSwitches s2 = 0 /\
            Tray.distractionCount s2 = Tray.distractionCount s1 /\
            Tray.focusScore s2 = Tray.focusScore s1))) /\
      spaced (Tray.lastNotificationTime s) (streakTimes evs s)) /\
  (forall (s : Tray.State) (ev : Tray.event),
      let s2 := fst (Tray.step ev s) in
      (genuineSwitch s ev = true ->
       Tray.windowSwitches s2 =
         (if Tray.windowSwitches s + 1 >=? switchThreshold then 0
          else Tray.windowSwitches s + 1) /\
       Tray.switchTimer s2 = Some (default 0 (Tray.eventTime ev) + switchTimeframe)) /\
      (timeoutDue s ev = true ->
       Tray.windowSwitches s2 = 0 /\ Tray.switchTimer s2 = None) /\
      (genuineSwitch s ev = false -> timeoutDue s ev = false ->
       Tray.windowSwitches s2 = Tray.windowSwitches s /\
       Tray.switchTimer s2 = Tray.switchTimer s)) /\
  (forall (s : Tray.State) (evs : list Tray.event),
      Tray.windowSwitches s = 0 ->
      timely evs s ->
      forall pre t o now post,
        evs = pre ++ Tray.ActiveWindowChanged t o now :: post ->
        reachesThreshold (Tray.run pre s) (Tray.ActiveWindowChanged t o now) = true ->
        exists n1 n2,
          twoSwitchesBefore s pre n1 n2 /\
          n2 - n1 <= switchTimeframe /\ now - n2 <= switchTimeframe) /\
  (forall (s : UserTray.State) (evs : list UserTray.event),
      nativeReminders (UserTray.trace evs s) = 0%nat /\
      (forall cb, listenerReminders cb (UserTray.trace evs s) = 0%nat)) /\
  (forall (s : UserTray.State) (ev : UserTray.event),
      let s2 := fst (UserTray.step ev s) in
      (UserTray_genuineSwitch s ev = true ->
       UserTray.windowSwitches s2 = UserTray.windowSwitches s + 1 /\
       UserTray.switchTimer s2 =
         Some (default 0 (UserTray.eventTime ev) + switchTimeframe)) /\
      (UserTray_timeoutDue s ev = true ->
       UserTray.windowSwitches s2 = 0 /\ UserTray.switchTimer s2 = None) /\
      (UserTray_genuineSwitch s ev = false -> UserTray_timeoutDue s ev = false ->
       UserTray.windowSwitches s2 = UserTray.windowSwitches s /\
       UserTray.switchTimer s2 = UserTray.switchTimer s)) /\
  (forall (s : UserTray.State) t o now,
      UserTray.lastActiveWindow s <> Some t ->
      UserTray.windowSwitches (fst (UserTray.activeWindowChanged t o now s)) =
      UserTray.windowSwitches s + 1).
Proof.
  split; [exact Tray_streak_signal|].
  split; [exact (fun s ev => Tray_step_counter ev s)|].
  split; [exact Tray_threshold_within_timeframe|].
  split; [intros s evs; apply UserTray_trace_no_streak|].
  split; [exact (fun s ev => UserTray_step_counter ev s)|].
  intros s t o now Hne. rewrite UserTray_activeWindowChanged_state. usertray_fields.
  pose proof (UserTray_handleRealWindowSwitch_fields t now s) as Hh. cbn zeta in Hh.
  pose proof (UserTray_trackAppUsage_fields t (ownerOrUnknown o) now
                (fst (UserTray.handleRealWindowSwitch t now s))) as Ht. cbn zeta in Ht.
  destruct Hh as (_ & _ & _ & _ & _ & _ & Hc). destruct Ht as (_ & _ & _ & _ & _ & Tc).
  rewrite Tc, Hc, bool_decide_eq_false_2 by exact Hne. reflexivity.
Qed.

Lemma streak_signal_once_per_threshold_witness :
  scoreInStep listeningTray /\
  spaced (Tray.lastNotificationTime listeningTray)
    (streakTimes (threeSwitches Tray.ActiveWindowChanged) listeningTray) /\
  streakTimes (threeSwitches Tray.ActiveWindowChanged) listeningTray = [202000] /\
  Tray.switchTimer
    (fst (Tray.step (Tray.SwitchTimeout 232000)
            (Tray.run (threeSwitches Tray.ActiveWindowChanged) listeningTray))) = None /\
  (Tray.windowSwitches listeningTray = 0 /\ timely spreadSwitches listeningTray /\
   exists n1 n2,
     twoSwitchesBefore listeningTray
       [Tray.ActiveWindowChanged (js "Mail") None 200000;
        Tray.ActiveWindowChanged (js "Chat") None 229000] n1 n2 /\
     n2 - n1 <= switchTimeframe /\ 258000 - n2 <= switchTimeframe) /\
  UserTray.windowSwitches
    (fst (UserTray.activeWindowChanged (js "Mail") None 200000 listeningUserTray)) =
  UserTray.windowSwitches listeningUserTray + 1.
Proof.
  pose proof streak_signal_once_per_threshold as (Hrun & Hstep & Hframe & _ & _ & Huser).
  assert (scoreInStep listeningTray) as Hs by reflexivity.
  assert (Tray.windowSwitches listeningTray = 0) as H0 by reflexivity.
  assert (timely spreadSwitches listeningTray) as Ht
    by (vm_compute; repeat split; discriminate).
  split; [exact Hs|]. split; [|split; [|split; [|split] ] ].
  - exact (proj2 (Hrun listeningTray _ Hs)).
  - vm_compute. reflexivity.
  - apply (proj1 (proj2 (Hstep (Tray.run (threeSwitches Tray.ActiveWindowChanged)
                                  listeningTray)
                           (Tray.SwitchTimeout 232000)))).
    vm_compute. reflexivity.
  - split; [exact H0 |]. split; [exact Ht |].
    apply (Hframe listeningTray spreadSwitches H0 Ht _ (js "News") None 258000 []).
    + reflexivity.
    + vm_compute. reflexivity.
  - apply (Huser listeningUserTray). vm_compute. discriminate.
Defined.

(** ** Activity events with an empty identity *)

(** C8, counterexample.  An event with an empty title and no owner has the
    empty derived identity, yet on a fresh service it creates a usage
    record under the empty identity, credits it with the time since the
    last activity and advances the switch counter; the next such event
    adds time to that record again.  After two genuine switches such an
    event is the third: it brings the counter to the threshold, which
    resets it, and the distraction-streak reminder is delivered. *)
Lemma empty_identity_not_skipped_counterexample :
  let s0 := Tray.init true ∅ 0 in
  let s1 := fst (Tray.activeWindowChanged [] None 1000 s0) in
  let s2 := fst (Tray.activeWindowChanged [] None 2000 s1) in
  let twice := Tray.run [Tray.ActiveWindowChanged (js "Mail") None 200000;
                         Tray.ActiveWindowChanged (js "Chat") None 201000]
                        listeningTray in
  let third := Tray.activeWindowChanged [] None 202000 twice in
  derivedIdentity [] None = [] /\
  Tray.appUsageData s0 !! [] = None /\
  Tray.appUsageData s1 !! [] =
    Some {| Tray.time := 1000; Tray.type := productive; Tray.lastActiveTime := 1000 |} /\
  Tray.appUsageData s2 !! [] =
    Some {| Tray.time := 2000; Tray.type := productive; Tray.lastActiveTime := 2000 |} /\
  Tray.windowSwitches s0 = 0 /\
  Tray.windowSwitches s1 = 1 /\
  Tray.windowSwitches twice = 2 /\
  Tray.windowSwitches (fst third) = 0 /\
  nativeReminders (snd third) = 1%nat /\
  listenerReminders 7 (snd third) = 1%nat /\
  Tray.distractionCount (fst third) = 1 /\
  Tray.focusScore (fst third) = 95.
Proof. vm_compute. repeat split. Qed.

(** C8, as amended.  For an activity event whose derived identity is empty
    the last-activity clock is set to the event time, no focus-mode
    violation is delivered, and no usage record under a non-empty identity
    is created or changed.  The event is not skipped otherwise: a usage
    record under the empty identity exists afterwards with the event time
    as its last-active stamp, and switch detection runs on the raw title
    as for any other title.  The last active window becomes the raw title;
    when the raw title is that of the last active window the switch counter
    is unchanged; when it differs the counter advances by one, except that
    in the first service a counter brought to the streak threshold is reset
    to 0, and the distraction-streak reminder is delivered exactly when the
    event brings the counter to the threshold and the cooldown has
    passed. *)
Theorem empty_identity_event (t : jsstring) (o : option jsstring) (now : Z) :
  derivedIdentity t o = [] ->
  (forall s,
      let s' := fst (Tray.activeWindowChanged t o now s) in
      let out := snd (Tray.activeWindowChanged t o now s) in
      Tray.lastActivityTime s' = now /\
      (forall a, Forall (fun e => ~ violationFor a e) out) /\
      (forall k, k <> [] -> Tray.appUsageData s' !! k = Tray.appUsageData s !! k) /\
      (exists d, Tray.appUsageData s' !! [] = Some d /\ Tray.lastActiveTime d = now) /\
      Tray.lastActiveWindow s' = Some t /\
      (Tray.lastActiveWindow s = Some t ->
       Tray.windowSwitches s' = Tray.windowSwitches s) /\
      (Tray.lastActiveWindow s <> Some t ->
       Tray.windowSwitches s' =
         if Tray.windowSwitches s + 1 >=? switchThreshold then 0
         else Tray.windowSwitches s + 1) /\
      nativeReminders out =
        (if emitsStreak s (Tray.ActiveWindowChanged t o now)
         then Nat.b2n (Tray.isDesktopApp s) else 0%nat) /\
      (forall cb, listenerReminders cb out =
                  if emitsStreak s (Tray.ActiveWindowChanged t o now)
                  then count_occ Nat.eq_dec (Tray.listeners s) cb else 0%nat)) /\
  (forall s,
      let s' := fst (UserTray.activeWindowChanged t o now s) in
      UserTray.lastActivityTime s' = now /\
      (forall a, Forall (fun e => ~ violationFor a e)
                        (snd (UserTray.activeWindowChanged t o now s))) /\
      (forall k, k <> [] -> UserTray.appUsageData s' !! k = UserTray.appUsageData s !! k) /\
      (exists d, UserTray.appUsageData s' !! [] = Some d /\ UserTray.lastActiveTime d = now) /\
      UserTray.lastActiveWindow s' = Some t /\
      (UserTray.lastActiveWindow s = Some t ->
       UserTray.windowSwitches s' = UserTray.windowSwitches s) /\
      (UserTray.lastActiveWindow s <> Some t ->
       UserTray.windowSwitches s' = UserTray.windowSwitches s + 1)).
Proof.
  unfold derivedIdentity. cbn zeta. intros Hid. split; intros s.
  - cbn zeta. rewrite Tray_activeWindowChanged_state.
    pose proof (Tray_handleRealWindowSwitch_fields t now s) as Hh. cbn zeta in Hh.
    destruct Hh as (Hu & _ & _ & _ & _ & Hw & Hc).
    pose proof (Tray_step_streak (Tray.ActiveWindowChanged t o now) s) as Hs.
    cbn zeta in Hs. cbn [Tray.step] in Hs. destruct Hs as (Hn & Hl & _).
    set (s1 := fst (Tray.handleRealWindowSwitch t now s)) in *.
    pose proof (Tray_trackAppUsage_fields t (ownerOrUnknown o) now s1) as Ht.
    cbn zeta in Ht. destruct Ht as (_ & _ & _ & _ & Hw' & Hc' & _).
    pose proof (Tray_trackAppUsage_usage t (ownerOrUnknown o) now s1) as Hd.
    cbn zeta in Hd. rewrite Hid in Hd. destruct Hd as [Hex Hother].
    cbn [Tray.set_lastActivityTime Tray.lastActivityTime Tray.appUsageData
         Tray.lastActiveWindow Tray.windowSwitches].
    split; [reflexivity |]. split; [| split; [| split; [| split; [| split; [| split;
      [| split; [exact Hn | exact Hl] ] ] ] ] ] ].
    + intros a. unfold Tray.activeWindowChanged. split_out.
      * apply Tray_handleRealWindowSwitch_no_violation.
      * apply Tray_trackAppUsage_exempt. rewrite Hid. reflexivity.
      * apply List.Forall_nil.
    + intros k Hk. rewrite (Hother k Hk), Hu. reflexivity.
    + exact Hex.
    + congruence.
    + intros He. rewrite Hc', Hc.
      rewrite bool_decide_eq_true_2 by exact He. reflexivity.
    + intros Hne. rewrite Hc', Hc.
      rewrite bool_decide_eq_false_2 by exact Hne. reflexivity.
  - cbn zeta. rewrite UserTray_activeWindowChanged_state.
    pose proof (UserTray_handleRealWindowSwitch_fields t now s) as Hh. cbn zeta in Hh.
    destruct Hh as (Hu & _ & _ & _ & _ & Hw & Hc).
    set (s1 := fst (UserTray.handleRealWindowSwitch t now s)) in *.
    pose proof (UserTray_trackAppUsage_fields t (ownerOrUnknown o) now s1) as Ht.
    cbn zeta in Ht. destruct Ht as (_ & _ & _ & _ & Hw' & Hc').
    pose proof (UserTray_trackAppUsage_usage t (ownerOrUnknown o) now s1) as Hd.
    cbn zeta in Hd. rewrite Hid in Hd. destruct Hd as [Hex Hother].
    cbn [UserTray.set_lastActivityTime UserTray.lastActivityTime UserTray.appUsageData
         UserTray.lastActiveWindow UserTray.windowSwitches].
    split; [reflexivity |]. split; [| split; [| split; [| split; [| split] ] ] ].
    + intros a. unfold UserTray.activeWindowChanged. split_out.
      * apply UserTray_handleRealWindowSwitch_no_violation.
      * apply UserTray_trackAppUsage_exempt. rewrite Hid. reflexivity.
      * apply List.Forall_nil.
    + intros k Hk. rewrite (Hother k Hk), Hu. reflexivity.
    + exact Hex.
    + congruence.
    + intros He. rewrite Hc', Hc.
      rewrite bool_decide_eq_true_2 by exact He. reflexivity.
    + intros Hne. rewrite Hc', Hc.
      rewrite bool_decide_eq_false_2 by exact Hne. reflexivity.
Qed.

Lemma empty_identity_event_witness :
  let twice := Tray.run [Tray.ActiveWindowChanged (js "Mail") None 200000;
                         Tray.ActiveWindowChanged (js "Chat") None 201000]
                        listeningTray in
  derivedIdentity (js "  ") None = [] /\
  Tray.lastActivityTime
    (fst (Tray.activeWindowChanged (js "  ") None 1000 (Tray.init true ∅ 0))) = 1000 /\
  Tray.windowSwitches (fst (Tray.activeWindowChanged (js "  ") None 202000 twice)) =
    (if Tray.windowSwitches twice + 1 >=? switchThreshold then 0
     else Tray.windowSwitches twice + 1) /\
  UserTray.windowSwitches
    (fst (UserTray.activeWindowChanged (js "  ") None 1000 (UserTray.init true ∅ 0))) =
  UserTray.windowSwitches (UserTray.init true ∅ 0) + 1.
Proof.
  cbn zeta.
  assert (Hid : derivedIdentity (js "  ") None = []) by (vm_compute; reflexivity).
  split; [exact Hid |]. split; [| split].
  - apply (proj1 (empty_identity_event (js "  ") None 1000 Hid) (Tray.init true ∅ 0)).
  - destruct (proj1 (empty_identity_event (js "  ") None 202000 Hid)
                (Tray.run [Tray.ActiveWindowChanged (js "Mail") None 200000;
                           Tray.ActiveWindowChanged (js "Chat") None 201000]
                          listeningTray))
      as (_ & _ & _ & _ & _ & _ & Hc & _).
    apply Hc. vm_compute. discriminate.
  - destruct (proj2 (empty_identity_event (js "  ") None 1000 Hid)
                (UserTray.init true ∅ 0))
      as (_ & _ & _ & _ & _ & _ & Hc).
    apply Hc. vm_compute. discriminate.
Defined.

(** ** PersistenceGateway *)

Lemma uniq_In (x : jsstring) (l seen : list jsstring) :
  In x (uniq seen l) <-> In x l /\ ~ In x seen.
Proof.
  revert seen. induction l as [|y l IH]; intros seen; cbn [uniq].
  - cbn. tauto.
  - destruct (existsb (fun z => bool_decide (y = z)) seen) eqn:He.
    + apply existsb_exists in He as [z [Hz Hyz]].
      apply bool_decide_eq_true in Hyz. subst z.
      rewrite IH. cbn [In]. split; [tauto|].
      intros [[-> | Hin] Hns]; [contradiction | tauto].
    + assert (~ In y seen) as Hy.
      { intros Hin. apply not_true_iff_false in He. apply He.
        apply existsb_exists. exists y. split; [exact Hin|].
        apply bool_decide_eq_true. reflexivity. }
      cbn [In]. rewrite IH. cbn [In]. split.
      * intros [-> | [Hin Hns]]; [tauto|]. split; [tauto|]. tauto.
      * intros [[-> | Hin] Hns]; [tauto|].
        destruct (decide (y = x)) as [-> | Hne]; [tauto|].
        right. split; [exact Hin|]. intros [? | ?]; [congruence | tauto].
Qed.

Lemma mergeWhitelist_In (x : jsstring) (w : list jsstring) :
  In x (mergeWhitelist w) <-> In x w \/ In x DEFAULT_WHITELIST_APPS.
Proof.
  unfold mergeWhitelist. rewrite uniq_In, in_app_iff. cbn [In]. tauto.
Qed.





Lemma UserTray_resetUserData_state s :
  fst (UserTray.resetUserData s) =
  UserTray.set_dimInsteadOfBlock true
    (UserTray.set_isFocusMode false
       (UserTray.set_focusModeWhitelist DEFAULT_WHITELIST_APPS
          (UserTray.set_notificationThrottleMap ∅
             (UserTray.set_processedNotifications ∅
                (UserTray.set_appUsageData ∅
                   (UserTray.set_screenTimeToday 0 s)))))).
Proof. reflexivity. Qed.

Lemma UserTray_setCurrentUser_switch userId now r :
  UserTray.currentUserId r <> Some userId ->
  fst (UserTray.setCurrentUser userId now r) =
  fst (UserTray.loadUserData userId now
         (fst (UserTray.resetUserData (UserTray.set_currentUserId (Some userId) r)))).
Proof.
  intros Hne. unfold UserTray.setCurrentUser.
  rewrite bool_decide_eq_true_2 by exact Hne.
  rewrite !andThen_fst. reflexivity.
Qed.



Lemma UserTray_loadUserData_fresh userId now s saved t0 :
  UserTray.localStorage s !! UserTray.userDataKey userId = Some (UserTray.dataToSave t0 saved) ->
  now - t0 < maxAge ->
  fst (UserTray.loadUserData userId now s) =
  UserTray.set_appUsageData
    (foldl (UserTray.restoreApp now) (UserTray.appUsageData s)
       (List.map UserTray.toSaved (map_to_list (UserTray.appUsageData saved))))
    (UserTray.set_dimInsteadOfBlock (UserTray.dimInsteadOfBlock saved)
       (UserTray.set_isFocusMode (UserTray.isFocusMode saved)
          (UserTray.set_focusModeWhitelist
             (mergeWhitelist (UserTray.focusModeWhitelist saved))
             (UserTray.set_screenTimeToday (UserTray.screenTimeToday saved) s)))).
Proof.
  intros H Hage. unfold UserTray.loadUserData. rewrite H.
  cbn [UserTray.dataToSave UserTray.Saved.timestamp UserTray.Saved.screenTimeToday
       UserTray.Saved.focusModeWhitelist UserTray.Saved.isFocusMode
       UserTray.Saved.dimInsteadOfBlock UserTray.Saved.appUsageData
       default from_option id].
  destruct (Z.ltb_spec (now - t0) maxAge); [|lia].
  cmd_simpl. reflexivity.
Qed.





(** * Further properties of the code *)

(** ** AppClassifier *)

Lemma existsb_includes_spec (name : jsstring) (keywords : list jsstring) :
  existsb (includes (toLowerCase name)) keywords = true <-> hasKeyword name keywords.
Proof.
  unfold hasKeyword. rewrite existsb_exists. split.
  - intros [k [Hin H]]. exists k. split; [exact Hin | apply includes_spec; exact H].
  - intros [k [Hin H]]. exists k. split; [exact Hin | apply includes_spec; exact H].
Qed.

(** X1.  The classifier takes the first table that matches.  A name with a
    productive keyword is productive whatever else it contains; it is
    communication exactly when it has a communication keyword and no
    productive one; distraction exactly when it has a distraction keyword
    and none of the other two; and a name without any keyword is
    productive. *)
Theorem determineAppType_first_match (name : jsstring) :
  (hasKeyword name productiveKeywords -> determineAppType name = productive) /\
  (determineAppType name = communication <->
   ~ hasKeyword name productiveKeywords /\ hasKeyword name communicationKeywords) /\
  (determineAppType name = distraction <->
   ~ hasKeyword name productiveKeywords /\ ~ hasKeyword name communicationKeywords /\
   hasKeyword name distractionKeywords) /\
  (~ hasKeyword name productiveKeywords -> ~ hasKeyword name communicationKeywords ->
   ~ hasKeyword name distractionKeywords -> determineAppType name = productive).
Proof.
  unfold determineAppType. cbn zeta.
  rewrite <- !existsb_includes_spec.
  destruct (existsb _ productiveKeywords);
    destruct (existsb _ communicationKeywords);
    destruct (existsb _ distractionKeywords);
    repeat apply conj; intuition (first [reflexivity | discriminate | congruence]).
Qed.

Lemma determineAppType_first_match_witness :
  determineAppType (js "YouTube Studio") = productive.
Proof.
  apply (proj1 (determineAppType_first_match (js "YouTube Studio"))).
  exists (js "studio"). split.
  - vm_compute. tauto.
  - exists (js "youtube "), []. vm_compute. reflexivity.
Defined.

(** ** WhitelistMatcher *)

Lemma uniq_NoDup (l seen : list jsstring) : NoDup (uniq seen l).
Proof.
  revert seen. induction l as [|x l IH]; intros seen; cbn [uniq].
  - constructor.
  - destruct (existsb _ seen); [apply IH|].
    constructor; [|apply IH].
    rewrite list_elem_of_In, uniq_In. cbn [In]. tauto.
Qed.

Lemma uniq_absorb (l1 l2 seen : list jsstring) :
  NoDup l1 ->
  (forall x, In x l1 -> ~ In x seen) ->
  (forall x, In x l2 -> In x seen \/ In x l1) ->
  uniq seen (l1 ++ l2) = l1.
Proof.
  revert seen. induction l1 as [|x l1 IH]; intros seen Hnd Hdis Hsub.
  - cbn [app]. induction l2 as [|y l2 IH2]; [reflexivity|]. cbn [uniq].
    assert (In y seen) as Hy
      by (destruct (Hsub y (or_introl eq_refl)) as [H | H]; [exact H | destruct H]).
    replace (existsb (fun z => bool_decide (y = z)) seen) with true.
    + apply IH2. intros z Hz. apply Hsub. right. exact Hz.
    + symmetry. apply existsb_exists. exists y. split; [exact Hy|].
      apply bool_decide_eq_true. reflexivity.
  - cbn [app uniq]. apply NoDup_cons in Hnd as [Hx Hnd].
    rewrite list_elem_of_In in Hx.
    replace (existsb (fun z => bool_decide (x = z)) seen) with false.
    + f_equal. apply IH; [exact Hnd | |].
      * intros z Hz [<- | Hs]; [contradiction|]. apply (Hdis z); [right; exact Hz | exact Hs].
      * intros z Hz. destruct (Hsub z Hz) as [Hs | [<- | Hl]].
        -- left. right. exact Hs.
        -- left. left. reflexivity.
        -- right. exact Hl.
    + symmetry. apply not_true_iff_false. intros He.
      apply existsb_exists in He as [z [Hz Hxz]]. apply bool_decide_eq_true in Hxz.
      subst z. apply (Hdis x); [left; reflexivity | exact Hz].
Qed.

Lemma existsb_fuzzy_merge (a : jsstring) (w : list jsstring) :
  isSystemApp a = false ->
  existsb (fuzzyMatch a) (mergeWhitelist w) = existsb (fuzzyMatch a) w.
Proof.
  intros Hsys. apply eq_true_iff_eq. rewrite !existsb_exists. split.
  - intros [e [Hin H]]. apply mergeWhitelist_In in Hin as [Hin | Hin]; [eauto|].
    exfalso. apply not_true_iff_false in Hsys. apply Hsys.
    unfold isSystemApp. apply existsb_exists. eauto.
  - intros [e [Hin H]]. exists e. split; [|exact H].
    apply mergeWhitelist_In. left. exact Hin.
Qed.

(** X2.  Merging a whitelist with the default-exempt list (as
    [setFocusModeWhitelist] and the loaders do) gives a list without
    repeats whose members are those of the whitelist and of the default
    list; merging again changes nothing; and the whitelist test answers the
    same on the merged list as on the original one, for every identity. *)
Theorem mergeWhitelist_properties (w : list jsstring) :
  NoDup (mergeWhitelist w) /\
  (forall x, In x (mergeWhitelist w) <-> In x w \/ In x DEFAULT_WHITELIST_APPS) /\
  mergeWhitelist (mergeWhitelist w) = mergeWhitelist w /\
  (forall a, isAppInWhitelist a (mergeWhitelist w) = isAppInWhitelist a w).
Proof.
  repeat apply conj.
  - apply uniq_NoDup.
  - intros x. apply mergeWhitelist_In.
  - unfold mergeWhitelist at 1. apply uniq_absorb.
    + apply uniq_NoDup.
    + intros x _ H. exact H.
    + intros x Hx. right. apply mergeWhitelist_In. right. exact Hx.
  - intros a. unfold isAppInWhitelist.
    destruct (isEmptyString a); [reflexivity|].
    destruct (isSystemApp a) eqn:Hsys; [reflexivity|].
    apply existsb_fuzzy_merge. exact Hsys.
Qed.

Lemma fuzzyMatch_empty_entry (a : jsstring) : fuzzyMatch a [] = true.
Proof. unfold fuzzyMatch. cbn [toLowerCase List.map]. rewrite includes_empty. reflexivity. Qed.

(** X3.  The whitelist test only grows with the whitelist: an identity
    allowed by a whitelist stays allowed when entries are added before or
    after.  An empty entry in the whitelist allows every non-empty
    identity.  For two identities that are not default-exempt, the first is
    allowed by the whitelist holding just the second exactly when the
    second is allowed by the whitelist holding just the first. *)
Theorem isAppInWhitelist_grows :
  (forall a w w',
      isAppInWhitelist a w = true ->
      isAppInWhitelist a (w ++ w') = true /\ isAppInWhitelist a (w' ++ w) = true) /\
  (forall a w, a <> [] -> In [] w -> isAppInWhitelist a w = true) /\
  (forall a b,
      a <> [] -> b <> [] -> isSystemApp a = false -> isSystemApp b = false ->
      isAppInWhitelist a [b] = isAppInWhitelist b [a]).
Proof.
  repeat apply conj.
  - intros a w w'. unfold isAppInWhitelist.
    destruct (isEmptyString a); [discriminate|].
    destruct (isSystemApp a); [split; reflexivity|].
    rewrite !existsb_app. intros ->. split; [reflexivity | apply orb_true_r].
  - intros a w Ha Hin. unfold isAppInWhitelist.
    destruct a; [congruence|]. cbn [isEmptyString].
    destruct (isSystemApp _); [reflexivity|].
    apply existsb_exists. exists []. split; [exact Hin | apply fuzzyMatch_empty_entry].
  - intros a b Ha Hb Hsa Hsb. unfold isAppInWhitelist. rewrite Hsa, Hsb.
    destruct a; [congruence|]. destruct b; [congruence|].
    cbn [isEmptyString existsb]. unfold fuzzyMatch. rewrite !orb_false_r. apply orb_comm.
Qed.

Lemma isAppInWhitelist_grows_witness :
  isAppInWhitelist (js "Slack") ([js "slack"] ++ [js "mail"]) = true /\
  isAppInWhitelist (js "Netflix") [js "mail"; []] = true /\
  isAppInWhitelist (js "Gmail") [js "mail"] = isAppInWhitelist (js "mail") [js "Gmail"].
Proof.
  split; [|split].
  - apply (proj1 isAppInWhitelist_grows (js "Slack") [js "slack"] [js "mail"]).
    vm_compute. reflexivity.
  - apply (proj1 (proj2 isAppInWhitelist_grows) (js "Netflix") [js "mail"; []]).
    + vm_compute. discriminate.
    + vm_compute. tauto.
  - apply (proj2 (proj2 isAppInWhitelist_grows) (js "Gmail") (js "mail")).
    + vm_compute. discriminate.
    + vm_compute. discriminate.
    + vm_compute. reflexivity.
    + vm_compute. reflexivity.
Defined.

(** ** NameNormalizer: shape of the identity *)

Lemma trimStart_split (s : jsstring) :
  exists sp, s = sp ++ trimStart s /\ blank sp.
Proof.
  unfold blank. induction s as [|c s IH].
  - exists []. split; reflexivity.
  - cbn [trimStart]. destruct (isSpace c) eqn:Hc.
    + destruct IH as [sp [Hs Hsp]]. exists (c :: sp). split.
      * cbn [app]. rewrite <- Hs. reflexivity.
      * cbn [forallb]. rewrite Hc, Hsp. reflexivity.
    + exists []. split; reflexivity.
Qed.

Lemma trimStart_idem (s : jsstring) : trimStart (trimStart s) = trimStart s.
Proof.
  induction s as [|c s IH]; [reflexivity|]. cbn [trimStart].
  destruct (isSpace c) eqn:Hc; [exact IH|]. cbn [trimStart]. rewrite Hc. reflexivity.
Qed.

Lemma trimStart_nil_iff (s : jsstring) : trimStart s = [] <-> blank s.
Proof.
  unfold blank. induction s as [|c s IH]; [cbn; tauto|].
  cbn [trimStart forallb]. destruct (isSpace c); cbn [andb]; [exact IH|].
  split; discriminate.
Qed.

Lemma blank_app (s t : jsstring) : blank (s ++ t) <-> blank s /\ blank t.
Proof. unfold blank. rewrite forallb_app, andb_true_iff. reflexivity. Qed.

Lemma blank_rev (s : jsstring) : blank (rev s) <-> blank s.
Proof.
  unfold blank. rewrite !forallb_forall. split; intros H x Hx; apply H.
  - apply in_rev in Hx. exact Hx.
  - apply in_rev. exact Hx.
Qed.

Lemma trimEnd_split (s : jsstring) :
  exists sp, s = trimEnd s ++ sp /\ blank sp.
Proof.
  unfold trimEnd. destruct (trimStart_split (rev s)) as [sp [Hs Hsp]].
  exists (rev sp). split.
  - rewrite <- rev_app_distr, <- Hs, rev_involutive. reflexivity.
  - apply blank_rev. exact Hsp.
Qed.

Lemma trim_split (s : jsstring) :
  exists a b, s = a ++ trim s ++ b /\ blank a /\ blank b.
Proof.
  unfold trim. destruct (trimStart_split s) as [a [Ha Hba]].
  destruct (trimEnd_split (trimStart s)) as [b [Hb Hbb]].
  exists a, b. split; [|split; assumption].
  rewrite <- Hb. exact Ha.
Qed.

Lemma trim_nil_iff (s : jsstring) : trim s = [] <-> blank s.
Proof.
  split.
  - intros H. destruct (trim_split s) as (a & b & Hs & Ha & Hb).
    rewrite H in Hs. rewrite Hs. apply blank_app. split; [exact Ha | exact Hb].
  - intros H. unfold trim. apply trimStart_nil_iff in H. rewrite H. reflexivity.
Qed.

Lemma trimStart_trimEnd (s : jsstring) :
  trimStart s = s -> trimStart (trimEnd s) = trimEnd s.
Proof.
  intros Hs. destruct (trimEnd_split s) as [sp [Hsplit Hsp]].
  destruct (trimEnd s) as [|c r] eqn:He; [reflexivity|].
  cbn [trimStart]. destruct (isSpace c) eqn:Hc; [|reflexivity].
  exfalso. rewrite Hsplit in Hs. cbn [app trimStart] in Hs. rewrite Hc in Hs.
  destruct (trimStart_split (r ++ sp)) as [sp' [Hr _]].
  rewrite Hs in Hr. apply (f_equal (@length N)) in Hr.
  repeat (rewrite length_app in Hr || cbn [length] in Hr). lia.
Qed.

Lemma trimEnd_idem (s : jsstring) : trimEnd (trimEnd s) = trimEnd s.
Proof. unfold trimEnd. rewrite rev_involutive, trimStart_idem. reflexivity. Qed.

Lemma trim_idem (s : jsstring) : trim (trim s) = trim s.
Proof.
  unfold trim at 1. unfold trim.
  rewrite (trimStart_trimEnd (trimStart s)) by apply trimStart_idem.
  apply trimEnd_idem.
Qed.

Lemma matchFrom_prefix (r acc g : jsstring) :
  matchFrom acc r = Some g -> exists rest, rev acc ++ r = g ++ rest.
Proof.
  revert acc. induction r as [|c r IH]; intros acc H; rewrite matchFrom_unfold in H.
  - exists []. destruct (sepAt []); injection H as <-; reflexivity.
  - destruct (sepAt (c :: r)).
    + injection H as <-. exists (c :: r). reflexivity.
    + destruct (isLineTerminator c); [discriminate|].
      apply IH in H as [rest H]. exists rest. rewrite <- H. cbn [rev].
      rewrite <- app_assoc. reflexivity.
Qed.

Lemma contains_trim (s : jsstring) : contains s (trim s).
Proof. destruct (trim_split s) as (a & b & Hs & _). exists a, b. exact Hs. Qed.

Lemma contains_prefix_trim (t g rest : jsstring) :
  t = g ++ rest -> contains t (trim g).
Proof.
  intros ->. destruct (trim_split g) as (a & b & Hg & _).
  exists a, (b ++ rest). rewrite Hg at 1. rewrite <- !app_assoc. reflexivity.
Qed.

(** X4.  Whatever the window title, the identity [extractAppName] gives
    has no white space at either end, is a contiguous part of the title,
    and is empty exactly when the title is empty or all white space. *)
Theorem extractAppName_shape (windowTitle : jsstring) :
  trim (extractAppName windowTitle) = extractAppName windowTitle /\
  contains windowTitle (extractAppName windowTitle) /\
  (extractAppName windowTitle = [] <-> blank windowTitle).
Proof.
  unfold extractAppName.
  destruct windowTitle as [|c t]; cbn [isEmptyString].
  { repeat split; exists [], []; reflexivity. }
  set (title := c :: t).
  destruct (matchAppName title) as [g|] eqn:Hm.
  - apply matchFrom_prefix in Hm as [rest Hm]. cbn [rev app] in Hm.
    destruct (trim g) as [|x y] eqn:Hg; cbn [isEmptyString].
    + split; [apply trim_idem|]. split; [apply contains_trim | apply trim_nil_iff].
    + split; [rewrite <- Hg; apply trim_idem|]. split.
      * rewrite <- Hg. eapply contains_prefix_trim. exact Hm.
      * split; [discriminate|]. intros Hb. exfalso.
        assert (blank g) as Hbg by (rewrite Hm in Hb; apply blank_app in Hb; tauto).
        apply trim_nil_iff in Hbg. congruence.
  - split; [apply trim_idem|]. split; [apply contains_trim | apply trim_nil_iff].
Qed.

(** ** formatScreenTime *)


Lemma js_inj (s t : string) : js s = js t -> s = t.
Proof.
  unfold js. intros H.
  rewrite <- (string_of_list_ascii_of_string s),
          <- (string_of_list_ascii_of_string t).
  f_equal.
  revert H. generalize (list_ascii_of_string s) (list_ascii_of_string t).
  intros l. induction l as [| a l IH]; intros [| b m] H;
    try discriminate; [reflexivity |].
  cbn [List.map] in H. injection H as Hab Hlm.
  f_equal; [| now apply IH].
  rewrite <- (ascii_N_embedding a), <- (ascii_N_embedding b). now f_equal.
Qed.

Lemma js_app (s t : string) : js (s +:+ t) = js s ++ js t.
Proof.
  unfold js. induction s as [| a s IH]; [reflexivity |].
  change (String a s +:+ t) with (String a (s +:+ t)).
  cbn [list_ascii_of_string List.map app]. now rewrite IH.
Qed.

Lemma pretty_N_char_noH (x : N) : N_of_ascii (pretty_N_char x) <> 104%N.
Proof.
  unfold pretty_N_char.
  repeat (match goal with |- context [match ?p with _ => _ end] =>
            destruct p end); vm_compute; discriminate.
Qed.

Lemma pretty_N_go_noH (x : N) :
  forall s, noH (js s) -> noH (js (pretty_N_go x s)).
Proof.
  induction (N.lt_wf_0 x) as [x _ IH]. intros s Hs.
  destruct (N.eq_dec x 0%N) as [-> | Hx].
  - now rewrite pretty_N_go_0.
  - rewrite pretty_N_go_step by lia.
    apply IH; [apply N.div_lt; lia |].
    apply List.Forall_cons; [apply pretty_N_char_noH | exact Hs].
Qed.

Lemma pretty_N_noH (x : N) : noH (js (pretty x)).
Proof.
  unfold pretty, pretty_N. destruct (decide (x = 0%N)).
  - repeat constructor; vm_compute; discriminate.
  - apply pretty_N_go_noH. constructor.
Qed.

Lemma numberToString_noH (z : Z) : noH (numberToString z).
Proof.
  unfold numberToString, pretty, pretty_Z. destruct z as [| p | p].
  - repeat constructor; vm_compute; discriminate.
  - apply pretty_N_noH.
  - rewrite js_app. apply Forall_app_2.
    + repeat constructor; vm_compute; discriminate.
    + apply pretty_N_noH.
Qed.

Lemma numberToString_inj (a b : Z) :
  numberToString a = numberToString b -> a = b.
Proof.
  unfold numberToString. intros H. apply js_inj in H.
  now apply (inj pretty) in H.
Qed.

Lemma split_at_h (x x' r r' : jsstring) :
  noH x -> noH x' ->
  x ++ 104%N :: r = x' ++ 104%N :: r' -> x = x' /\ r = r'.
Proof.
  intros Hx. revert x'.
  induction Hx as [| c x Hc Hx IH]; intros x' Hx' H.
  - destruct Hx' as [| c' x' Hc' Hx']; cbn in H.
    + injection H as ->. now split.
    + injection H as Hh _. now subst c'.
  - destruct Hx' as [| c' x' Hc' Hx']; cbn in H.
    + injection H as Hh _. now subst c.
    + injection H as -> H. destruct (IH x' Hx' H) as [-> ->]. now split.
Qed.

Lemma hours_minutes_inj (t t' : Z) :
  t / 60 = t' / 60 -> Z.rem t 60 = Z.rem t' 60 -> t = t'.
Proof. intros H1 H2. Z.to_euclidean_division_equations. lia. Qed.

Lemma formatScreenTime_eq_iff (a b : Z) :
  formatScreenTime a = formatScreenTime b <-> a / 60000 = b / 60000.
Proof.
  split.
  - unfold formatScreenTime. cbv zeta.
    generalize (a / 60000) (b / 60000). intros t t' H.
    change (js "h ") with (104%N :: js " ") in H.
    cbn [app] in H.
    apply split_at_h in H; try apply numberToString_noH.
    destruct H as [Hh Hm].
    apply numberToString_inj in Hh.
    apply app_inv_head in Hm. apply app_inv_tail in Hm.
    apply numberToString_inj in Hm.
    now apply hours_minutes_inj.
  - unfold formatScreenTime. cbv zeta. now intros ->.
Qed.

Lemma formatScreenTime_zero_iff (milliseconds : Z) :
  formatScreenTime milliseconds = js "0h 0m" <-> 0 <= milliseconds < 60000.
Proof.
  change (js "0h 0m") with (formatScreenTime 0).
  rewrite formatScreenTime_eq_iff. change (0 / 60000) with 0. split.
  - intros H. Z.to_euclidean_division_equations. lia.
  - intros H. now apply Z.div_small.
Qed.

(** X5. [formatScreenTime] shows the whole minutes of a duration and
    nothing else: two durations print alike exactly when they hold the
    same number of whole minutes, whatever their sign; so the text
    ["0h 0m"], which the dashboard takes for "nothing recorded yet", is
    printed exactly for the durations under one minute. *)
Theorem formatScreenTime_whole_minutes :
  (forall a b : Z,
     formatScreenTime a = formatScreenTime b <-> a / 60000 = b / 60000) /\
  (forall milliseconds : Z,
     formatScreenTime milliseconds = js "0h 0m" <->
     0 <= milliseconds < 60000).
Proof. split; [exact formatScreenTime_eq_iff | exact formatScreenTime_zero_iff]. Qed.

(** The accumulated time [getScreenTime] answers with at [now]. *)
Lemma Tray_getScreenTime_value (now : Z) (s : Tray.State) :
  fst (Tray.getScreenTime now s) =
  if Tray.userIdleTime s <? idleThreshold
  then Tray.screenTimeToday s + (now - Tray.lastScreenTimeUpdate s)
  else Tray.screenTimeToday s.
Proof.
  unfold Tray.getScreenTime. cbn [fst]. rewrite Tray_updateScreenTime_state.
  destruct (Tray.userIdleTime s <? idleThreshold); reflexivity.
Qed.

Lemma UserTray_getScreenTime_value (now : Z) (s : UserTray.State) :
  fst (UserTray.getScreenTime now s) =
  if UserTray.userIdleTime s <? idleThreshold
  then UserTray.screenTimeToday s + (now - UserTray.lastScreenTimeUpdate s)
  else UserTray.screenTimeToday s.
Proof.
  unfold UserTray.getScreenTime. cbn [fst].
  exact (proj2 (UserTray_updateScreenTime_fields now s)).
Qed.

(** X6. [getFormattedScreenTime] answers ["0h 0m"], which the dashboard
    takes for "nothing recorded yet", exactly when the screen time after
    the accumulation step that the getter runs is under one minute and not
    negative: the time since the previous tick counts, unless the idle flag
    is set.  So a service of the second class that was just constructed
    answers ["0h 0m"] during its first minute and never after. *)
Theorem getFormattedScreenTime_blank :
  (forall (now : Z) (s : Tray.State),
     fst (Tray.getFormattedScreenTime now s) = js "0h 0m" <->
     0 <= (if Tray.userIdleTime s <? idleThreshold
           then Tray.screenTimeToday s + (now - Tray.lastScreenTimeUpdate s)
           else Tray.screenTimeToday s) < 60000) /\
  (forall (now : Z) (s : UserTray.State),
     fst (UserTray.getFormattedScreenTime now s) = js "0h 0m" <->
     0 <= (if UserTray.userIdleTime s <? idleThreshold
           then UserTray.screenTimeToday s + (now - UserTray.lastScreenTimeUpdate s)
           else UserTray.screenTimeToday s) < 60000) /\
  (forall (desktop : bool) (storage : gmap jsstring UserTray.SavedData) (t now : Z),
     fst (UserTray.getFormattedScreenTime now (UserTray.init desktop storage t)) =
       js "0h 0m" <->
     0 <= now - t < 60000).
Proof.
  split; [| split].
  - intros now s. unfold Tray.getFormattedScreenTime. cbn [fst].
    rewrite formatScreenTime_zero_iff, Tray_getScreenTime_value. reflexivity.
  - intros now s. unfold UserTray.getFormattedScreenTime. cbn [fst].
    rewrite formatScreenTime_zero_iff, UserTray_getScreenTime_value. reflexivity.
  - intros desktop storage t now. unfold UserTray.getFormattedScreenTime. cbn [fst].
    rewrite formatScreenTime_zero_iff, UserTray_getScreenTime_value.
    cbn [UserTray.init UserTray.userIdleTime UserTray.screenTimeToday
         UserTray.lastScreenTimeUpdate].
    change (0 <? idleThreshold) with true. cbv iota. lia.
Qed.

(** ** Subscriptions *)

Lemma count_occ_removeFirst (callback other : nat) (l : list nat) :
  count_occ Nat.eq_dec (removeFirst callback l) other =
  if Nat.eqb other callback then Nat.pred (count_occ Nat.eq_dec l other)
  else count_occ Nat.eq_dec l other.
Proof.
  induction l as [| x l IH]; cbn [removeFirst count_occ].
  - now destruct (Nat.eqb other callback).
  - destruct (Nat.eqb_spec x callback) as [-> | Hx].
    + destruct (Nat.eqb_spec other callback) as [-> | Ho];
        destruct (Nat.eq_dec callback _) as [E | E]; try congruence; reflexivity.
    + cbn [count_occ]. rewrite IH.
      destruct (Nat.eqb_spec other callback) as [-> | Ho];
        destruct (Nat.eq_dec x _) as [E | E]; try congruence; try reflexivity.
Qed.

Lemma count_occ_snoc (callback other : nat) (l : list nat) :
  count_occ Nat.eq_dec (l ++ [callback]) other =
  if Nat.eqb other callback then S (count_occ Nat.eq_dec l other)
  else count_occ Nat.eq_dec l other.
Proof.
  rewrite count_occ_app. cbn [count_occ].
  destruct (Nat.eqb_spec other callback) as [-> | Ho];
    destruct (Nat.eq_dec callback _) as [E | E]; try congruence; lia.
Qed.

Lemma removeFirst_absent (callback : nat) (l : list nat) :
  count_occ Nat.eq_dec l callback = 0%nat -> removeFirst callback l = l.
Proof.
  induction l as [| x l IH]; cbn [removeFirst count_occ]; [reflexivity |].
  destruct (Nat.eq_dec x callback) as [-> | Hx]; [discriminate |].
  intros H. destruct (Nat.eqb_spec x callback); [contradiction |].
  now rewrite IH.
Qed.

Lemma removeFirst_snoc (callback : nat) (l : list nat) :
  count_occ Nat.eq_dec l callback = 0%nat -> removeFirst callback (l ++ [callback]) = l.
Proof.
  induction l as [| x l IH]; cbn [removeFirst count_occ app].
  - now rewrite Nat.eqb_refl.
  - destruct (Nat.eq_dec x callback) as [-> | Hx]; [discriminate |].
    intros H. destruct (Nat.eqb_spec x callback); [contradiction |].
    now rewrite IH.
Qed.

Ltac subscription :=
  intros callback s; cbn zeta;
  unfold subscribed; cbn [subscribe unsubscribe registered];
  repeat apply conj;
  [ reflexivity
  | intros other; rewrite ?andThen_fst; cmd_simpl; tray_fields; usertray_fields;
    apply count_occ_snoc
  | intros other; cmd_simpl; tray_fields; usertray_fields;
    apply count_occ_removeFirst
  | intros H; rewrite ?andThen_fst; cmd_simpl; tray_fields; usertray_fields;
    rewrite (removeFirst_absent _ _ H), (removeFirst_snoc _ _ H);
    destruct s; split; reflexivity ].

(** X7. In both services and for every kind of listener, unsubscribing
    takes away one registration of the callback (the earliest) without
    calling anyone, and leaves the service untouched when the callback is
    not registered; a callback that was not registered is back to the very
    same service state after subscribing and unsubscribing. *)
Theorem unsubscribe_undoes_subscribe :
  Forall unsubscribeUndoes Tray_subscriptions /\
  Forall unsubscribeUndoes UserTray_subscriptions.
Proof.
  split; repeat apply List.Forall_cons; try apply List.Forall_nil;
    unfold unsubscribeUndoes.
  all: unfold Tray.addNotificationListener, Tray.removeNotificationListener,
    Tray.addScreenTimeListener, Tray.removeScreenTimeListener,
    Tray.addFocusScoreListener, Tray.removeFocusScoreListener,
    Tray.addAppUsageListener, Tray.removeAppUsageListener,
    Tray.addFocusModeListener, Tray.removeFocusModeListener,
    UserTray.addNotificationListener, UserTray.removeNotificationListener,
    UserTray.addScreenTimeListener, UserTray.removeScreenTimeListener,
    UserTray.addAppUsageListener, UserTray.removeAppUsageListener,
    UserTray.addFocusModeListener, UserTray.removeFocusModeListener.
  all: subscription.
Qed.

(** ** Counters of the first service *)

Lemma Tray_step_windowSwitches ev s :
  0 <= Tray.windowSwitches s < switchThreshold ->
  0 <= Tray.windowSwitches (fst (Tray.step ev s)) < switchThreshold.
Proof.
  intros Hs.
  destruct ev as [t o now | now | now | now | | now | | active now | w now | dim now |];
    cbn [Tray.step]; try exact Hs.
  - rewrite Tray_activeWindowChanged_state.
    pose proof (Tray_handleRealWindowSwitch_fields t now s) as Hh. cbn zeta in Hh.
    pose proof (Tray_trackAppUsage_fields t (ownerOrUnknown o) now
                  (fst (Tray.handleRealWindowSwitch t now s))) as Ht. cbn zeta in Ht.
    destruct Hh as (_ & _ & _ & _ & _ & _ & Hh).
    destruct Ht as (_ & _ & _ & _ & _ & Ht & _).
    cbn [Tray.set_lastActivityTime Tray.windowSwitches].
    rewrite Ht, Hh. unfold switchThreshold in *.
    destruct (bool_decide _); [exact Hs |].
    destruct (Tray.windowSwitches s + 1 >=? 3) eqn:E; lia.
  - rewrite Tray_idleCheck_state. exact Hs.
  - rewrite Tray_updateScreenTime_state.
    destruct (Tray.userIdleTime s <? idleThreshold); exact Hs.
  - unfold Tray.switchTimerCallback. cmd_simpl. unfold switchThreshold in *.
    cases; cbn [fst]; tray_fields; lia.
  - tray_policy. cmd_simpl. cases; exact Hs.
Qed.

Lemma Tray_step_distractionCount ev s :
  let s' := fst (Tray.step ev s) in
  (0 <= Tray.distractionCount s -> 0 <= Tray.distractionCount s') /\
  (Tray.isReset ev = false -> Tray.distractionCount s <= Tray.distractionCount s').
Proof.
  cbn zeta.
  pose proof (Tray_step_streak ev s) as H. cbn zeta in H.
  destruct H as (_ & _ & _ & Hfire & _ & Hquiet & Hreset).
  destruct (Tray.isReset ev) eqn:Hr.
  - destruct (Hreset eq_refl) as [-> _]. split; [lia | discriminate].
  - destruct (emitsStreak s ev) eqn:He.
    + destruct (Hfire eq_refl) as [-> _]. lia.
    + destruct (Hquiet eq_refl eq_refl) as [-> _]. lia.
Qed.

Lemma Tray_step_countersInRange ev s :
  countersInRange s -> countersInRange (fst (Tray.step ev s)).
Proof.
  intros (Hw & Hd & Hs). repeat apply conj.
  - now apply Tray_step_windowSwitches.
  - now apply Tray_step_windowSwitches.
  - now apply Tray_step_distractionCount.
  - now apply Tray_step_scoreInStep.
Qed.

(** X8. The counters of the first service stay in range over any run of
    events: the switch counter never rests at the threshold, the
    distraction count is never negative, and the focus score stays the
    score of the count, between 0 and 100.  Between two midnight resets the
    distraction count never falls and the focus score never rises. *)
Theorem focusScore_never_recovers (evs : list Tray.event) (s : Tray.State) :
  countersInRange s ->
  let s' := Tray.run evs s in
  countersInRange s' /\
  0 <= Tray.focusScore s' <= 100 /\
  (noReset evs ->
   Tray.distractionCount s <= Tray.distractionCount s' /\
   Tray.focusScore s' <= Tray.focusScore s).
Proof.
  cbn zeta. revert s. induction evs as [| ev evs IH]; intros s Hs.
  - cbn [Tray.run]. split; [exact Hs |].
    destruct Hs as (_ & Hd & Hsc). unfold scoreInStep in Hsc. split; [lia |].
    intros _. lia.
  - cbn [Tray.run].
    pose proof (Tray_step_countersInRange ev s Hs) as Hs1.
    destruct (IH _ Hs1) as (Hin & Hrange & Hmono).
    split; [exact Hin |]. split; [exact Hrange |].
    unfold noReset. cbn [forallb]. intros [Hev Hrest]%andb_true_iff.
    apply negb_true_iff in Hev.
    destruct (Hmono Hrest) as [Hd Hf].
    pose proof (proj2 (Tray_step_distractionCount ev s) Hev) as Hstep.
    cbn zeta in Hstep. split; [lia |].
    destruct Hs as (_ & _ & Hsc). destruct Hs1 as (_ & _ & Hsc1).
    unfold scoreInStep in *. lia.
Qed.

Lemma focusScore_never_recovers_witness :
  let evs := threeSwitches Tray.ActiveWindowChanged in
  let s := Tray.init true ∅ 0 in
  countersInRange s /\ noReset evs /\
  Tray.distractionCount s <= Tray.distractionCount (Tray.run evs s) /\
  Tray.focusScore (Tray.run evs s) <= Tray.focusScore s /\
  Tray.focusScore (Tray.run evs s) = 95.
Proof.
  cbn zeta.
  assert (H0 : countersInRange (Tray.init true ∅ 0)).
  { unfold countersInRange, scoreInStep. vm_compute.
    repeat apply conj; (reflexivity || discriminate). }
  assert (H1 : noReset (threeSwitches Tray.ActiveWindowChanged)) by reflexivity.
  split; [exact H0 |]. split; [exact H1 |].
  destruct (focusScore_never_recovers (threeSwitches Tray.ActiveWindowChanged)
              (Tray.init true ∅ 0) H0) as (_ & _ & Hmono).
  destruct (Hmono H1) as [Hd Hf].
  split; [exact Hd |]. split; [exact Hf |]. vm_compute. reflexivity.
Defined.

(** ** The focus-mode guard *)

Lemma Tray_handleRealWindowSwitch_policy t now s :
  let s' := fst (Tray.handleRealWindowSwitch t now s) in
  Tray.isFocusMode s' = Tray.isFocusMode s /\
  Tray.focusModeWhitelist s' = Tray.focusModeWhitelist s /\
  Tray.notificationThrottleMap s' = Tray.notificationThrottleMap s /\
  Tray.isDesktopApp s' = Tray.isDesktopApp s /\
  Tray.listeners s' = Tray.listeners s /\
  Tray.localStorage s' = Tray.localStorage s.
Proof.
  unfold Tray.handleRealWindowSwitch, Tray.handleWindowSwitch, Tray.notifyFocusNeeded,
    Tray.notifyFocusScoreListeners.
  cmd_simpl. cases; simpl; repeat split.
Qed.

(** The guard at the end of [trackAppUsage], on the identity [core]. *)
Lemma Tray_trackAppUsage_guard t o now s :
  let core := extractAppName (if bool_decide (o <> js "Unknown") then o else t) in
  let guard : Cmd Tray.State := fun s =>
    if Tray.isFocusMode s && negb (isSystemApp core) &&
       negb (isAppInWhitelist core (Tray.focusModeWhitelist s))
    then Tray.notifyFocusModeViolation core now s else skip s in
  exists s3,
    (Tray.isFocusMode s3 = Tray.isFocusMode s /\
     Tray.focusModeWhitelist s3 = Tray.focusModeWhitelist s /\
     Tray.notificationThrottleMap s3 = Tray.notificationThrottleMap s /\
     Tray.isDesktopApp s3 = Tray.isDesktopApp s /\
     Tray.listeners s3 = Tray.listeners s /\
     Tray.localStorage s3 = Tray.localStorage s) /\
    fst (Tray.trackAppUsage t o now s) = fst (guard s3) /\
    snd (Tray.trackAppUsage t o now s) =
      snd (guard s3) ++ snd (Tray.notifyAppUsageListeners (fst (guard s3))).
Proof.
  cbn zeta. unfold Tray.trackAppUsage. cbv zeta.
  match goal with
  | |- context [(?c1 ;- ?c2 ;- ?c3 ;- ?c4) s] =>
      set (p1 := c1); set (p2 := c2); set (p3 := c3)
  end.
  rewrite !andThen_fst, !andThen_snd.
  assert (Hout : snd (p1 s) = [] /\ snd (p2 (fst (p1 s))) = [] /\
                 let s3 := fst (p2 (fst (p1 s))) in
                 Tray.isFocusMode s3 = Tray.isFocusMode s /\
                 Tray.focusModeWhitelist s3 = Tray.focusModeWhitelist s /\
                 Tray.notificationThrottleMap s3 = Tray.notificationThrottleMap s /\
                 Tray.isDesktopApp s3 = Tray.isDesktopApp s /\
                 Tray.listeners s3 = Tray.listeners s /\
                 Tray.localStorage s3 = Tray.localStorage s).
  { subst p1 p2. cmd_simpl. cases; simpl; repeat split. }
  destruct Hout as (-> & -> & Hf).
  exists (fst (p2 (fst (p1 s)))). split; [exact Hf |]. split; reflexivity.
Qed.

Lemma violation_delivery (a core : jsstring) (desktop : bool) (ls : list nat)
    (id : option jsstring) :
  Exists (violationFor a)
    ((if desktop
      then [ShowNativeNotification
              {| title := js "Focus Mode Alert"; body := violationMessage core;
                 notificationId := id |}]
      else []) ++
     List.map (fun l => Listener l (violationMessage core) true) ls) <->
  a = core /\ hasReceiver desktop ls.
Proof.
  unfold hasReceiver. rewrite Exists_app. split.
  - intros [H | H].
    + destruct desktop; [| inversion H].
      apply Exists_cons in H as [H | H]; [| inversion H].
      cbn [violationFor body] in H. apply violationMessage_inj in H. auto.
    + destruct ls as [| l ls]; [inversion H |].
      split; [| right; discriminate].
      apply List.Exists_exists in H as (e & Hin & He).
      apply in_map_iff in Hin as (l' & <- & _).
      cbn [violationFor] in He. apply violationMessage_inj in He. auto.
  - intros [-> [-> | Hls]].
    + left. constructor. reflexivity.
    + right. destruct ls as [| l ls]; [contradiction |].
      constructor. reflexivity.
Qed.

Lemma Exists_false_of_Forall {A} (P : A -> Prop) (l : list A) :
  Forall (fun x => ~ P x) l -> ~ Exists P l.
Proof.
  intros HF HE. apply List.Exists_exists in HE as (x & Hin & Hx).
  rewrite List.Forall_forall in HF. exact (HF x Hin Hx).
Qed.

Lemma Tray_notifyFocusModeViolation_spec a core now s :
  isSystemApp core = false ->
  let due := Tray.notificationThrottleTime <=
             now - default 0 (Tray.notificationThrottleMap s !! core) in
  (Exists (violationFor a) (snd (Tray.notifyFocusModeViolation core now s)) <->
   a = core /\ due /\ hasReceiver (Tray.isDesktopApp s) (Tray.listeners s)) /\
  (due -> fst (Tray.notifyFocusModeViolation core now s) =
          Tray.set_notificationThrottleMap
            (<[core := now]> (Tray.notificationThrottleMap s)) s) /\
  (~ due -> fst (Tray.notifyFocusModeViolation core now s) = s).
Proof.
  intros Hsys. cbn zeta. unfold Tray.notifyFocusModeViolation. rewrite Hsys.
  cbv zeta.
  destruct (now - default 0 (Tray.notificationThrottleMap s !! core)
            <? Tray.notificationThrottleTime) eqn:E.
  - apply Z.ltb_lt in E. cmd_simpl. split; [| split].
    + split; [intros Hx; inversion Hx | intros (_ & Hx & _); lia].
    + intros Hx; lia.
    + reflexivity.
  - apply Z.ltb_ge in E. rewrite andThen_fst, andThen_snd. cmd_simpl.
    cbn [app]. tray_fields. split; [| split].
    + rewrite violation_delivery. tauto.
    + reflexivity.
    + intros Hx. contradiction.
Qed.

Lemma Tray_activeWindowChanged_violation t o now s a :
  let id := derivedIdentity t o in
  let s' := fst (Tray.activeWindowChanged t o now s) in
  (Exists (violationFor a) (snd (Tray.activeWindowChanged t o now s)) <->
   a = id /\ Tray_violationDue id now s /\
   hasReceiver (Tray.isDesktopApp s) (Tray.listeners s)) /\
  (Tray_violationDue id now s ->
   Tray.notificationThrottleMap s' = <[id := now]> (Tray.notificationThrottleMap s)) /\
  (~ Tray_violationDue id now s ->
   Tray.notificationThrottleMap s' = Tray.notificationThrottleMap s) /\
  Tray.isFocusMode s' = Tray.isFocusMode s /\
  Tray.focusModeWhitelist s' = Tray.focusModeWhitelist s /\
  Tray.isDesktopApp s' = Tray.isDesktopApp s /\
  Tray.listeners s' = Tray.listeners s /\
  Tray.localStorage s' = Tray.localStorage s.
Proof.
  cbn zeta. rewrite Tray_activeWindowChanged_state.
  unfold Tray.activeWindowChanged. rewrite !andThen_snd.
  pose proof (Tray_handleRealWindowSwitch_no_violation a t now s) as Hquiet.
  pose proof (Tray_handleRealWindowSwitch_policy t now s) as Hp. cbn zeta in Hp.
  set (s1 := fst (Tray.handleRealWindowSwitch t now s)) in *.
  destruct Hp as (Hm1 & Hw1 & Ht1 & Hd1 & Hl1 & Hs1).
  pose proof (Tray_trackAppUsage_guard t (ownerOrUnknown o) now s1) as Hg.
  cbn zeta in Hg. fold (derivedIdentity t o) in Hg.
  destruct Hg as (s3 & (Hm3 & Hw3 & Ht3 & Hd3 & Hl3 & Hs3) & Hfst & Hsnd).
  rewrite Hfst, Hsnd. clear Hfst Hsnd.
  rewrite Hm1 in Hm3. rewrite Hw1 in Hw3. rewrite Ht1 in Ht3.
  rewrite Hd1 in Hd3. rewrite Hl1 in Hl3. rewrite Hs1 in Hs3.
  rewrite Hm3, Hw3. unfold Tray_violationDue.
  cbn [Tray.set_lastActivityTime Tray.notificationThrottleMap Tray.isFocusMode
       Tray.focusModeWhitelist Tray.isDesktopApp Tray.listeners Tray.localStorage].
  assert (Hrest : forall s4 : Tray.State,
            ~ Exists (violationFor a)
                (snd (Tray.notifyAppUsageListeners s4) ++ snd (modify (Tray.set_lastActivityTime now) s4))).
  { intros s4. apply Exists_false_of_Forall. unfold Tray.notifyAppUsageListeners.
    cmd_simpl. no_violation. }
  apply Exists_false_of_Forall in Hquiet.
  rewrite !Exists_app.
  destruct (Tray.isFocusMode s) eqn:Hmode; cbn [andb];
    [destruct (isSystemApp (derivedIdentity t o)) eqn:Hsys; cbn [andb negb];
     [| destruct (isAppInWhitelist (derivedIdentity t o) (Tray.focusModeWhitelist s)) eqn:Hwl;
        cbn [negb] ] |].
  3: {
    pose proof (Tray_notifyFocusModeViolation_spec a (derivedIdentity t o) now s3 Hsys)
      as (Hiff & Hdue & Hnot). cbn zeta in Hiff, Hdue, Hnot.
    rewrite Ht3, Hd3, Hl3 in *.
    split; [| split; [| split] ].
    - rewrite Hiff. specialize (Hrest (fst (Tray.notifyFocusModeViolation (derivedIdentity t o) now s3))).
      rewrite Exists_app in Hrest. tauto.
    - intros (_ & _ & _ & H). rewrite (Hdue H). reflexivity.
    - intros H.
      destruct (Z_le_gt_dec Tray.notificationThrottleTime
                  (now - default 0 (Tray.notificationThrottleMap s !! derivedIdentity t o)))
        as [Hle | Hgt]; [exfalso; apply H; tauto |].
      rewrite Hnot by lia. exact Ht3.
    - destruct (Z_le_gt_dec Tray.notificationThrottleTime
                  (now - default 0 (Tray.notificationThrottleMap s !! derivedIdentity t o)))
        as [Hle | Hgt].
      + rewrite (Hdue Hle). cbn. repeat apply conj; assumption.
      + rewrite Hnot by lia. repeat apply conj; assumption. }
  all: cmd_simpl; cbn [fst snd].
  all: specialize (Hrest s3); rewrite Exists_app in Hrest.
  all: assert (Hnil : ~ Exists (violationFor a) []) by (intros Hn; inversion Hn).
  all: split; [split; [tauto | intros (_ & (? & ? & ? & ?) & _); congruence]
              | split; [intros (? & ? & ? & ?); congruence
                       | split; [intros _; exact Ht3 | repeat apply conj; assumption] ] ].
Qed.

(** X9. In the first service an ['active-window-changed'] message tells
    someone about a focus-mode violation of the identity [a] exactly when
    [a] is the identity derived from the message, focus mode is on, the
    identity is neither exempt by default nor on the whitelist, the last
    violation told about it is at least the throttle time back, and there
    is a host or a listener to tell. *)
Theorem Tray_violation_exactly_when_due
    (t : jsstring) (o : option jsstring) (now : Z) (s : Tray.State) (a : jsstring) :
  Exists (violationFor a) (snd (Tray.activeWindowChanged t o now s)) <->
  a = derivedIdentity t o /\ Tray_violationDue a now s /\
  hasReceiver (Tray.isDesktopApp s) (Tray.listeners s).
Proof.
  pose proof (Tray_activeWindowChanged_violation t o now s a) as [H _].
  rewrite H. split; intros (-> & Hd & Hr); auto.
Qed.

Lemma Tray_step_other_no_violation (a : jsstring) (ev : Tray.event) (s : Tray.State) :
  (forall t o now, ev <> Tray.ActiveWindowChanged t o now) ->
  Forall (fun e => ~ violationFor a e) (snd (Tray.step ev s)).
Proof.
  intros Hev.
  destruct ev as [t o now | now | now | now | | now | | active now | w now | dim now |];
    cbn [Tray.step].
  - destruct (Hev t o now eq_refl).
  - unfold Tray.idleCheck. cmd_simpl. cases; apply List.Forall_nil.
  - unfold Tray.updateScreenTime, Tray.notifyScreenTimeListeners. cmd_simpl.
    cases; cbn [fst snd app]; no_violation.
  - unfold Tray.switchTimerCallback. cmd_simpl. cases; apply List.Forall_nil.
  - apply List.Forall_nil.
  - apply List.Forall_nil.
  - unfold Tray.resetDailyStats, Tray.notifyScreenTimeListeners,
      Tray.notifyFocusScoreListeners, Tray.notifyAppUsageListeners.
    cmd_simpl. no_violation.
  - tray_policy. cmd_simpl. cases; cbn [fst snd app]; no_violation.
  - apply List.Forall_nil.
  - apply List.Forall_nil.
  - apply List.Forall_nil.
Qed.

Lemma Tray_step_other_throttle (ev : Tray.event) (s : Tray.State) :
  (forall t o now, ev <> Tray.ActiveWindowChanged t o now) ->
  Tray_keepsThrottle ev = true ->
  Tray.notificationThrottleMap (fst (Tray.step ev s)) = Tray.notificationThrottleMap s.
Proof.
  intros Hev Hk.
  destruct ev as [t o now | now | now | now | | now | | active now | w now | dim now |];
    cbn [Tray.step]; try discriminate Hk.
  - destruct (Hev t o now eq_refl).
  - unfold Tray.idleCheck. cmd_simpl. cases; reflexivity.
  - unfold Tray.updateScreenTime, Tray.notifyScreenTimeListeners. cmd_simpl.
    cases; reflexivity.
  - unfold Tray.switchTimerCallback. cmd_simpl. cases; reflexivity.
  - reflexivity.
  - reflexivity.
  - reflexivity.
  - destruct active; [discriminate Hk |]. reflexivity.
  - reflexivity.
Qed.

Lemma Tray_violationDue_dec (a : jsstring) (now : Z) (s : Tray.State) :
  Tray_violationDue a now s \/ ~ Tray_violationDue a now s.
Proof.
  unfold Tray_violationDue.
  destruct (Tray.isFocusMode s); [| right; intros (? & _); discriminate].
  destruct (isSystemApp a); [right; intros (_ & ? & _); discriminate |].
  destruct (isAppInWhitelist a _); [right; intros (_ & _ & ? & _); discriminate |].
  destruct (Z_le_gt_dec Tray.notificationThrottleTime
              (now - default 0 (Tray.notificationThrottleMap s !! a))) as [H | H].
  - left. auto.
  - right. intros (_ & _ & _ & ?). lia.
Qed.

Lemma Tray_step_throttled (a : jsstring) (last : Z) (ev : Tray.event) (s : Tray.State) :
  Tray.notificationThrottleMap s !! a = Some last ->
  Tray_keepsThrottle ev = true ->
  Tray_before (last + Tray.notificationThrottleTime) ev ->
  Forall (fun e => ~ violationFor a e) (snd (Tray.step ev s)) /\
  Tray.notificationThrottleMap (fst (Tray.step ev s)) !! a = Some last.
Proof.
  intros Hlast Hk Hb.
  assert (Hcase : (exists t o now, ev = Tray.ActiveWindowChanged t o now) \/
                  (forall t o now, ev <> Tray.ActiveWindowChanged t o now)).
  { destruct ev; try (right; discriminate). left; eauto. }
  destruct Hcase as [(t & o & now & ->) | Hother].
  - cbn [Tray.step].
    pose proof (Tray_activeWindowChanged_violation t o now s a)
      as (Hiff & Hdue & Hnot & _). cbn zeta in *.
    specialize (Hb now eq_refl).
    destruct (decide (a = derivedIdentity t o)) as [Ha | Ha].
    + subst a.
      assert (Hn : ~ Tray_violationDue (derivedIdentity t o) now s).
      { intros (_ & _ & _ & H). rewrite Hlast in H. cbn [default from_option id] in H. lia. }
      split.
      * apply Forall_Exists_neg. rewrite Hiff. tauto.
      * rewrite (Hnot Hn). exact Hlast.
    + split.
      * apply Forall_Exists_neg. rewrite Hiff. tauto.
      * destruct (Tray_violationDue_dec (derivedIdentity t o) now s) as [Hd | Hd].
        -- rewrite (Hdue Hd). rewrite lookup_insert_ne by congruence. exact Hlast.
        -- rewrite (Hnot Hd). exact Hlast.
  - split.
    + now apply Tray_step_other_no_violation.
    + rewrite Tray_step_other_throttle by assumption. exact Hlast.
Qed.

Lemma Tray_trace_throttled (a : jsstring) (last : Z) (evs : list Tray.event)
    (s : Tray.State) :
  Tray.notificationThrottleMap s !! a = Some last ->
  Forall (fun ev => Tray_keepsThrottle ev = true /\
                    Tray_before (last + Tray.notificationThrottleTime) ev) evs ->
  Forall (fun e => ~ violationFor a e) (Tray.trace evs s).
Proof.
  intros Hlast Hevs. revert s Hlast.
  induction Hevs as [| ev evs [Hk Hb] _ IH]; intros s Hlast; cbn [Tray.trace].
  - apply List.Forall_nil.
  - destruct (Tray_step_throttled a last ev s Hlast Hk Hb) as [Hout Hnext].
    apply Forall_app. split; [exact Hout | apply IH, Hnext].
Qed.

(** X10. The throttle of the first service: once a violation of an
    identity is due at [now], whether or not anyone is there to be told,
    no event that comes with a clock reading less than the throttle time
    after [now] tells anyone about that identity again, as long as the
    throttle map is not cleared by switching focus mode on, by a new
    whitelist or by [resetNotifications]. *)
Theorem Tray_violation_throttled
    (t : jsstring) (o : option jsstring) (now : Z) (s : Tray.State)
    (evs : list Tray.event) :
  let a := derivedIdentity t o in
  Tray_violationDue a now s ->
  Forall (fun ev => Tray_keepsThrottle ev = true /\
                    Tray_before (now + Tray.notificationThrottleTime) ev) evs ->
  Forall (fun e => ~ violationFor a e)
         (Tray.trace evs (fst (Tray.activeWindowChanged t o now s))).
Proof.
  cbn zeta. intros Hdue Hevs.
  apply (Tray_trace_throttled _ now); [| exact Hevs].
  pose proof (Tray_activeWindowChanged_violation t o now s (derivedIdentity t o))
    as (_ & Hstamp & _). cbn zeta in Hstamp.
  rewrite (Hstamp Hdue). apply lookup_insert_eq.
Qed.

Lemma Tray_violation_throttled_witness :
  let s := fst (Tray.setFocusMode true 500 (Tray.init true ∅ 0)) in
  let evs := [Tray.Tick 1200; Tray.ActiveWindowChanged (js "Slack") None 1400] in
  Exists (violationFor (js "Slack"))
         (snd (Tray.activeWindowChanged (js "Slack") None 1000 s)) /\
  Forall (fun e => ~ violationFor (js "Slack") e)
         (Tray.trace evs (fst (Tray.activeWindowChanged (js "Slack") None 1000 s))).
Proof.
  cbn zeta. split.
  - vm_compute. constructor. reflexivity.
  - apply (Tray_violation_throttled (js "Slack") None 1000).
    + repeat apply conj; vm_compute; (reflexivity || discriminate).
    + repeat constructor; intros now' [= <-]; vm_compute; reflexivity.
Defined.

Lemma UserTray_handleRealWindowSwitch_policy t now s :
  let s' := fst (UserTray.handleRealWindowSwitch t now s) in
  UserTray.isFocusMode s' = UserTray.isFocusMode s /\
  UserTray.focusModeWhitelist s' = UserTray.focusModeWhitelist s /\
  UserTray.notificationThrottleMap s' = UserTray.notificationThrottleMap s /\
  UserTray.processedNotifications s' = UserTray.processedNotifications s /\
  UserTray.isDesktopApp s' = UserTray.isDesktopApp s /\
  UserTray.listeners s' = UserTray.listeners s /\
  UserTray.localStorage s' = UserTray.localStorage s /\
  UserTray.currentUserId s' = UserTray.currentUserId s.
Proof.
  unfold UserTray.handleRealWindowSwitch, UserTray.handleWindowSwitch.
  cmd_simpl. cases; simpl; repeat split.
Qed.

Lemma UserTray_trackAppUsage_guard t o now s :
  let core := extractAppName (if bool_decide (o <> js "Unknown") then o else t) in
  let guard : Cmd UserTray.State := fun s =>
    if UserTray.isFocusMode s && negb (isSystemApp core) &&
       negb (isAppInWhitelist core (UserTray.focusModeWhitelist s))
    then UserTray.notifyFocusModeViolation core now s else skip s in
  exists s3,
    (UserTray.isFocusMode s3 = UserTray.isFocusMode s /\
     UserTray.focusModeWhitelist s3 = UserTray.focusModeWhitelist s /\
     UserTray.notificationThrottleMap s3 = UserTray.notificationThrottleMap s /\
     UserTray.processedNotifications s3 = UserTray.processedNotifications s /\
     UserTray.isDesktopApp s3 = UserTray.isDesktopApp s /\
     UserTray.listeners s3 = UserTray.listeners s /\
     UserTray.localStorage s3 = UserTray.localStorage s /\
     UserTray.currentUserId s3 = UserTray.currentUserId s) /\
    fst (UserTray.trackAppUsage t o now s) = fst (guard s3) /\
    snd (UserTray.trackAppUsage t o now s) =
      snd (guard s3) ++ snd (UserTray.notifyAppUsageListeners (fst (guard s3))).
Proof.
  cbn zeta. unfold UserTray.trackAppUsage. cbv zeta.
  match goal with
  | |- context [(?c1 ;- ?c2 ;- ?c3) s] => set (p1 := c1); set (p2 := c2)
  end.
  rewrite !andThen_fst, !andThen_snd.
  assert (Hout : snd (p1 s) = [] /\
                 let s3 := fst (p1 s) in
                 UserTray.isFocusMode s3 = UserTray.isFocusMode s /\
                 UserTray.focusModeWhitelist s3 = UserTray.focusModeWhitelist s /\
                 UserTray.notificationThrottleMap s3 = UserTray.notificationThrottleMap s /\
                 UserTray.processedNotifications s3 = UserTray.processedNotifications s /\
                 UserTray.isDesktopApp s3 = UserTray.isDesktopApp s /\
                 UserTray.listeners s3 = UserTray.listeners s /\
                 UserTray.localStorage s3 = UserTray.localStorage s /\
                 UserTray.currentUserId s3 = UserTray.currentUserId s).
  { subst p1. cmd_simpl. cases; simpl; repeat split. }
  destruct Hout as (-> & Hf).
  exists (fst (p1 s)). split; [exact Hf |]. split; reflexivity.
Qed.

Lemma violationKey_inj (a b : jsstring) : violationKey a = violationKey b -> a = b.
Proof. unfold violationKey. apply app_inv_head. Qed.

Lemma UserTray_violationDue_dec (a : jsstring) (now : Z) (s : UserTray.State) :
  UserTray_violationDue a now s \/ ~ UserTray_violationDue a now s.
Proof.
  unfold UserTray_violationDue.
  destruct (UserTray.isFocusMode s); [| right; intros (? & _); discriminate].
  destruct (isSystemApp a); [right; intros (_ & ? & _); discriminate |].
  destruct (isAppInWhitelist a _); [right; intros (_ & _ & ? & _); discriminate |].
  destruct (decide (violationKey a ∈ UserTray.processedNotifications s)) as [Hin | Hin];
    [right; intros (_ & _ & _ & ? & _); contradiction |].
  destruct (Z_le_gt_dec UserTray.notificationThrottleTime
              (now - default 0 (UserTray.notificationThrottleMap s !! a))) as [H | H].
  - left. auto.
  - right. intros (_ & _ & _ & _ & ?). lia.
Qed.

Lemma UserTray_notifyFocusModeViolation_spec a core now s :
  isSystemApp core = false ->
  isAppInWhitelist core (UserTray.focusModeWhitelist s) = false ->
  let due := (violationKey core ∉ UserTray.processedNotifications s) /\
             UserTray.notificationThrottleTime <=
             now - default 0 (UserTray.notificationThrottleMap s !! core) in
  (Exists (violationFor a) (snd (UserTray.notifyFocusModeViolation core now s)) <->
   a = core /\ due /\ hasReceiver (UserTray.isDesktopApp s) (UserTray.listeners s)) /\
  (due -> fst (UserTray.notifyFocusModeViolation core now s) =
          UserTray.set_processedNotifications
            ({[violationKey core]} ∪ UserTray.processedNotifications s)
            (UserTray.set_notificationThrottleMap
               (<[core := now]> (UserTray.notificationThrottleMap s)) s)) /\
  (~ due -> fst (UserTray.notifyFocusModeViolation core now s) = s).
Proof.
  intros Hsys Hwl. cbn zeta. unfold UserTray.notifyFocusModeViolation.
  rewrite Hsys, Hwl. cbv zeta. fold (violationKey core).
  destruct (bool_decide (violationKey core ∈ UserTray.processedNotifications s)) eqn:Hp.
  - apply bool_decide_eq_true in Hp. cmd_simpl. split; [| split].
    + split; [intros Hx; inversion Hx | intros (_ & (Hx & _) & _); contradiction].
    + intros (Hx & _). contradiction.
    + reflexivity.
  - apply bool_decide_eq_false in Hp.
    destruct (now - default 0 (UserTray.notificationThrottleMap s !! core)
              <? UserTray.notificationThrottleTime) eqn:E.
    + apply Z.ltb_lt in E. cmd_simpl. split; [| split].
      * split; [intros Hx; inversion Hx | intros (_ & (_ & Hx) & _); lia].
      * intros (_ & Hx); lia.
      * reflexivity.
    + apply Z.ltb_ge in E. rewrite !andThen_fst, !andThen_snd. cmd_simpl.
      cbn [app]. usertray_fields. split; [| split].
      * rewrite violation_delivery. tauto.
      * reflexivity.
      * intros Hx. tauto.
Qed.

Lemma UserTray_activeWindowChanged_violation t o now s a :
  let id := derivedIdentity t o in
  let s' := fst (UserTray.activeWindowChanged t o now s) in
  (Exists (violationFor a) (snd (UserTray.activeWindowChanged t o now s)) <->
   a = id /\ UserTray_violationDue id now s /\
   hasReceiver (UserTray.isDesktopApp s) (UserTray.listeners s)) /\
  (UserTray_violationDue id now s ->
   UserTray.notificationThrottleMap s' = <[id := now]> (UserTray.notificationThrottleMap s) /\
   UserTray.processedNotifications s' =
     {[violationKey id]} ∪ UserTray.processedNotifications s) /\
  (~ UserTray_violationDue id now s ->
   UserTray.notificationThrottleMap s' = UserTray.notificationThrottleMap s /\
   UserTray.processedNotifications s' = UserTray.processedNotifications s) /\
  UserTray.isFocusMode s' = UserTray.isFocusMode s /\
  UserTray.focusModeWhitelist s' = UserTray.focusModeWhitelist s /\
  UserTray.isDesktopApp s' = UserTray.isDesktopApp s /\
  UserTray.listeners s' = UserTray.listeners s /\
  UserTray.localStorage s' = UserTray.localStorage s /\
  UserTray.currentUserId s' = UserTray.currentUserId s.
Proof.
  cbn zeta. rewrite UserTray_activeWindowChanged_state.
  unfold UserTray.activeWindowChanged. rewrite !andThen_snd.
  pose proof (UserTray_handleRealWindowSwitch_no_violation a t now s) as Hquiet.
  pose proof (UserTray_handleRealWindowSwitch_policy t now s) as Hp. cbn zeta in Hp.
  set (s1 := fst (UserTray.handleRealWindowSwitch t now s)) in *.
  destruct Hp as (Hm1 & Hw1 & Ht1 & Hp1 & Hd1 & Hl1 & Hs1 & Hu1).
  pose proof (UserTray_trackAppUsage_guard t (ownerOrUnknown o) now s1) as Hg.
  cbn zeta in Hg. fold (derivedIdentity t o) in Hg.
  destruct Hg as (s3 & (Hm3 & Hw3 & Ht3 & Hp3 & Hd3 & Hl3 & Hs3 & Hu3) & Hfst & Hsnd).
  rewrite Hfst, Hsnd. clear Hfst Hsnd.
  rewrite Hm1 in Hm3. rewrite Hw1 in Hw3. rewrite Ht1 in Ht3. rewrite Hp1 in Hp3.
  rewrite Hd1 in Hd3. rewrite Hl1 in Hl3. rewrite Hs1 in Hs3. rewrite Hu1 in Hu3.
  rewrite Hm3, Hw3. unfold UserTray_violationDue.
  cbn [UserTray.set_lastActivityTime UserTray.notificationThrottleMap
       UserTray.processedNotifications UserTray.isFocusMode
       UserTray.focusModeWhitelist UserTray.isDesktopApp UserTray.listeners
       UserTray.localStorage UserTray.currentUserId].
  assert (Hrest : forall s4 : UserTray.State,
            ~ Exists (violationFor a)
                (snd (UserTray.notifyAppUsageListeners s4) ++
                 snd (modify (UserTray.set_lastActivityTime now) s4))).
  { intros s4. apply Exists_false_of_Forall. unfold UserTray.notifyAppUsageListeners.
    cmd_simpl. no_violation. }
  apply Exists_false_of_Forall in Hquiet.
  rewrite !Exists_app.
  destruct (UserTray.isFocusMode s) eqn:Hmode; cbn [andb];
    [destruct (isSystemApp (derivedIdentity t o)) eqn:Hsys; cbn [andb negb];
     [| destruct (isAppInWhitelist (derivedIdentity t o) (UserTray.focusModeWhitelist s)) eqn:Hwl;
        cbn [negb] ] |].
  3: {
    rewrite <- Hw3 in Hwl.
    pose proof (UserTray_notifyFocusModeViolation_spec a (derivedIdentity t o) now s3 Hsys Hwl)
      as (Hiff & Hdue & Hnot). cbn zeta in Hiff, Hdue, Hnot.
    rewrite Ht3, Hd3, Hl3, Hp3 in *.
    split; [| split; [| split] ].
    - rewrite Hiff.
      specialize (Hrest (fst (UserTray.notifyFocusModeViolation (derivedIdentity t o) now s3))).
      rewrite Exists_app in Hrest. tauto.
    - intros (_ & _ & _ & H). rewrite (Hdue H). split; reflexivity.
    - intros H.
      rewrite Hnot by tauto. split; assumption.
    - destruct (UserTray_violationDue_dec (derivedIdentity t o) now s) as [Hx | Hx];
        unfold UserTray_violationDue in Hx; rewrite Hmode, Hsys in Hx.
      + rewrite Hdue by tauto. cbn. repeat apply conj; assumption.
      + rewrite Hnot; [repeat apply conj; assumption |].
        rewrite Hw3 in Hwl. tauto. }
  all: cmd_simpl; cbn [fst snd].
  all: specialize (Hrest s3); rewrite Exists_app in Hrest.
  all: assert (Hnil : ~ Exists (violationFor a) []) by (intros Hn; inversion Hn).
  all: split; [split; [tauto | intros (_ & (? & ? & ? & ?) & _); congruence]
              | split; [intros (? & ? & ? & ?); congruence
                       | split; [intros _; split; assumption
                                | repeat apply conj; assumption] ] ].
Qed.

(** X11. In the second service an ['active-window-changed'] message tells
    someone about a focus-mode violation of the identity [a] exactly when
    [a] is the identity derived from the message, focus mode is on, the
    identity is neither exempt by default nor on the whitelist, it has not
    been told about since the set of processed notifications was last
    emptied, the throttle time has passed, and there is a host or a
    listener to tell. *)
Theorem UserTray_violation_exactly_when_due
    (t : jsstring) (o : option jsstring) (now : Z) (s : UserTray.State) (a : jsstring) :
  Exists (violationFor a) (snd (UserTray.activeWindowChanged t o now s)) <->
  a = derivedIdentity t o /\ UserTray_violationDue a now s /\
  hasReceiver (UserTray.isDesktopApp s) (UserTray.listeners s).
Proof.
  pose proof (UserTray_activeWindowChanged_violation t o now s a) as [H _].
  rewrite H. split; intros (-> & Hd & Hr); auto.
Qed.

Lemma UserTray_step_other_no_violation (a : jsstring) (ev : UserTray.event)
    (s : UserTray.State) :
  (forall t o now, ev <> UserTray.ActiveWindowChanged t o now) ->
  Forall (fun e => ~ violationFor a e) (snd (UserTray.step ev s)).
Proof.
  intros Hev.
  destruct ev as [t o now | now | now | now | | now | | u now | active now | w now | dim now |];
    cbn [UserTray.step].
  - destruct (Hev t o now eq_refl).
  - unfold UserTray.idleCheck. cmd_simpl. cases; apply List.Forall_nil.
  - unfold UserTray.updateScreenTime, UserTray.updateAppUsageTime,
      UserTray.notifyScreenTimeListeners, UserTray.notifyAppUsageListeners.
    cmd_simpl. cases; cbn [fst snd app]; no_violation.
  - unfold UserTray.switchTimerCallback. cmd_simpl. cases; apply List.Forall_nil.
  - apply List.Forall_nil.
  - unfold UserTray.persistUserData. cmd_simpl. cases; apply List.Forall_nil.
  - unfold UserTray.resetDailyStats, UserTray.notifyScreenTimeListeners,
      UserTray.notifyAppUsageListeners.
    cmd_simpl. no_violation.
  - unfold UserTray.setCurrentUser.
    destruct (bool_decide _); [| apply List.Forall_nil].
    split_out.
    all: first [ apply UserTray_resetUserData_no_violation
               | rewrite UserTray_loadUserData_silent; apply List.Forall_nil
               | solve [no_violation] ].
  - usertray_policy. cmd_simpl. cases; cbn [fst snd app]; no_violation.
  - usertray_policy. cmd_simpl. cases; apply List.Forall_nil.
  - usertray_policy. cmd_simpl. cases; apply List.Forall_nil.
  - apply List.Forall_nil.
Qed.

Lemma UserTray_step_other_processed (ev : UserTray.event) (s : UserTray.State) :
  (forall t o now, ev <> UserTray.ActiveWindowChanged t o now) ->
  UserTray_keepsProcessed ev = true ->
  UserTray.processedNotifications (fst (UserTray.step ev s)) =
  UserTray.processedNotifications s.
Proof.
  intros Hev Hk.
  destruct ev as [t o now | now | now | now | | now | | u now | active now | w now | dim now |];
    cbn [UserTray.step]; try discriminate Hk.
  - destruct (Hev t o now eq_refl).
  - unfold UserTray.idleCheck. cmd_simpl. cases; reflexivity.
  - unfold UserTray.updateScreenTime, UserTray.updateAppUsageTime,
      UserTray.notifyScreenTimeListeners, UserTray.notifyAppUsageListeners.
    cmd_simpl. cases; reflexivity.
  - unfold UserTray.switchTimerCallback. cmd_simpl. cases; reflexivity.
  - reflexivity.
  - unfold UserTray.persistUserData. cmd_simpl. cases; reflexivity.
  - reflexivity.
  - destruct active; [discriminate Hk |].
    usertray_policy. cmd_simpl. cases; reflexivity.
  - usertray_policy. cmd_simpl. cases; reflexivity.
Qed.

Lemma UserTray_step_processed (a : jsstring) (ev : UserTray.event) (s : UserTray.State) :
  violationKey a ∈ UserTray.processedNotifications s ->
  UserTray_keepsProcessed ev = true ->
  Forall (fun e => ~ violationFor a e) (snd (UserTray.step ev s)) /\
  violationKey a ∈ UserTray.processedNotifications (fst (UserTray.step ev s)).
Proof.
  intros Hin Hk.
  assert (Hcase : (exists t o now, ev = UserTray.ActiveWindowChanged t o now) \/
                  (forall t o now, ev <> UserTray.ActiveWindowChanged t o now)).
  { destruct ev; try (right; discriminate). left; eauto. }
  destruct Hcase as [(t & o & now & ->) | Hother].
  - cbn [UserTray.step].
    pose proof (UserTray_activeWindowChanged_violation t o now s a)
      as (Hiff & Hdue & Hnot & _). cbn zeta in *.
    split.
    + apply Forall_Exists_neg. rewrite Hiff. intros (-> & (_ & _ & _ & Hx & _) & _).
      contradiction.
    + destruct (UserTray_violationDue_dec (derivedIdentity t o) now s) as [Hd | Hd].
      * destruct (Hdue Hd) as [_ ->]. apply elem_of_union. right. exact Hin.
      * destruct (Hnot Hd) as [_ ->]. exact Hin.
  - split.
    + now apply UserTray_step_other_no_violation.
    + rewrite UserTray_step_other_processed by assumption. exact Hin.
Qed.

Lemma UserTray_trace_processed (a : jsstring) (evs : list UserTray.event)
    (s : UserTray.State) :
  violationKey a ∈ UserTray.processedNotifications s ->
  Forall (fun ev => UserTray_keepsProcessed ev = true) evs ->
  Forall (fun e => ~ violationFor a e) (UserTray.trace evs s).
Proof.
  intros Hin Hevs. revert s Hin.
  induction Hevs as [| ev evs Hk _ IH]; intros s Hin; cbn [UserTray.trace].
  - apply List.Forall_nil.
  - destruct (UserTray_step_processed a ev s Hin Hk) as [Hout Hnext].
    apply Forall_app. split; [exact Hout | apply IH, Hnext].
Qed.

(** X12. The second service tells about an identity once: after a
    violation of an identity was due, whether or not anyone was there to
    be told, no later event tells anyone about that identity, however much
    time passes, until focus mode is switched on again, a whitelist is
    set, [resetNotifications] is called or the user changes. *)
Theorem UserTray_violation_told_once
    (t : jsstring) (o : option jsstring) (now : Z) (s : UserTray.State)
    (evs : list UserTray.event) :
  let a := derivedIdentity t o in
  UserTray_violationDue a now s ->
  Forall (fun ev => UserTray_keepsProcessed ev = true) evs ->
  Forall (fun e => ~ violationFor a e)
         (UserTray.trace evs (fst (UserTray.activeWindowChanged t o now s))).
Proof.
  cbn zeta. intros Hdue Hevs.
  apply UserTray_trace_processed; [| exact Hevs].
  pose proof (UserTray_activeWindowChanged_violation t o now s (derivedIdentity t o))
    as (_ & Hstamp & _). cbn zeta in Hstamp.
  destruct (Hstamp Hdue) as [_ ->]. apply elem_of_union. left.
  apply elem_of_singleton. reflexivity.
Qed.

Lemma UserTray_violation_told_once_witness :
  let s := fst (UserTray.setFocusMode true 500 (UserTray.init true ∅ 0)) in
  let evs := [UserTray.ActiveWindowChanged (js "Mail") None 5000;
              UserTray.ActiveWindowChanged (js "Slack") None 900000] in
  Exists (violationFor (js "Slack"))
         (snd (UserTray.activeWindowChanged (js "Slack") None 3000 s)) /\
  Forall (fun e => ~ violationFor (js "Slack") e)
         (UserTray.trace evs (fst (UserTray.activeWindowChanged (js "Slack") None 3000 s))).
Proof.
  cbn zeta. split.
  - vm_compute. right. left. reflexivity.
  - apply (UserTray_violation_told_once (js "Slack") None 3000).
    + repeat apply conj;
        first [ apply not_elem_of_empty | vm_compute; (reflexivity || discriminate) ].
    + repeat constructor.
Defined.

(** ** Restarting the first service *)

Lemma Tray_restoreApp_toSaved (now : Z) (m : gmap jsstring Tray.AppData)
    (k : jsstring) (d : Tray.AppData) :
  Tray.restoreApp now m (Tray.toSaved (k, d)) =
  if isEmptyString k then m else <[k := Tray_restored now d]> m.
Proof. unfold Tray.restoreApp. destruct k; reflexivity. Qed.

Lemma Tray_foldl_restoreApp (now : Z) (l : list (jsstring * Tray.AppData))
    (m0 : gmap jsstring Tray.AppData) (k : jsstring) :
  NoDup (l.*1) ->
  foldl (Tray.restoreApp now) m0 (List.map Tray.toSaved l) !! k =
  if isEmptyString k then m0 !! k
  else match (list_to_map l : gmap jsstring Tray.AppData) !! k with
       | Some d => Some (Tray_restored now d)
       | None => m0 !! k
       end.
Proof.
  revert m0. induction l as [|[k1 d1] l IH]; intros m0 Hnd.
  - cbn. destruct (isEmptyString k); reflexivity.
  - cbn [List.map foldl fmap list_fmap] in *. apply NoDup_cons in Hnd as [Hk1 Hnd].
    rewrite (IH _ Hnd), Tray_restoreApp_toSaved. cbn [list_to_map foldr curry uncurry].
    destruct k as [|c k]; cbn [isEmptyString].
    + destruct k1; cbn [isEmptyString]; [reflexivity|].
      rewrite lookup_insert_ne by discriminate. reflexivity.
    + destruct (decide (k1 = c :: k)) as [-> | Hne].
      * cbn [isEmptyString].
        rewrite (not_elem_of_list_to_map_1 _ _ Hk1), !lookup_insert_eq. reflexivity.
      * rewrite (lookup_insert_ne _ k1 (c :: k)) by exact Hne.
        destruct (list_to_map l !! (c :: k)); [reflexivity|].
        destruct k1; cbn [isEmptyString]; [reflexivity|].
        rewrite lookup_insert_ne by exact Hne. reflexivity.
Qed.

Lemma Tray_restore_saved_usage (now : Z) (m : gmap jsstring Tray.AppData) (k : jsstring) :
  foldl (Tray.restoreApp now) ∅ (List.map Tray.toSaved (map_to_list m)) !! k =
  if isEmptyString k then None else Tray_restored now <$> (m !! k).
Proof.
  rewrite Tray_foldl_restoreApp by apply NoDup_fst_map_to_list.
  rewrite list_to_map_to_list, lookup_empty.
  destruct (isEmptyString k); [reflexivity|]. destruct (m !! k); reflexivity.
Qed.

Lemma Tray_loadPersistedData_fresh now s saved t0 :
  Tray.localStorage s !! Tray.storageKey = Some (Tray.dataToSave t0 saved) ->
  now - t0 < maxAge ->
  fst (Tray.loadPersistedData now s) =
  Tray.set_appUsageData
    (foldl (Tray.restoreApp now) (Tray.appUsageData s)
       (List.map Tray.toSaved (map_to_list (Tray.appUsageData saved))))
    (Tray.set_dimInsteadOfBlock (Tray.dimInsteadOfBlock saved)
       (Tray.set_isFocusMode (Tray.isFocusMode saved)
          (Tray.set_focusModeWhitelist (mergeWhitelist (Tray.focusModeWhitelist saved))
             (Tray.set_distractionCount (Tray.distractionCount saved)
                (Tray.set_focusScore (Tray.orElse (Some (Tray.focusScore saved)) 100)
                   (Tray.set_screenTimeToday (Tray.screenTimeToday saved) s)))))).
Proof.
  intros H Hage. unfold Tray.loadPersistedData. rewrite H.
  cbn [Tray.dataToSave Tray.Saved.timestamp Tray.Saved.screenTimeToday
       Tray.Saved.focusScore Tray.Saved.distractionCount
       Tray.Saved.focusModeWhitelist Tray.Saved.isFocusMode
       Tray.Saved.dimInsteadOfBlock Tray.Saved.appUsageData
       default from_option id].
  destruct (Z.ltb_spec (now - t0) maxAge); [|lia].
  cmd_simpl. reflexivity.
Qed.

Lemma Tray_loadPersistedData_stale now s saved t0 :
  Tray.localStorage s !! Tray.storageKey = Some (Tray.dataToSave t0 saved) ->
  maxAge <= now - t0 ->
  fst (Tray.loadPersistedData now s) =
  Tray.set_localStorage (delete Tray.storageKey (Tray.localStorage s)) s.
Proof.
  intros H Hage. unfold Tray.loadPersistedData. rewrite H.
  cbn [Tray.dataToSave Tray.Saved.timestamp default from_option id].
  destruct (Z.ltb_spec (now - t0) maxAge); [lia | reflexivity].
Qed.

(** X13. The first service across a restart.  When it saves its state at
    [t0] and a new service is constructed less than 24 hours later, the new
    service has the saved screen time, distraction count, focus-mode flag
    and dim option, the saved whitelist merged with the defaults, every
    usage record with a non-empty identity (a last-active time of 0
    replaced by the time of loading), and the saved focus score unless
    that was 0, which comes back as 100.  The record under the empty
    identity is dropped, and what was only in memory starts from scratch:
    the time of the last reminder, the throttle map.  At 24 hours or more
    the blob is deleted and the service starts as over a storage without
    it. *)
Theorem Tray_restart_round_trip (desktop : bool) (t0 now : Z) (s : Tray.State) :
  let s' := Tray_restarted desktop t0 now s in
  (now - t0 < maxAge ->
   Tray.screenTimeToday s' = Tray.screenTimeToday s /\
   Tray.distractionCount s' = Tray.distractionCount s /\
   Tray.focusScore s' = (if Tray.focusScore s =? 0 then 100 else Tray.focusScore s) /\
   Tray.focusModeWhitelist s' = mergeWhitelist (Tray.focusModeWhitelist s) /\
   Tray.isFocusMode s' = Tray.isFocusMode s /\
   Tray.dimInsteadOfBlock s' = Tray.dimInsteadOfBlock s /\
   (forall k, Tray.appUsageData s' !! k =
              if isEmptyString k then None
              else Tray_restored now <$> (Tray.appUsageData s !! k)) /\
   Tray.lastNotificationTime s' = 0 /\
   Tray.notificationThrottleMap s' = ∅ /\
   Tray.localStorage s' !! Tray.storageKey = Some (Tray.dataToSave t0 s)) /\
  (maxAge <= now - t0 ->
   s' = Tray.init desktop (delete Tray.storageKey (Tray.localStorage s)) now).
Proof.
  cbn zeta. unfold Tray_restarted, Tray.init.
  rewrite !andThen_fst.
  set (storage := Tray.localStorage (fst (Tray.persistData t0 s))).
  assert (Hst : Tray.localStorage (Tray.fresh desktop storage) !! Tray.storageKey =
                Some (Tray.dataToSave t0 s)).
  { subst storage. unfold Tray.persistData. cmd_simpl.
    cbn [Tray.fresh Tray.localStorage Tray.set_localStorage]. apply lookup_insert_eq. }
  split.
  - intros Hage. rewrite (Tray_loadPersistedData_fresh _ _ _ _ Hst Hage).
    unfold Tray.initializeScreenTimeTracking. rewrite andThen_fst. cmd_simpl.
    tray_fields. cbn [Tray.fresh Tray.localStorage Tray.orElse Tray.appUsageData
                      Tray.lastNotificationTime Tray.notificationThrottleMap].
    repeat apply conj; try reflexivity.
    + intros k. apply Tray_restore_saved_usage.
    + exact Hst.
  - intros Hage. rewrite (Tray_loadPersistedData_stale _ _ _ _ Hst Hage).
    assert (Hnone : (delete Tray.storageKey (Tray.localStorage s)) !! Tray.storageKey = None)
      by apply lookup_delete_eq.
    unfold Tray.loadPersistedData.
    cbn [Tray.fresh Tray.localStorage]. rewrite Hnone.
    subst storage. unfold Tray.persistData. cmd_simpl.
    cbn [Tray.fresh Tray.localStorage Tray.set_localStorage].
    rewrite delete_insert_eq. reflexivity.
Qed.

Lemma Tray_restart_round_trip_witness :
  let s := Tray.run (threeSwitches Tray.ActiveWindowChanged) (Tray.init true ∅ 0) in
  let s' := Tray_restarted true 203000 204000 s in
  204000 - 203000 < maxAge /\
  Tray.focusScore s' = 95 /\
  Tray.distractionCount s' = 1 /\
  Tray.appUsageData s' !! js "Mail" =
    Tray_restored 204000 <$> (Tray.appUsageData s !! js "Mail").
Proof.
  cbn zeta.
  assert (Hage : 204000 - 203000 < maxAge) by (vm_compute; reflexivity).
  destruct (proj1 (Tray_restart_round_trip true 203000 204000
                     (Tray.run (threeSwitches Tray.ActiveWindowChanged)
                        (Tray.init true ∅ 0))) Hage)
    as (_ & Hd & Hf & _ & _ & _ & Hu & _).
  split; [exact Hage |]. split; [| split].
  - rewrite Hf. vm_compute. reflexivity.
  - rewrite Hd. vm_compute. reflexivity.
  - exact (Hu (js "Mail")).
Defined.

(** ** Storage of the second service *)

Lemma userDataKey_inj (u v : jsstring) :
  UserTray.userDataKey u = UserTray.userDataKey v -> u = v.
Proof. unfold UserTray.userDataKey. apply app_inv_head. Qed.

Lemma UserTray_persistUserData_other (k : jsstring) (now : Z) (s : UserTray.State) :
  (forall u, UserTray.currentUserId s = Some u -> k <> UserTray.userDataKey u) ->
  UserTray.localStorage (fst (UserTray.persistUserData now s)) !! k =
  UserTray.localStorage s !! k.
Proof.
  intros Hk. unfold UserTray.persistUserData.
  destruct (UserTray.currentUserId s) as [u |] eqn:Hu; [| reflexivity].
  destruct (isEmptyString u); [reflexivity |].
  cmd_simpl. usertray_fields. apply lookup_insert_ne.
  intros E. exact (Hk u eq_refl (eq_sym E)).
Qed.

Lemma UserTray_step_storage (k : jsstring) (ev : UserTray.event) (s : UserTray.State) :
  (forall u, UserTray.currentUserId s = Some u -> k <> UserTray.userDataKey u) ->
  UserTray.localStorage (fst (UserTray.step ev s)) !! k = UserTray.localStorage s !! k.
Proof.
  intros Hk.
  destruct ev as [t o now | now | now | now | | now | | u now | active now | w now | dim now |];
    cbn [UserTray.step].
  - pose proof (UserTray_activeWindowChanged_violation t o now s []) as H.
    cbn zeta in H. destruct H as (_ & _ & _ & _ & _ & _ & _ & -> & _). reflexivity.
  - rewrite UserTray_idleCheck_state. reflexivity.
  - unfold UserTray.updateScreenTime, UserTray.updateAppUsageTime,
      UserTray.notifyScreenTimeListeners, UserTray.notifyAppUsageListeners.
    cmd_simpl. cases; reflexivity.
  - unfold UserTray.switchTimerCallback. cmd_simpl. cases; reflexivity.
  - reflexivity.
  - now apply UserTray_persistUserData_other.
  - reflexivity.
  - unfold UserTray.setCurrentUser, UserTray.resetUserData, UserTray.loadUserData,
      UserTray.notifyScreenTimeListeners, UserTray.notifyAppUsageListeners,
      UserTray.notifyFocusModeListeners.
    cmd_simpl. cases; reflexivity.
  - unfold UserTray.setFocusMode. rewrite !andThen_fst.
    unfold call at 1. cbn [fst].
    rewrite UserTray_persistUserData_other; [destruct active; reflexivity |].
    destruct active; exact Hk.
  - unfold UserTray.setFocusModeWhitelist. rewrite !andThen_fst.
    rewrite UserTray_persistUserData_other; [reflexivity | exact Hk].
  - unfold UserTray.setDimOption. rewrite !andThen_fst.
    rewrite UserTray_persistUserData_other; [reflexivity | exact Hk].
  - reflexivity.
Qed.

Lemma UserTray_step_currentUserId (ev : UserTray.event) (s : UserTray.State) :
  UserTray.currentUserId (fst (UserTray.step ev s)) =
  match ev with
  | UserTray.SetCurrentUser u _ => Some u
  | _ => UserTray.currentUserId s
  end.
Proof.
  destruct ev as [t o now | now | now | now | | now | | u now | active now | w now | dim now |];
    cbn [UserTray.step].
  - pose proof (UserTray_activeWindowChanged_violation t o now s []) as H.
    cbn zeta in H. destruct H as (_ & _ & _ & _ & _ & _ & _ & _ & ->). reflexivity.
  - rewrite UserTray_idleCheck_state. reflexivity.
  - unfold UserTray.updateScreenTime, UserTray.updateAppUsageTime,
      UserTray.notifyScreenTimeListeners, UserTray.notifyAppUsageListeners.
    cmd_simpl. cases; reflexivity.
  - unfold UserTray.switchTimerCallback. cmd_simpl. cases; reflexivity.
  - reflexivity.
  - unfold UserTray.persistUserData. cmd_simpl.
    cases; cbn [fst]; usertray_fields; congruence.
  - reflexivity.
  - unfold UserTray.setCurrentUser.
    destruct (bool_decide (UserTray.currentUserId s <> Some u)) eqn:E.
    + unfold UserTray.resetUserData, UserTray.loadUserData,
        UserTray.notifyScreenTimeListeners, UserTray.notifyAppUsageListeners,
        UserTray.notifyFocusModeListeners.
      cmd_simpl. cases; reflexivity.
    + apply bool_decide_eq_false in E. cbn [skip fst].
      destruct (decide (UserTray.currentUserId s = Some u)); [assumption | contradiction].
  - usertray_policy. cmd_simpl. cases; cbn [fst]; usertray_fields; congruence.
  - usertray_policy. cmd_simpl. cases; cbn [fst]; usertray_fields; congruence.
  - usertray_policy. cmd_simpl. cases; cbn [fst]; usertray_fields; congruence.
  - reflexivity.
Qed.

Lemma usersOf_current (current : option jsstring) (evs : list UserTray.event) (u : jsstring) :
  current = Some u -> In u (usersOf current evs).
Proof.
  intros ->. induction evs as [| ev evs IH]; cbn [usersOf]; [now left |].
  destruct ev; try exact IH. now left.
Qed.

(** X14. The second service writes to storage only under the key of the
    user it is working for: over any run of events, what the storage holds
    under any other key, the data of every other user included, is what it
    held before.  With nobody signed in nothing is written at all. *)
Theorem UserTray_storage_isolation
    (key : jsstring) (evs : list UserTray.event) (s : UserTray.State) :
  (forall u, In u (usersOf (UserTray.currentUserId s) evs) ->
             key <> UserTray.userDataKey u) ->
  UserTray.localStorage (UserTray.run evs s) !! key = UserTray.localStorage s !! key.
Proof.
  revert s. induction evs as [| ev evs IH]; intros s Hk; [reflexivity |].
  cbn [UserTray.run]. rewrite IH.
  - apply UserTray_step_storage. intros u Hu. apply Hk.
    now apply usersOf_current.
  - intros u Hu. apply Hk. rewrite UserTray_step_currentUserId in Hu.
    destruct ev; cbn [usersOf]; try exact Hu.
    apply in_or_app. right. exact Hu.
Qed.

Lemma UserTray_storage_isolation_witness :
  let other := UserTray.userDataKey (js "u2") in
  let blob := UserTray.dataToSave 100 (UserTray.init true ∅ 0) in
  let s := UserTray.init true {[ other := blob ]} 0 in
  let evs := [UserTray.SetCurrentUser (js "u1") 500;
              UserTray.ActiveWindowChanged (js "Slack") None 1000;
              UserTray.Tick 60000; UserTray.Persist 61000] in
  UserTray.localStorage (UserTray.run evs s) !! other = Some blob /\
  UserTray.localStorage (UserTray.run evs s) !! UserTray.userDataKey (js "u1") <> None.
Proof.
  cbn zeta. split.
  - rewrite UserTray_storage_isolation.
    + apply lookup_singleton_eq.
    + intros u [<- | []]. intros E. vm_compute in E. discriminate E.
  - vm_compute. discriminate.
Defined.

(** ** The usage ledger of the second service *)

Lemma ledgerTotal_empty : ledgerTotal ∅ = 0.
Proof. unfold ledgerTotal. apply map_fold_empty. Qed.

Lemma ledgerTotal_insert_new (k : jsstring) (d : UserTray.AppData)
    (m : gmap jsstring UserTray.AppData) :
  m !! k = None -> ledgerTotal (<[k := d]> m) = UserTray.time d + ledgerTotal m.
Proof.
  intros H. unfold ledgerTotal.
  rewrite map_fold_insert_L; [reflexivity | | exact H].
  intros. lia.
Qed.

Lemma ledgerTotal_insert (k : jsstring) (d : UserTray.AppData)
    (m : gmap jsstring UserTray.AppData) :
  ledgerTotal (<[k := d]> m) =
  ledgerTotal m + UserTray.time d -
  match m !! k with Some d0 => UserTray.time d0 | None => 0 end.
Proof.
  destruct (m !! k) as [d0 |] eqn:E.
  - rewrite <- (insert_delete_eq m k d).
    rewrite <- (insert_delete_id m k d0 E) at 2.
    rewrite !ledgerTotal_insert_new by apply lookup_delete_eq. lia.
  - rewrite ledgerTotal_insert_new by exact E. lia.
Qed.

Lemma UserTray_trackAppUsage_ledger t o now s :
  ledgerTotal (UserTray.appUsageData (fst (UserTray.trackAppUsage t o now s))) =
  ledgerTotal (UserTray.appUsageData s).
Proof.
  unfold UserTray.trackAppUsage, UserTray.notifyFocusModeViolation,
    UserTray.notifyAppUsageListeners.
  cmd_simpl.
  cases; cbn [fst]; usertray_fields; rewrite ledgerTotal_insert;
    match goal with H : _ !! _ = _ |- _ => rewrite H end;
    cbn [UserTray.time]; lia.
Qed.

Lemma UserTray_updateScreenTime_ledger now s :
  let s' := fst (UserTray.updateScreenTime now s) in
  ledgerTotal (UserTray.appUsageData s') = ledgerTotal (UserTray.appUsageData s) \/
  ledgerTotal (UserTray.appUsageData s') - ledgerTotal (UserTray.appUsageData s) =
  UserTray.screenTimeToday s' - UserTray.screenTimeToday s.
Proof.
  cbn zeta. rewrite UserTray_updateScreenTime_usage.
  rewrite (proj2 (UserTray_updateScreenTime_fields now s)).
  destruct (UserTray.userIdleTime s <? idleThreshold); [| now left].
  destruct (UserTray.lastActiveWindow s) as [w |]; [| now left].
  destruct (isEmptyString w); [now left |].
  destruct (UserTray.appUsageData s !! w) as [d |] eqn:E; [| now left].
  right. rewrite ledgerTotal_insert, E. cbn [UserTray.time]. lia.
Qed.

Lemma UserTray_step_ledger (ev : UserTray.event) (s : UserTray.State) (t0 : Z) :
  sameUser ev = true ->
  UserTray.lastScreenTimeUpdate s <= t0 ->
  UserTray.chronological t0 [ev] ->
  ledgerTotal (UserTray.appUsageData s) <= UserTray.screenTimeToday s ->
  let s' := fst (UserTray.step ev s) in
  ledgerTotal (UserTray.appUsageData s') <= UserTray.screenTimeToday s'.
Proof.
  intros Hu Ht Hc Hinv. cbn zeta.
  destruct ev as [t o now | now | now | now | | now | | u now | active now | w now | dim now |];
    cbn [UserTray.step]; try discriminate Hu.
  - rewrite UserTray_activeWindowChanged_state.
    cbn [UserTray.set_lastActivityTime UserTray.appUsageData UserTray.screenTimeToday].
    rewrite UserTray_trackAppUsage_ledger.
    pose proof (UserTray_handleRealWindowSwitch_fields t now s) as Hh. cbn zeta in Hh.
    pose proof (UserTray_trackAppUsage_fields t (ownerOrUnknown o) now
                  (fst (UserTray.handleRealWindowSwitch t now s))) as Hf. cbn zeta in Hf.
    destruct Hh as (-> & _ & Hs1 & _). destruct Hf as (_ & Hs2 & _).
    rewrite Hs2, Hs1. exact Hinv.
  - rewrite UserTray_idleCheck_state. exact Hinv.
  - pose proof (UserTray_updateScreenTime_ledger now s) as Hl. cbn zeta in Hl.
    pose proof (proj2 (UserTray_updateScreenTime_fields now s)) as Hs. cbn zeta in Hs.
    cbn [UserTray.chronological UserTray.eventTime] in Hc. destruct Hc as [Hc _].
    destruct (UserTray.userIdleTime s <? idleThreshold); lia.
  - unfold UserTray.switchTimerCallback. cmd_simpl. cases; exact Hinv.
  - exact Hinv.
  - unfold UserTray.persistUserData. cmd_simpl. cases; exact Hinv.
  - unfold UserTray.resetDailyStats, UserTray.notifyScreenTimeListeners,
      UserTray.notifyAppUsageListeners. cmd_simpl. usertray_fields.
    rewrite ledgerTotal_empty. lia.
  - usertray_policy. cmd_simpl. cases; exact Hinv.
  - usertray_policy. cmd_simpl. cases; exact Hinv.
  - usertray_policy. cmd_simpl. cases; exact Hinv.
  - exact Hinv.
Qed.

(** X15. In the second service the usage records never hold more time
    than the day's screen time: when events arrive in the order of their
    clock readings and the user stays the same, the sum of the records'
    times stays at or below the accumulated screen time.  (A tick adds the
    elapsed time to the screen time and to at most one record; nothing
    else adds to a record.) *)
Theorem UserTray_ledger_within_screen_time
    (evs : list UserTray.event) (s : UserTray.State) (t0 : Z) :
  ledgerTotal (UserTray.appUsageData s) <= UserTray.screenTimeToday s ->
  UserTray.lastScreenTimeUpdate s <= t0 ->
  UserTray.chronological t0 evs ->
  forallb sameUser evs = true ->
  ledgerTotal (UserTray.appUsageData (UserTray.run evs s)) <=
  UserTray.screenTimeToday (UserTray.run evs s).
Proof.
  revert s t0. induction evs as [| ev evs IH]; intros s t0 Hinv Ht Hc Hu.
  - exact Hinv.
  - cbn [forallb] in Hu. apply andb_true_iff in Hu as [Hev Hu].
    cbn [UserTray.run].
    destruct (UserTray_chronological_run [ev] evs s t0 Ht Hc) as (t1 & Ht1 & Hc1).
    apply (IH _ t1); try assumption.
    apply (UserTray_step_ledger ev s t0); try assumption.
    cbn [UserTray.chronological] in *. destruct (UserTray.eventTime ev); tauto.
Qed.

Lemma UserTray_ledger_within_screen_time_witness :
  let s := UserTray.init true ∅ 0 in
  let evs := [UserTray.ActiveWindowChanged (js "Slack") None 1000;
              UserTray.Tick 60000;
              UserTray.ActiveWindowChanged (js "Mail - Inbox") None 70000;
              UserTray.Tick 120000] in
  ledgerTotal (UserTray.appUsageData (UserTray.run evs s)) <=
  UserTray.screenTimeToday (UserTray.run evs s) /\
  ledgerTotal (UserTray.appUsageData (UserTray.run evs s)) = 60000 /\
  UserTray.screenTimeToday (UserTray.run evs s) = 120000.
Proof.
  cbn zeta. split; [| split; vm_compute; reflexivity].
  apply (UserTray_ledger_within_screen_time _ _ 0).
  - vm_compute. discriminate.
  - vm_compute. discriminate.
  - cbn. lia.
  - reflexivity.
Defined.

(** ** The usage ledger of the first service *)

Lemma Tray_trackAppUsage_record t o now s :
  let core := extractAppName (if bool_decide (o <> js "Unknown") then o else t) in
  let credited := (Tray.userIdleTime s <? idleThreshold) &&
                  bool_decide (Tray.lastActiveWindow s = Some core) in
  Tray.appUsageData (fst (Tray.trackAppUsage t o now s)) !! core =
  Some {| Tray.time :=
            match Tray.appUsageData s !! core with
            | Some d => Tray.time d
            | None => 0
            end + (if credited then now - Tray.lastActivityTime s else 0);
          Tray.type :=
            match Tray.appUsageData s !! core with
            | Some d => Tray.type d
            | None => determineAppType core
            end;
          Tray.lastActiveTime := now |}.
Proof.
  unfold Tray.trackAppUsage, Tray.notifyFocusModeViolation, Tray.notifyAppUsageListeners.
  cmd_simpl.
  cases; simpl in *; simplify_map_eq; repeat f_equal; try lia; try congruence.
Qed.

Lemma Tray_activeWindowChanged_usage
    (t : jsstring) (o : option jsstring) (now : Z) (s : Tray.State) :
  let id := derivedIdentity t o in
  let s' := fst (Tray.activeWindowChanged t o now s) in
  (forall k, k <> id -> Tray.appUsageData s' !! k = Tray.appUsageData s !! k) /\
  Tray.appUsageData s' !! id =
  Some {| Tray.time :=
            match Tray.appUsageData s !! id with
            | Some d => Tray.time d
            | None => 0
            end + (if Tray_credits t o s then now - Tray.lastActivityTime s else 0);
          Tray.type :=
            match Tray.appUsageData s !! id with
            | Some d => Tray.type d
            | None => determineAppType id
            end;
          Tray.lastActiveTime := now |}.
Proof.
  cbn zeta. rewrite Tray_activeWindowChanged_state.
  cbn [Tray.set_lastActivityTime Tray.appUsageData].
  pose proof (Tray_handleRealWindowSwitch_fields t now s) as Hh. cbn zeta in Hh.
  destruct Hh as (Hu & Ha & _ & _ & Hi & Hw & _).
  pose proof (Tray_trackAppUsage_usage t (ownerOrUnknown o) now
                (fst (Tray.handleRealWindowSwitch t now s))) as [_ Hother].
  pose proof (Tray_trackAppUsage_record t (ownerOrUnknown o) now
                (fst (Tray.handleRealWindowSwitch t now s))) as Hrec.
  cbn zeta in Hother, Hrec. fold (derivedIdentity t o) in Hother, Hrec.
  rewrite Hu, Ha, Hi, Hw in Hrec. rewrite Hu in Hother.
  split; [exact Hother |].
  rewrite Hrec. unfold Tray_credits.
  destruct (Tray.userIdleTime s <? idleThreshold); cbn [andb]; [| reflexivity].
  destruct (decide (t = derivedIdentity t o)) as [E | E].
  - rewrite !bool_decide_eq_true_2; [reflexivity | exact E | congruence].
  - rewrite !bool_decide_eq_false_2; [reflexivity | exact E | congruence].
Qed.


(** X16. What an ['active-window-changed'] message does to the usage
    records of the first service.  Only the record of the derived identity
    changes: it is created if missing, with the category of the identity,
    keeps its category otherwise, and is stamped with the time of the
    message.  It gains time only when the user is not idle and the window
    title is itself the derived identity, and then it gains all the time
    since the previous message, whichever window that was for. *)
Theorem Tray_usage_credit
    (t : jsstring) (o : option jsstring) (now : Z) (s : Tray.State) :
  let id := derivedIdentity t o in
  let s' := fst (Tray.activeWindowChanged t o now s) in
  (forall k, k <> id -> Tray.appUsageData s' !! k = Tray.appUsageData s !! k) /\
  Tray.appUsageData s' !! id =
  Some {| Tray.time :=
            match Tray.appUsageData s !! id with
            | Some d => Tray.time d
            | None => 0
            end + (if Tray_credits t o s then now - Tray.lastActivityTime s else 0);
          Tray.type :=
            match Tray.appUsageData s !! id with
            | Some d => Tray.type d
            | None => determineAppType id
            end;
          Tray.lastActiveTime := now |}.
Proof. exact (Tray_activeWindowChanged_usage t o now s). Qed.

Lemma Tray_usage_credit_witness :
  let s := Tray.run [Tray.ActiveWindowChanged (js "Mail") None 1000] (Tray.init true ∅ 0) in
  let s' := fst (Tray.activeWindowChanged (js "Inbox - Mail") None 5000 s) in
  Tray.appUsageData s' !! js "Mail" = Tray.appUsageData s !! js "Mail" /\
  Tray.time <$> (Tray.appUsageData s' !! js "Inbox") = Some 0.
Proof.
  cbn zeta. split.
  - apply (proj1 (Tray_usage_credit (js "Inbox - Mail") None 5000 _)).
    intros E. vm_compute in E. discriminate E.
  - vm_compute. reflexivity.
Defined.

(** ** Changing the user *)

(** X17. When the second service changes to another user it tells its
    listeners the defaults, screen time 0, no usage records, focus mode
    off, and nothing else, whatever the storage holds; what it then loads
    for the user from a blob less than 24 hours old is in its state but was
    told to nobody.  Setting the user who is already current does nothing. *)
Theorem UserTray_setCurrentUser_announces_defaults
    (userId : jsstring) (now : Z) (s : UserTray.State) :
  (UserTray.currentUserId s = Some userId ->
   UserTray.setCurrentUser userId now s = (s, [])) /\
  (UserTray.currentUserId s <> Some userId ->
   snd (UserTray.setCurrentUser userId now s) =
     List.map (fun l => ScreenTimeListener l 0) (UserTray.screenTimeListeners s) ++
     List.map (fun l => AppUsageListener l ∅) (UserTray.appUsageListeners s) ++
     List.map (fun l => FocusModeListener l false) (UserTray.focusModeListeners s) /\
   forall saved t0,
     UserTray.localStorage s !! UserTray.userDataKey userId =
       Some (UserTray.dataToSave t0 saved) ->
     now - t0 < maxAge ->
     let s' := fst (UserTray.setCurrentUser userId now s) in
     UserTray.screenTimeToday s' = UserTray.screenTimeToday saved /\
     UserTray.isFocusMode s' = UserTray.isFocusMode saved).
Proof.
  split.
  - intros Hu. unfold UserTray.setCurrentUser.
    rewrite bool_decide_eq_false_2; [reflexivity |]. intros H. exact (H Hu).
  - intros Hu. split.
    + unfold UserTray.setCurrentUser. rewrite bool_decide_eq_true_2 by exact Hu.
      rewrite !andThen_snd, UserTray_loadUserData_silent.
      unfold UserTray.resetUserData, UserTray.notifyScreenTimeListeners,
        UserTray.notifyAppUsageListeners, UserTray.notifyFocusModeListeners.
      cmd_simpl. usertray_fields. cbn [app].
      rewrite fmap_empty, !app_nil_r. reflexivity.
    + intros saved t0 Hst Hage. cbn zeta.
      rewrite UserTray_setCurrentUser_switch by exact Hu.
      rewrite (UserTray_loadUserData_fresh userId now _ saved t0); [| | exact Hage].
      * split; reflexivity.
      * rewrite UserTray_resetUserData_state. exact Hst.
Qed.

Lemma UserTray_setCurrentUser_announces_defaults_witness :
  let s := fst (UserTray.addScreenTimeListener 3 emptyTitleSaved) in
  let s0 := fst (UserTray.addScreenTimeListener 3
                   (UserTray.init true (UserTray.localStorage emptyTitleSaved) 62000)) in
  UserTray.setCurrentUser (js "u1") 62000 s = (s, []) /\
  snd (UserTray.setCurrentUser (js "u1") 63000 s0) = [ScreenTimeListener 3 0] /\
  UserTray.screenTimeToday (fst (UserTray.setCurrentUser (js "u1") 63000 s0)) = 60000.
Proof.
  cbn zeta. split; [| split].
  - apply (proj1 (UserTray_setCurrentUser_announces_defaults (js "u1") 62000 _)).
    vm_compute. reflexivity.
  - assert (Hu : UserTray.currentUserId
                   (fst (UserTray.addScreenTimeListener 3
                           (UserTray.init true (UserTray.localStorage emptyTitleSaved) 62000)))
                 <> Some (js "u1")) by (vm_compute; discriminate).
    rewrite (proj1 (proj2 (UserTray_setCurrentUser_announces_defaults (js "u1") 63000 _) Hu)).
    vm_compute. reflexivity.
  - vm_compute. reflexivity.
Defined.

(** ** Usage records along a run *)

Lemma Tray_step_usage (ev : Tray.event) (s : Tray.State) :
  (forall t o now, ev <> Tray.ActiveWindowChanged t o now) ->
  Tray.isReset ev = false ->
  Tray.appUsageData (fst (Tray.step ev s)) = Tray.appUsageData s /\
  Tray.lastActivityTime (fst (Tray.step ev s)) = Tray.lastActivityTime s.
Proof.
  intros Hev Hr.
  destruct ev as [t o now | now | now | now | | now | | active now | w now | dim now |];
    cbn [Tray.step]; try discriminate Hr.
  - destruct (Hev t o now eq_refl).
  - rewrite Tray_idleCheck_state. split; reflexivity.
  - rewrite Tray_updateScreenTime_state.
    destruct (Tray.userIdleTime s <? idleThreshold); split; reflexivity.
  - unfold Tray.switchTimerCallback. cmd_simpl. cases; split; reflexivity.
  - split; reflexivity.
  - split; reflexivity.
  - tray_policy. cmd_simpl. cases; split; reflexivity.
  - split; reflexivity.
  - split; reflexivity.
  - split; reflexivity.
Qed.

Lemma Tray_activeWindowChanged_lastActivityTime t o now s :
  Tray.lastActivityTime (fst (Tray.activeWindowChanged t o now s)) = now.
Proof. rewrite Tray_activeWindowChanged_state. reflexivity. Qed.

Lemma Tray_step_record (k : jsstring) (d : Tray.AppData) (ev : Tray.event)
    (s : Tray.State) (t0 : Z) :
  Tray.lastActivityTime s <= t0 ->
  Tray.chronological t0 [ev] ->
  Tray.isReset ev = false ->
  Tray.appUsageData s !! k = Some d ->
  let s' := fst (Tray.step ev s) in
  (exists d', Tray.appUsageData s' !! k = Some d' /\
              Tray.type d' = Tray.type d /\ Tray.time d <= Tray.time d') /\
  (forall now, Tray.eventTime ev = Some now -> Tray.lastActivityTime s' <= now) /\
  (Tray.eventTime ev = None -> Tray.lastActivityTime s' = Tray.lastActivityTime s).
Proof.
  intros Ht Hc Hr Hk. cbn zeta.
  assert (Hcase : (exists t o now, ev = Tray.ActiveWindowChanged t o now) \/
                  (forall t o now, ev <> Tray.ActiveWindowChanged t o now)).
  { destruct ev; try (right; discriminate). left; eauto. }
  destruct Hcase as [(t & o & now & ->) | Hother].
  - cbn [Tray.step Tray.eventTime Tray.chronological] in *.
    destruct Hc as [Hc _].
    rewrite Tray_activeWindowChanged_lastActivityTime.
    split; [| split; [intros ? [= <-]; lia | discriminate] ].
    pose proof (Tray_activeWindowChanged_usage t o now s) as [Hother Hid].
    cbn zeta in Hother, Hid.
    destruct (decide (k = derivedIdentity t o)) as [-> | Hne].
    + rewrite Hid, Hk. eexists. split; [reflexivity |]. cbn [Tray.type Tray.time].
      split; [reflexivity |]. destruct (Tray_credits t o s); lia.
    + rewrite (Hother k Hne), Hk. exists d. split; [reflexivity |]. split; [reflexivity | lia].
  - destruct (Tray_step_usage ev s Hother Hr) as [-> ->].
    split; [exists d; split; [exact Hk |]; split; [reflexivity | lia] |].
    split; [| reflexivity].
    intros now Hnow. cbn [Tray.chronological] in Hc. rewrite Hnow in Hc. lia.
Qed.

Lemma Tray_run_record (k : jsstring) (evs : list Tray.event) :
  forall (d : Tray.AppData) (s : Tray.State) (t0 : Z),
  Tray.lastActivityTime s <= t0 ->
  Tray.chronological t0 evs ->
  noReset evs ->
  Tray.appUsageData s !! k = Some d ->
  exists d', Tray.appUsageData (Tray.run evs s) !! k = Some d' /\
             Tray.type d' = Tray.type d /\ Tray.time d <= Tray.time d'.
Proof.
  induction evs as [| ev evs IH]; intros d s t0 Ht Hc Hr Hk.
  - exists d. split; [exact Hk |]. split; [reflexivity | lia].
  - unfold noReset in Hr. cbn [forallb] in Hr. apply andb_true_iff in Hr as [Hev Hr].
    apply negb_true_iff in Hev. cbn [Tray.run].
    assert (Hc1 : Tray.chronological t0 [ev]).
    { cbn [Tray.chronological] in *. destruct (Tray.eventTime ev); tauto. }
    destruct (Tray_step_record k d ev s t0 Ht Hc1 Hev Hk) as ((d1 & Hk1 & Hty1 & Htm1) & Hs & Hn).
    cbn [Tray.chronological] in Hc.
    destruct (Tray.eventTime ev) as [now |] eqn:E.
    + destruct Hc as [_ Hc].
      destruct (IH d1 _ now (Hs now eq_refl) Hc Hr Hk1) as (d' & Hk' & Hty' & Htm').
      exists d'. split; [exact Hk' |]. split; [congruence | lia].
    + rewrite <- (Hn eq_refl) in Ht.
      destruct (IH d1 _ t0 Ht Hc Hr Hk1) as (d' & Hk' & Hty' & Htm').
      exists d'. split; [exact Hk' |]. split; [congruence | lia].
Qed.

Lemma UserTray_trackAppUsage_record t o now s :
  let core := extractAppName (if bool_decide (o <> js "Unknown") then o else t) in
  UserTray.appUsageData (fst (UserTray.trackAppUsage t o now s)) !! core =
  Some {| UserTray.time :=
            match UserTray.appUsageData s !! core with
            | Some d => UserTray.time d
            | None => 0
            end;
          UserTray.type :=
            match UserTray.appUsageData s !! core with
            | Some d => UserTray.type d
            | None => determineAppType core
            end;
          UserTray.lastActiveTime := now;
          UserTray.sessionStart :=
            match UserTray.appUsageData s !! core with
            | Some d => UserTray.sessionStart d
            | None => now
            end |}.
Proof.
  unfold UserTray.trackAppUsage, UserTray.notifyFocusModeViolation,
    UserTray.notifyAppUsageListeners.
  cmd_simpl.
  cases; simpl in *; simplify_map_eq; repeat f_equal; try lia; try congruence.
Qed.

Lemma UserTray_activeWindowChanged_usage
    (t : jsstring) (o : option jsstring) (now : Z) (s : UserTray.State) :
  let id := derivedIdentity t o in
  let s' := fst (UserTray.activeWindowChanged t o now s) in
  (forall k, k <> id -> UserTray.appUsageData s' !! k = UserTray.appUsageData s !! k) /\
  UserTray.appUsageData s' !! id =
  Some {| UserTray.time :=
            match UserTray.appUsageData s !! id with
            | Some d => UserTray.time d
            | None => 0
            end;
          UserTray.type :=
            match UserTray.appUsageData s !! id with
            | Some d => UserTray.type d
            | None => determineAppType id
            end;
          UserTray.lastActiveTime := now;
          UserTray.sessionStart :=
            match UserTray.appUsageData s !! id with
            | Some d => UserTray.sessionStart d
            | None => now
            end |}.
Proof.
  cbn zeta. rewrite UserTray_activeWindowChanged_state.
  cbn [UserTray.set_lastActivityTime UserTray.appUsageData].
  pose proof (UserTray_handleRealWindowSwitch_fields t now s) as Hh. cbn zeta in Hh.
  destruct Hh as (Hu & _).
  pose proof (UserTray_trackAppUsage_usage t (ownerOrUnknown o) now
                (fst (UserTray.handleRealWindowSwitch t now s))) as [_ Hother].
  pose proof (UserTray_trackAppUsage_record t (ownerOrUnknown o) now
                (fst (UserTray.handleRealWindowSwitch t now s))) as Hrec.
  cbn zeta in Hother, Hrec. fold (derivedIdentity t o) in Hother, Hrec.
  rewrite Hu in Hrec. rewrite Hu in Hother.
  split; [exact Hother | exact Hrec].
Qed.

Lemma UserTray_step_usage (ev : UserTray.event) (s : UserTray.State) :
  (forall t o now, ev <> UserTray.ActiveWindowChanged t o now) ->
  (forall now, ev <> UserTray.Tick now) ->
  UserTray.isReset ev = false ->
  UserTray.appUsageData (fst (UserTray.step ev s)) = UserTray.appUsageData s.
Proof.
  intros Hev Htick Hr.
  destruct ev as [t o now | now | now | now | | now | | u now | active now | w now | dim now |];
    cbn [UserTray.step]; try discriminate Hr.
  - destruct (Hev t o now eq_refl).
  - rewrite UserTray_idleCheck_state. reflexivity.
  - destruct (Htick now eq_refl).
  - unfold UserTray.switchTimerCallback. cmd_simpl. cases; reflexivity.
  - reflexivity.
  - unfold UserTray.persistUserData. cmd_simpl. cases; reflexivity.
  - usertray_policy. cmd_simpl. cases; reflexivity.
  - usertray_policy. cmd_simpl. cases; reflexivity.
  - usertray_policy. cmd_simpl. cases; reflexivity.
  - reflexivity.
Qed.

Lemma UserTray_step_record (k : jsstring) (d : UserTray.AppData) (ev : UserTray.event)
    (s : UserTray.State) (t0 : Z) :
  UserTray.lastScreenTimeUpdate s <= t0 ->
  UserTray.chronological t0 [ev] ->
  UserTray.isReset ev = false ->
  UserTray.appUsageData s !! k = Some d ->
  exists d', UserTray.appUsageData (fst (UserTray.step ev s)) !! k = Some d' /\
             UserTray.type d' = UserTray.type d /\
             UserTray.sessionStart d' = UserTray.sessionStart d /\
             UserTray.time d <= UserTray.time d'.
Proof.
  intros Ht Hc Hr Hk.
  assert (Hcase : (exists t o now, ev = UserTray.ActiveWindowChanged t o now) \/
                  (exists now, ev = UserTray.Tick now) \/
                  ((forall t o now, ev <> UserTray.ActiveWindowChanged t o now) /\
                   (forall now, ev <> UserTray.Tick now))).
  { destruct ev; try (right; right; split; discriminate);
      [left; eauto | right; left; eauto]. }
  destruct Hcase as [(t & o & now & ->) | [(now & ->) | [Hother Htick] ] ].
  - cbn [UserTray.step].
    pose proof (UserTray_activeWindowChanged_usage t o now s) as [Hother Hid].
    cbn zeta in Hother, Hid.
    destruct (decide (k = derivedIdentity t o)) as [-> | Hne].
    + rewrite Hid, Hk. eexists. split; [reflexivity |].
      cbn [UserTray.type UserTray.time UserTray.sessionStart].
      repeat split; lia.
    + rewrite (Hother k Hne), Hk. exists d. repeat split; lia.
  - cbn [UserTray.step]. rewrite UserTray_updateScreenTime_usage.
    cbn [UserTray.chronological UserTray.eventTime] in Hc. destruct Hc as [Hc _].
    destruct (UserTray.userIdleTime s <? idleThreshold); [| exists d; repeat split; [exact Hk | lia] ].
    destruct (UserTray.lastActiveWindow s) as [w |]; [| exists d; repeat split; [exact Hk | lia] ].
    destruct (isEmptyString w); [exists d; repeat split; [exact Hk | lia] |].
    destruct (UserTray.appUsageData s !! w) as [dw |] eqn:Ew;
      [| exists d; repeat split; [exact Hk | lia] ].
    destruct (decide (k = w)) as [-> | Hne].
    + rewrite lookup_insert_eq. eexists. split; [reflexivity |].
      cbn [UserTray.type UserTray.time UserTray.sessionStart].
      assert (dw = d) as -> by congruence. repeat split; lia.
    + rewrite lookup_insert_ne by congruence. exists d. repeat split; [exact Hk | lia].
  - rewrite (UserTray_step_usage ev s Hother Htick Hr).
    exists d. repeat split; [exact Hk | lia].
Qed.

Lemma UserTray_run_record (k : jsstring) (evs : list UserTray.event) :
  forall (d : UserTray.AppData) (s : UserTray.State) (t0 : Z),
  UserTray.lastScreenTimeUpdate s <= t0 ->
  UserTray.chronological t0 evs ->
  UserTray_noReset evs ->
  UserTray.appUsageData s !! k = Some d ->
  exists d', UserTray.appUsageData (UserTray.run evs s) !! k = Some d' /\
             UserTray.type d' = UserTray.type d /\
             UserTray.sessionStart d' = UserTray.sessionStart d /\
             UserTray.time d <= UserTray.time d'.
Proof.
  induction evs as [| ev evs IH]; intros d s t0 Ht Hc Hr Hk.
  - exists d. repeat split; [exact Hk | lia].
  - unfold UserTray_noReset in Hr. cbn [forallb] in Hr.
    apply andb_true_iff in Hr as [Hev Hr]. apply negb_true_iff in Hev.
    cbn [UserTray.run].
    assert (Hc1 : UserTray.chronological t0 [ev]).
    { cbn [UserTray.chronological] in *. destruct (UserTray.eventTime ev); tauto. }
    destruct (UserTray_step_record k d ev s t0 Ht Hc1 Hev Hk)
      as (d1 & Hk1 & Hty1 & Hss1 & Htm1).
    destruct (UserTray_chronological_run [ev] evs s t0 Ht Hc) as (t1 & Ht1 & Hc').
    cbn [UserTray.run] in Ht1.
    destruct (IH d1 _ t1 Ht1 Hc' Hr Hk1) as (d' & Hk' & Hty' & Hss' & Htm').
    exists d'. split; [exact Hk' |]. repeat split; (congruence || lia).
Qed.

(** X18. Between resets no usage record is lost and none loses time: in
    both services, when events arrive in the order of their clock readings
    and none of them is the daily reset (or, in the second service, a
    change of user), an identity that has a record keeps a record, with the
    category it was given when first seen and with at least the time it
    had; in the second service with its session start as well. *)
Theorem usage_records_grow :
  (forall (k : jsstring) (d : Tray.AppData) (evs : list Tray.event) (s : Tray.State),
     Tray_inOrderSince s evs -> noReset evs ->
     Tray.appUsageData s !! k = Some d ->
     exists d', Tray.appUsageData (Tray.run evs s) !! k = Some d' /\
                Tray.type d' = Tray.type d /\ Tray.time d <= Tray.time d') /\
  (forall (k : jsstring) (d : UserTray.AppData) (evs : list UserTray.event)
          (s : UserTray.State),
     UserTray_inOrderSince s evs -> UserTray_noReset evs ->
     UserTray.appUsageData s !! k = Some d ->
     exists d', UserTray.appUsageData (UserTray.run evs s) !! k = Some d' /\
                UserTray.type d' = UserTray.type d /\
                UserTray.sessionStart d' = UserTray.sessionStart d /\
                UserTray.time d <= UserTray.time d').
Proof.
  split.
  - intros k d evs s (t0 & Ht & Hc) Hr Hk. exact (Tray_run_record k evs d s t0 Ht Hc Hr Hk).
  - intros k d evs s (t0 & Ht & Hc) Hr Hk.
    exact (UserTray_run_record k evs d s t0 Ht Hc Hr Hk).
Qed.

Lemma usage_records_grow_witness :
  let s := Tray.run [Tray.ActiveWindowChanged (js "Mail") None 1000] (Tray.init true ∅ 0) in
  let evs := [Tray.ActiveWindowChanged (js "Chat") None 5000; Tray.Tick 60000;
              Tray.ActiveWindowChanged (js "Mail") None 61000] in
  let d := {| Tray.time := 1000; Tray.type := determineAppType (js "Mail");
              Tray.lastActiveTime := 1000 |} in
  Tray.appUsageData s !! js "Mail" = Some d /\
  exists d', Tray.appUsageData (Tray.run evs s) !! js "Mail" = Some d' /\
             Tray.type d' = Tray.type d /\ Tray.time d <= Tray.time d'.
Proof.
  cbn zeta.
  assert (Hk : Tray.appUsageData
                 (Tray.run [Tray.ActiveWindowChanged (js "Mail") None 1000]
                    (Tray.init true ∅ 0)) !! js "Mail" =
               Some {| Tray.time := 1000; Tray.type := determineAppType (js "Mail");
                       Tray.lastActiveTime := 1000 |})
    by (vm_compute; reflexivity).
  split; [exact Hk |].
  apply (proj1 usage_records_grow (js "Mail") _ _ _); [| reflexivity | exact Hk].
  exists 1000. split; [vm_compute; discriminate | cbn; lia].
Defined.

(** ** The debounced switch count *)


Lemma dispatches_map_none {A} (f : A -> effect) (l : list A) :
  (forall x, isDispatch (f x) = false) -> dispatches (List.map f l) = 0%nat.
Proof. apply countb_map_none. Qed.















